(** * Negative viewport height example: viewport, winding and rebuild policy

    A shallow embedding of [examples/negativeviewportheight/negativeviewportheight.cpp].
    The C++ [float] fields of [vk::Viewport] and of the quad vertices are
    modelled as IEEE-754 binary32 values through the parameterised
    specification of [SpecFloat] (24 bits of precision, [emax = 128]);
    [int32_t] and [uint32_t] values are integers in [Z]; Vulkan calls are
    recorded in an explicit log threaded through a small state-and-error
    monad. *)

From stdpp Require Import base list gmap strings.
From Stdlib Require Import ZArith Lia Lqa Bool Floats.SpecFloat QArith Qpower.
Open Scope Z_scope.

(** ** binary32 arithmetic *)

Module F32.
Definition prec : Z := 24.
Definition emax : Z := 128.
Definition float := spec_float.

(** Conversion of an integer to [float] ([(float)height], and the implicit
    conversion of [offsetx] in [viewport.x = offsetx]): round to nearest,
    ties to even. *)
Definition of_Z (z : Z) : float := binary_normalize prec emax z 0 false.

Definition neg : float -> float := SFopp.
Definition sub : float -> float -> float := SFsub prec emax.
Definition mul : float -> float -> float := SFmul prec emax.
Definition div : float -> float -> float := SFdiv prec emax.

(** The literals [0.0f] and [1.0f]. *)
Definition zero : float := S754_zero false.
Definition one : float := S754_finite false 8388608 (-23).

Definition is_finite (x : float) : bool :=
  match x with S754_zero _ | S754_finite _ _ _ => true | _ => false end.

Definition is_positive (x : float) : bool :=
  match x with S754_finite false _ _ => true | _ => false end.

(** The integer a float denotes, when it denotes one. *)
Definition to_Z (x : float) : option Z :=
  match x with
  | S754_zero _ => Some 0
  | S754_finite s m e =>
      if 0 <=? e then Some (cond_Zopp s (Zpos m * 2 ^ e))
      else if Zpos m mod 2 ^ (- e) =? 0
           then Some (cond_Zopp s (Zpos m / 2 ^ (- e)))
           else None
  | _ => None
  end.

(** The rational a finite float denotes (0 for infinities and NaN, which
    [is_finite] tells apart). *)
Definition to_Q (x : float) : Q :=
  match x with
  | S754_finite s m e =>
      let v := (inject_Z (Zpos m) * (2 # 1) ^ e)%Q in
      if s then (- v)%Q else v
  | _ => 0%Q
  end.
End F32.

(** ** Vulkan values

    Handles, result codes and enumerators with the numbers the Vulkan
    headers ([vulkan_core.h]) give them: [VK_SUCCESS = 0],
    [VK_CULL_MODE_NONE = 0], [VK_CULL_MODE_FRONT_BIT = 1],
    [VK_CULL_MODE_BACK_BIT = 2], [VK_CULL_MODE_FRONT_AND_BACK = 3]. *)

Definition handle := Z.
Definition VK_NULL_HANDLE : handle := 0.

Definition VkResult := Z.
Definition VK_SUCCESS : VkResult := 0.

Definition VK_CULL_MODE_NONE : Z := 0.
Definition VK_CULL_MODE_FRONT_BIT : Z := 1.
Definition VK_CULL_MODE_BACK_BIT : Z := 2.
Definition VK_CULL_MODE_FRONT_AND_BACK : Z := 3.

Inductive VkFrontFace := VK_FRONT_FACE_COUNTER_CLOCKWISE | VK_FRONT_FACE_CLOCKWISE.
Inductive VkPolygonMode := VK_POLYGON_MODE_FILL.
Inductive VkDynamicState := VK_DYNAMIC_STATE_VIEWPORT | VK_DYNAMIC_STATE_SCISSOR.

(** [uint32_t] wrap-around, for the [VkCullModeFlags] member. *)
Definition u32 (z : Z) : Z := z mod 2 ^ 32.

Record Viewport := {
  vp_x : F32.float; vp_y : F32.float;
  vp_width : F32.float; vp_height : F32.float;
  vp_minDepth : F32.float; vp_maxDepth : F32.float
}.

Record RasterizationState := {
  polygonMode : VkPolygonMode;
  lineWidth : F32.float;
  rs_cullMode : Z;
  frontFace : VkFrontFace
}.

Record PipelineCreateInfo := {
  rasterizationState : RasterizationState;
  dynamicStates : list VkDynamicState
}.

(** The members of [struct Quad] and of [struct DescriptorSets], used as the
    names of the buffers and descriptor sets a command binds. *)
Inductive QuadBuffer := BufVerticesYUp | BufVerticesYDown | BufIndicesCCW | BufIndicesCW.
Inductive DescriptorSet := SetCW | SetCCW.

(** The two members of [struct Textures], the files [loadAssets] reads them
    from (lines 151-152), and the texture [setupDescriptors] writes into each
    descriptor set (lines 212-215). *)
Inductive Texture := TextureCW | TextureCCW.

Definition texture_file (t : Texture) : string :=
  match t with
  | TextureCW => "textures/texture_orientation_cw_rgba.ktx"
  | TextureCCW => "textures/texture_orientation_ccw_rgba.ktx"
  end.

Definition writeDescriptorSets (ds : DescriptorSet) : Texture :=
  match ds with
  | SetCW => TextureCW
  | SetCCW => TextureCCW
  end.

(** The commands a draw command buffer holds. [CmdDrawUI] stands for the
    base class's [drawUI], whose own commands are not part of the example. *)
Inductive Cmd :=
| CmdBeginRenderPass (framebuffer : nat) (x y w h : Z)
| CmdBindPipeline (p : handle)
| CmdSetViewport (vp : Viewport)
| CmdSetScissor (a b c d : Z)
| CmdBindDescriptorSets (ds : DescriptorSet)
| CmdBindIndexBuffer (b : QuadBuffer) (offset : Z)
| CmdBindVertexBuffers (b : QuadBuffer) (offset : Z)
| CmdDrawIndexed (indexCount instanceCount firstIndex vertexOffset firstInstance : Z)
| CmdDrawUI
| CmdEndRenderPass.

(** Calls into the device that change what is alive or can fail. *)
Inductive Call :=
| CallDestroyPipeline (p : handle)
| CallLoadShader (path : string)
| CallCreateGraphicsPipelines (ci : PipelineCreateInfo)
| CallBeginCommandBuffer (i : nat)
| CallEndCommandBuffer (i : nat).

(** What the driver answers to a call: a result code and, for a creating
    call, the handle it writes. *)
Record Reply := { result : VkResult; created : handle }.

(** ** Geometry ([loadAssets]) *)

Record Vertex := { pos : F32.float * F32.float * F32.float; uv : F32.float * F32.float }.

Definition mkVertex (x y z u v : F32.float) : Vertex := {| pos := (x, y, z); uv := (u, v) |}.

Section Geometry.
Import F32.

(** [const float ar = (float)height / (float)width;] *)
Definition aspect (width height : Z) : float := div (of_Z height) (of_Z width).

(** OpenGL style (y points upwards). *)
Definition verticesYPos (ar : float) : list Vertex :=
  [ mkVertex (mul (neg one) ar) one one zero one;
    mkVertex (mul (neg one) ar) (neg one) one zero zero;
    mkVertex (mul one ar) (neg one) one one zero;
    mkVertex (mul one ar) one one one one ].

(** Vulkan style (y points downwards). *)
Definition verticesYNeg (ar : float) : list Vertex :=
  [ mkVertex (mul (neg one) ar) (neg one) one zero one;
    mkVertex (mul (neg one) ar) one one zero zero;
    mkVertex (mul one ar) one one one zero;
    mkVertex (mul one ar) (neg one) one one one ].

Definition indices_ccw : list nat := [2; 1; 0; 0; 3; 2]%nat.
Definition indices_cw : list nat := [0; 1; 2; 2; 3; 0]%nat.
End Geometry.

(** What the four buffers of [struct Quad] hold. *)
Record Quad := {
  verticesYUp : list Vertex;
  verticesYDown : list Vertex;
  indicesCCW : list nat;
  indicesCW : list nat
}.

Definition loadAssets (width height : Z) : Quad :=
  let ar := aspect width height in
  {| verticesYUp := verticesYPos ar;
     verticesYDown := verticesYNeg ar;
     indicesCCW := indices_ccw;
     indicesCW := indices_cw |}.

(** ** The example's state *)

(** The user-visible settings, lines 31-36. *)
Record Settings := {
  negativeViewport : bool;
  offsety : Z;
  offsetx : Z;
  windingOrder : Z;
  cullMode : Z;
  quadType : Z
}.

Definition defaultSettings : Settings :=
  {| negativeViewport := true;
     offsety := 0;
     offsetx := 0;
     windingOrder := 1;
     cullMode := VK_CULL_MODE_BACK_BIT;
     quadType := 0 |}.

(** The example object together with the part of the device it talks to:
    the contents of the draw command buffers, the pipelines alive, the calls
    made so far and the driver's answers, indexed by call number. *)
Record World := {
  settings : Settings;
  pipeline : handle;
  prepared : bool;
  width : Z;
  height : Z;
  drawCmdBuffers : list (list Cmd);
  livePipelines : gset Z;
  calls : list Call;
  replies : nat -> Reply
}.

(** The object after its constructor, on a [width] x [height] swapchain with
    [n] images. *)
Definition VulkanExample (w h : Z) (n : nat) (drv : nat -> Reply) : World :=
  {| settings := defaultSettings;
     pipeline := VK_NULL_HANDLE;
     prepared := false;
     width := w;
     height := h;
     drawCmdBuffers := replicate n [];
     livePipelines := ∅;
     calls := [];
     replies := drv |}.

Definition set_settings (s : Settings) (w : World) : World :=
  {| settings := s; pipeline := pipeline w; prepared := prepared w;
     width := width w; height := height w; drawCmdBuffers := drawCmdBuffers w;
     livePipelines := livePipelines w; calls := calls w; replies := replies w |}.

Definition set_pipeline (p : handle) (w : World) : World :=
  {| settings := settings w; pipeline := p; prepared := prepared w;
     width := width w; height := height w; drawCmdBuffers := drawCmdBuffers w;
     livePipelines := livePipelines w; calls := calls w; replies := replies w |}.

Definition set_prepared (b : bool) (w : World) : World :=
  {| settings := settings w; pipeline := pipeline w; prepared := b;
     width := width w; height := height w; drawCmdBuffers := drawCmdBuffers w;
     livePipelines := livePipelines w; calls := calls w; replies := replies w |}.

Definition set_drawCmdBuffers (l : list (list Cmd)) (w : World) : World :=
  {| settings := settings w; pipeline := pipeline w; prepared := prepared w;
     width := width w; height := height w; drawCmdBuffers := l;
     livePipelines := livePipelines w; calls := calls w; replies := replies w |}.

Definition set_livePipelines (s : gset Z) (w : World) : World :=
  {| settings := settings w; pipeline := pipeline w; prepared := prepared w;
     width := width w; height := height w; drawCmdBuffers := drawCmdBuffers w;
     livePipelines := s; calls := calls w; replies := replies w |}.

Definition set_calls (l : list Call) (w : World) : World :=
  {| settings := settings w; pipeline := pipeline w; prepared := prepared w;
     width := width w; height := height w; drawCmdBuffers := drawCmdBuffers w;
     livePipelines := livePipelines w; calls := l; replies := replies w |}.

(** ** A state and abort monad

    [VK_CHECK_RESULT] ends the process on any result other than
    [VK_SUCCESS]; [Fatal] keeps the world as it was at that point. *)

Inductive Outcome (A : Type) :=
| Done (a : A) (w : World)
| Fatal (r : VkResult) (w : World).
Arguments Done {A} a w.
Arguments Fatal {A} r w.

Definition M (A : Type) : Type := World -> Outcome A.

#[global] Instance M_ret : MRet M := fun A a w => Done a w.
#[global] Instance M_bind : MBind M := fun A B f m w =>
  match m w with
  | Done a w' => f a w'
  | Fatal r w' => Fatal r w'
  end.

Definition gets {A} (f : World -> A) : M A := fun w => Done (f w) w.
Definition modify (f : World -> World) : M unit := fun w => Done tt (f w).
Definition abort {A} (r : VkResult) : M A := fun w => Fatal r w.

Definition when (b : bool) (m : M unit) : M unit := if b then m else mret tt.

(** The driver's answer to the call about to be made, and the call logged. *)
Definition call (c : Call) : M Reply :=
  fun w => Done (replies w (length (calls w))) (set_calls (calls w ++ [c]) w).

(** Modelled from the spec: the macro [VK_CHECK_RESULT] is defined in the
    base library, not in the example; every fallible operation is checked at
    the call site and any failure ends the process. *)
Definition VK_CHECK_RESULT (m : M VkResult) : M unit :=
  r ← m; if decide (r = VK_SUCCESS) then mret tt else abort r.

(** ** Device calls *)

Definition vkDestroyPipeline (p : handle) : M unit :=
  call (CallDestroyPipeline p);;
  modify (fun w => set_livePipelines (livePipelines w ∖ {[p]}) w).

(** On success the new handle is written to [pipeline] and becomes alive; on
    failure the driver writes [VK_NULL_HANDLE]. *)
Definition vkCreateGraphicsPipelines (ci : PipelineCreateInfo) : M VkResult :=
  r ← call (CallCreateGraphicsPipelines ci);
  (if decide (result r = VK_SUCCESS)
   then modify (fun w => set_pipeline (created r)
                           (set_livePipelines ({[created r]} ∪ livePipelines w) w))
   else modify (set_pipeline VK_NULL_HANDLE));;
  mret (result r).

(** Modelled from the spec: [loadShader] is the base class's shader-loading
    facility, which takes a path and a stage and returns a stage handle; here
    it is the call it makes. *)
Definition loadShader (path : string) : M unit :=
  call (CallLoadShader path);; mret tt.

(** Beginning a command buffer empties it. *)
Definition vkBeginCommandBuffer (i : nat) : M VkResult :=
  r ← call (CallBeginCommandBuffer i);
  (if decide (result r = VK_SUCCESS)
   then modify (fun w => set_drawCmdBuffers (<[i := []]> (drawCmdBuffers w)) w)
   else mret tt);;
  mret (result r).

Definition vkEndCommandBuffer (i : nat) : M VkResult :=
  r ← call (CallEndCommandBuffer i); mret (result r).

(** Every [vkCmd...] call appends one command to the buffer it names. *)
Definition record (i : nat) (c : Cmd) : M unit :=
  modify (fun w =>
    set_drawCmdBuffers
      (<[i := default [] (drawCmdBuffers w !! i) ++ [c]]> (drawCmdBuffers w)) w).

(** ** [buildCommandBuffers] *)

(** Lines 108-123: the viewport of a frame. *)
Definition viewport_of (flip : bool) (ox oy w h : Z) : Viewport :=
  if flip then
    {| vp_x := F32.of_Z ox;
       vp_y := F32.sub (F32.of_Z h) (F32.of_Z oy);
       vp_width := F32.of_Z w;
       vp_height := F32.neg (F32.of_Z h);
       vp_minDepth := F32.zero;
       vp_maxDepth := F32.one |}
  else
    {| vp_x := F32.of_Z ox;
       vp_y := F32.of_Z oy;
       vp_width := F32.of_Z w;
       vp_height := F32.of_Z h;
       vp_minDepth := F32.zero;
       vp_maxDepth := F32.one |}.

(** Line 135: the vertex buffer both draws read. *)
Definition vertexBuffer_of (s : Settings) : QuadBuffer :=
  if decide (quadType s = 0) then BufVerticesYDown else BufVerticesYUp.

(** The [vkCmd...] calls of one pass of the loop, lines 103-144, in order. *)
Definition frameCommands (s : Settings) (p : handle) (w h : Z) (i : nat) : list Cmd :=
  [ CmdBeginRenderPass i 0 0 w h;
    CmdBindPipeline p;
    CmdSetViewport (viewport_of (negativeViewport s) (offsetx s) (offsety s) w h);
    CmdSetScissor w h 0 0;
    CmdBindDescriptorSets SetCW;
    CmdBindIndexBuffer BufIndicesCW 0;
    CmdBindVertexBuffers (vertexBuffer_of s) 0;
    CmdDrawIndexed 6 1 0 0 0;
    CmdBindDescriptorSets SetCCW;
    CmdBindIndexBuffer BufIndicesCCW 0;
    CmdDrawIndexed 6 1 0 0 0;
    CmdDrawUI;
    CmdEndRenderPass ].

Fixpoint for_each {A} (l : list A) (body : A -> M unit) : M unit :=
  match l with
  | [] => mret tt
  | i :: l' => body i;; for_each l' body
  end.

(** The body of the loop, lines 99-146, for command buffer [i]. *)
Definition buildCommandBuffer (i : nat) : M unit :=
  VK_CHECK_RESULT (vkBeginCommandBuffer i);;
  w ← gets id;
  for_each (frameCommands (settings w) (pipeline w) (width w) (height w) i) (record i);;
  VK_CHECK_RESULT (vkEndCommandBuffer i).

Definition buildCommandBuffers : M unit :=
  n ← gets (fun w => length (drawCmdBuffers w));
  for_each (seq 0 n) buildCommandBuffer.

(** ** [preparePipelines] *)

Definition rasterization_of (s : Settings) : RasterizationState :=
  {| polygonMode := VK_POLYGON_MODE_FILL;
     lineWidth := F32.one;
     rs_cullMode := u32 (VK_CULL_MODE_NONE + cullMode s);
     frontFace := if decide (windingOrder s = 0)
                  then VK_FRONT_FACE_CLOCKWISE
                  else VK_FRONT_FACE_COUNTER_CLOCKWISE |}.

Definition createInfo_of (s : Settings) : PipelineCreateInfo :=
  {| rasterizationState := rasterization_of s;
     dynamicStates := [VK_DYNAMIC_STATE_VIEWPORT; VK_DYNAMIC_STATE_SCISSOR] |}.

Definition vertexShader : string := "shaders/negativeviewportheight/quad.vert.spv".
Definition fragmentShader : string := "shaders/negativeviewportheight/quad.frag.spv".

Definition preparePipelines : M unit :=
  p ← gets pipeline;
  when (bool_decide (p ≠ VK_NULL_HANDLE)) (vkDestroyPipeline p);;
  s ← gets settings;
  loadShader vertexShader;;
  loadShader fragmentShader;;
  VK_CHECK_RESULT (vkCreateGraphicsPipelines (createInfo_of s)).

(** ** [prepare]

    Lines 289-291: the pipeline is built, then the command buffers are
    recorded, then [prepared] is set. The two calls that come first, the base
    class's [prepare] (line 286, outside the example) and [setupDescriptors]
    (line 288), create the layouts, the descriptor pool and the descriptor
    sets: no pipeline and no command buffer. They are not part of this
    definition, which starts where they have returned, and their calls are
    not in the log. *)
Definition prepare : M unit :=
  preparePipelines;;
  buildCommandBuffers;;
  modify (set_prepared true).

(** ** [OnUpdateUIOverlay] *)

(** Modelled from the spec: the overlay is the base library's facility of
    headers, combo boxes, check boxes and integer sliders with change
    notification. One pass reports whether each header is open and, for each
    widget, either [None] (it returned [false]) or the value it wrote through
    its pointer before returning [true]. *)
Record Overlay := {
  header_scene : bool;
  combo_quadtype : option Z;
  header_viewport : bool;
  check_negative : option bool;
  slider_offsetx : option Z;
  slider_offsety : option Z;
  header_pipeline : bool;
  combo_windingorder : option Z;
  combo_cullmode : option Z
}.

Definition set_quadType (v : Z) (s : Settings) : Settings :=
  {| negativeViewport := negativeViewport s; offsety := offsety s; offsetx := offsetx s;
     windingOrder := windingOrder s; cullMode := cullMode s; quadType := v |}.
Definition set_negativeViewport (v : bool) (s : Settings) : Settings :=
  {| negativeViewport := v; offsety := offsety s; offsetx := offsetx s;
     windingOrder := windingOrder s; cullMode := cullMode s; quadType := quadType s |}.
Definition set_offsetx (v : Z) (s : Settings) : Settings :=
  {| negativeViewport := negativeViewport s; offsety := offsety s; offsetx := v;
     windingOrder := windingOrder s; cullMode := cullMode s; quadType := quadType s |}.
Definition set_offsety (v : Z) (s : Settings) : Settings :=
  {| negativeViewport := negativeViewport s; offsety := v; offsetx := offsetx s;
     windingOrder := windingOrder s; cullMode := cullMode s; quadType := quadType s |}.
Definition set_windingOrder (v : Z) (s : Settings) : Settings :=
  {| negativeViewport := negativeViewport s; offsety := offsety s; offsetx := offsetx s;
     windingOrder := v; cullMode := cullMode s; quadType := quadType s |}.
Definition set_cullMode (v : Z) (s : Settings) : Settings :=
  {| negativeViewport := negativeViewport s; offsety := offsety s; offsetx := offsetx s;
     windingOrder := windingOrder s; cullMode := v; quadType := quadType s |}.

(** A widget bound to one setting: when it fires, the setting is written
    and [rebuild] runs. *)
Definition widget {A} (fired : option A) (set : A -> Settings -> Settings)
    (rebuild : M unit) : M unit :=
  match fired with
  | Some v => modify (fun w => set_settings (set v (settings w)) w);; rebuild
  | None => mret tt
  end.

Definition OnUpdateUIOverlay (o : Overlay) : M unit :=
  when (header_scene o)
    (widget (combo_quadtype o) set_quadType buildCommandBuffers);;
  when (header_viewport o)
    (widget (check_negative o) set_negativeViewport buildCommandBuffers;;
     widget (slider_offsetx o) set_offsetx buildCommandBuffers;;
     widget (slider_offsety o) set_offsety buildCommandBuffers);;
  when (header_pipeline o)
    (widget (combo_windingorder o) set_windingOrder preparePipelines;;
     widget (combo_cullmode o) set_cullMode preparePipelines).

(** ** Vocabulary of the statements *)

(** The driver answers every call with [VK_SUCCESS]. *)
Definition driver_ok (w : World) : Prop :=
  forall k : nat, result (replies w k) = VK_SUCCESS.

Definition begin_end (i : nat) : list Call :=
  [CallBeginCommandBuffer i; CallEndCommandBuffer i].

(** The calls one pipeline rebuild makes, given the handle held before. *)
Definition destroy_calls (old : handle) : list Call :=
  if decide (old = VK_NULL_HANDLE) then [] else [CallDestroyPipeline old].

Definition rebuild_calls (old : handle) (s : Settings) : list Call :=
  destroy_calls old
  ++ [CallLoadShader vertexShader; CallLoadShader fragmentShader;
      CallCreateGraphicsPipelines (createInfo_of s)].

(** The pipelines alive once the handle held before has been released. *)
Definition released (old : handle) (live : gset Z) : gset Z :=
  if decide (old = VK_NULL_HANDLE) then live else live ∖ {[old]}.

(** The driver's answer to the creation call of a rebuild started in [w]. *)
Definition creation_reply (w : World) : Reply :=
  replies w (length (calls w ++ destroy_calls (pipeline w)) + 2)%nat.

(** The viewport a command list sets. *)
Fixpoint frame_viewport (cs : list Cmd) : option Viewport :=
  match cs with
  | [] => None
  | CmdSetViewport vp :: _ => Some vp
  | _ :: cs' => frame_viewport cs'
  end.

(** Origin and extent of a viewport as integers [(x, y, width, height)],
    when all four are integers. *)
Definition rect_of (vp : Viewport) : option (Z * Z * Z * Z) :=
  x ← F32.to_Z (vp_x vp);
  y ← F32.to_Z (vp_y vp);
  w ← F32.to_Z (vp_width vp);
  h ← F32.to_Z (vp_height vp);
  Some (x, y, w, h).

(** The rectangle the viewport policy names: origin [(ox, oy)] and extent
    [(w, h)] unflipped, origin [(ox, h - oy)] and extent [(w, - h)] flipped. *)
Definition policy_rect (flip : bool) (ox oy w h : Z) : Z * Z * Z * Z :=
  if flip then (ox, h - oy, w, - h) else (ox, oy, w, h).

(** Inputs the overlay can produce on a real swapchain: offsets within the
    slider bounds of lines 312 and 315, and an extent that a [float] holds
    exactly together with twice its value. *)
Definition valid_inputs (ox oy w h : Z) : Prop :=
  0 < w < 2 ^ 23 /\ 0 < h < 2 ^ 23 /\ - w <= ox <= w /\ - h <= oy <= h.

(** Orientation of a triangle in the plane, by the sign of twice its signed
    area in a right-handed frame (x to the right, y upwards): positive is
    counter-clockwise. *)
Definition point : Type := Q * Q.

Definition position2 (v : Vertex) : point :=
  (F32.to_Q (pos v).1.1, F32.to_Q (pos v).1.2).

Definition signed_area2 (p q r : point) : Q :=
  ((q.1 - p.1) * (r.2 - p.2) - (q.2 - p.2) * (r.1 - p.1))%Q.

Inductive Winding := CounterClockwise | Clockwise | Degenerate.

Definition orientation (p q r : point) : Winding :=
  match (signed_area2 p q r ?= 0)%Q with
  | Gt => CounterClockwise
  | Lt => Clockwise
  | Eq => Degenerate
  end.

(** A triangle list reads its indices three at a time. *)
Fixpoint triangles (idx : list nat) : list (nat * nat * nat) :=
  match idx with
  | a :: b :: c :: rest => (a, b, c) :: triangles rest
  | _ => []
  end.

Definition triangle_winding (pts : list point) (t : nat * nat * nat) : option Winding :=
  p ← pts !! t.1.1; q ← pts !! t.1.2; r ← pts !! t.2; Some (orientation p q r).

Definition windings (vs : list Vertex) (idx : list nat) : list (option Winding) :=
  map (triangle_winding (map position2 vs)) (triangles idx).

(** Two points with equal coordinates, as rationals. *)
Definition same_point (p q : point) : Prop := (p.1 == q.1)%Q /\ (p.2 == q.2)%Q.

(** The corners [(-a,1), (-a,-1), (a,-1), (a,1)] and their mirror image
    [(-a,-1), (-a,1), (a,1), (a,-1)]. *)
Definition corners_up (a : Q) : list point :=
  [ ((- a)%Q, 1%Q); ((- a)%Q, (- (1))%Q); (a, (- (1))%Q); (a, 1%Q) ].

Definition corners_down (a : Q) : list point :=
  [ ((- a)%Q, (- (1))%Q); ((- a)%Q, 1%Q); (a, 1%Q); (a, (- (1))%Q) ].

(** The Y-up and the Y-down variant of one vertex: same texture
    coordinates, same x and z, opposite y. *)
Definition mirrored_in_y (v v' : Vertex) : Prop :=
  uv v' = uv v
  /\ (pos v').1.1 = (pos v).1.1
  /\ (pos v').2 = (pos v).2
  /\ (pos v').1.2 = F32.neg (pos v).1.2.

(** The world a computation ends in, completed or aborted. *)
Definition world_of {A} (o : Outcome A) : World :=
  match o with Done _ w => w | Fatal _ w => w end.

(** The rasterization state of the creation call a rebuild ends with. *)
Definition built_rasterization (w : World) : option RasterizationState :=
  match last (calls (world_of (preparePipelines w))) with
  | Some (CallCreateGraphicsPipelines ci) => Some (rasterizationState ci)
  | _ => None
  end.

(** What an indexed draw reads: whatever was bound last before it. *)
Record Bound := {
  bound_set : option DescriptorSet;
  bound_indices : option QuadBuffer;
  bound_vertices : option QuadBuffer
}.

Record Draw := {
  draw_bound : Bound;
  draw_indexCount : Z;
  draw_instanceCount : Z
}.

Fixpoint draws_from (b : Bound) (cs : list Cmd) : list Draw :=
  match cs with
  | [] => []
  | CmdBindDescriptorSets ds :: cs' =>
      draws_from {| bound_set := Some ds; bound_indices := bound_indices b;
                    bound_vertices := bound_vertices b |} cs'
  | CmdBindIndexBuffer ib _ :: cs' =>
      draws_from {| bound_set := bound_set b; bound_indices := Some ib;
                    bound_vertices := bound_vertices b |} cs'
  | CmdBindVertexBuffers vb _ :: cs' =>
      draws_from {| bound_set := bound_set b; bound_indices := bound_indices b;
                    bound_vertices := Some vb |} cs'
  | CmdDrawIndexed n k _ _ _ :: cs' =>
      {| draw_bound := b; draw_indexCount := n; draw_instanceCount := k |}
      :: draws_from b cs'
  | _ :: cs' => draws_from b cs'
  end.

(** The indexed draws a command buffer issues itself, in order. The
    overlay's pass, [drawUI], belongs to the base class and counts as the one
    call it is. *)
Definition draws (cs : list Cmd) : list Draw :=
  draws_from {| bound_set := None; bound_indices := None; bound_vertices := None |} cs.

Definition quad_draw (ds : DescriptorSet) (ib vb : QuadBuffer) : Draw :=
  {| draw_bound := {| bound_set := Some ds; bound_indices := Some ib;
                      bound_vertices := Some vb |};
     draw_indexCount := 6; draw_instanceCount := 1 |}.

(** The texture a draw samples: the one written into its descriptor set. *)
Definition draw_texture (d : Draw) : option Texture :=
  writeDescriptorSets <$> bound_set (draw_bound d).

(** ** Logs *)

(** The calls a computation added when it took [w] to [w']. *)
Definition new_calls (w w' : World) : list Call :=
  drop (length (calls w)) (calls w').

(** The handle [old] stays untouched in a log up to the first pipeline
    creation: no [vkDestroyPipeline old] comes before it. *)
Fixpoint kept_until_created (old : handle) (cs : list Call) : bool :=
  match cs with
  | [] => true
  | CallDestroyPipeline p :: cs' =>
      if decide (p = old) then false else kept_until_created old cs'
  | CallCreateGraphicsPipelines _ :: _ => true
  | _ :: cs' => kept_until_created old cs'
  end.

Definition is_begin (c : Call) : bool :=
  match c with CallBeginCommandBuffer _ => true | _ => false end.

Definition is_create (c : Call) : bool :=
  match c with CallCreateGraphicsPipelines _ => true | _ => false end.

Definition is_destroy (c : Call) : bool :=
  match c with CallDestroyPipeline _ => true | _ => false end.

(** A log re-records frames when it begins a command buffer. *)
Definition rerecords (cs : list Call) : bool := existsb is_begin cs.

(** The pipelines a frame binds. *)
Fixpoint bound_pipelines (cs : list Cmd) : list handle :=
  match cs with
  | [] => []
  | CmdBindPipeline p :: cs' => p :: bound_pipelines cs'
  | _ :: cs' => bound_pipelines cs'
  end.

(** ** Parameter changes

    One widget firing in one overlay pass, every header open. *)
Inductive Change :=
| ChangeQuadType (v : Z)
| ChangeNegativeViewport (b : bool)
| ChangeOffsetX (v : Z)
| ChangeOffsetY (v : Z)
| ChangeWindingOrder (v : Z)
| ChangeCullMode (v : Z).

Definition quiet : Overlay :=
  {| header_scene := true; combo_quadtype := None;
     header_viewport := true; check_negative := None;
     slider_offsetx := None; slider_offsety := None;
     header_pipeline := true; combo_windingorder := None; combo_cullmode := None |}.

Definition overlay_of (c : Change) : Overlay :=
  match c with
  | ChangeQuadType v =>
      {| header_scene := true; combo_quadtype := Some v;
         header_viewport := true; check_negative := None;
         slider_offsetx := None; slider_offsety := None;
         header_pipeline := true; combo_windingorder := None; combo_cullmode := None |}
  | ChangeNegativeViewport b =>
      {| header_scene := true; combo_quadtype := None;
         header_viewport := true; check_negative := Some b;
         slider_offsetx := None; slider_offsety := None;
         header_pipeline := true; combo_windingorder := None; combo_cullmode := None |}
  | ChangeOffsetX v =>
      {| header_scene := true; combo_quadtype := None;
         header_viewport := true; check_negative := None;
         slider_offsetx := Some v; slider_offsety := None;
         header_pipeline := true; combo_windingorder := None; combo_cullmode := None |}
  | ChangeOffsetY v =>
      {| header_scene := true; combo_quadtype := None;
         header_viewport := true; check_negative := None;
         slider_offsetx := None; slider_offsety := Some v;
         header_pipeline := true; combo_windingorder := None; combo_cullmode := None |}
  | ChangeWindingOrder v =>
      {| header_scene := true; combo_quadtype := None;
         header_viewport := true; check_negative := None;
         slider_offsetx := None; slider_offsety := None;
         header_pipeline := true; combo_windingorder := Some v; combo_cullmode := None |}
  | ChangeCullMode v =>
      {| header_scene := true; combo_quadtype := None;
         header_viewport := true; check_negative := None;
         slider_offsetx := None; slider_offsety := None;
         header_pipeline := true; combo_windingorder := None; combo_cullmode := Some v |}
  end.

Definition affects_pipeline (c : Change) : bool :=
  match c with
  | ChangeWindingOrder _ | ChangeCullMode _ => true
  | _ => false
  end.

Definition apply_change (c : Change) (s : Settings) : Settings :=
  match c with
  | ChangeQuadType v => set_quadType v s
  | ChangeNegativeViewport b => set_negativeViewport b s
  | ChangeOffsetX v => set_offsetx v s
  | ChangeOffsetY v => set_offsety v s
  | ChangeWindingOrder v => set_windingOrder v s
  | ChangeCullMode v => set_cullMode v s
  end.

(** Drivers for the examples: one that never hands a handle out twice, one
    that hands the same handle out again, one whose eleventh answer is
    [VK_ERROR_OUT_OF_HOST_MEMORY]. *)
Definition fresh_driver (k : nat) : Reply :=
  {| result := VK_SUCCESS; created := Z.of_nat k + 1 |}.

Definition reusing_driver (k : nat) : Reply :=
  {| result := VK_SUCCESS; created := 7 |}.

Definition failing_driver (k : nat) : Reply :=
  {| result := if decide (k < 10)%nat then VK_SUCCESS else -1; created := Z.of_nat k + 1 |}.

(** The example once [prepare] has run, on a 800 x 600 swapchain with two
    images. *)
Definition prepared_example (drv : nat -> Reply) : World :=
  world_of (prepare (VulkanExample 800 600 2 drv)).

(** ** Runs of the example *)

(** [~VulkanExample], line 74: the pipeline is released, whatever the handle
    holds. The releases of lines 75-79 concern the two layouts, the textures
    and the quad's buffers, none of which is a pipeline. *)
Definition VulkanExample_destroy : M unit :=
  p ← gets pipeline; vkDestroyPipeline p.

(** Modelled from the spec: the frame loop belongs to the base class; it
    calls [prepare] once after device setup and then hands every pass of the
    overlay to [OnUpdateUIOverlay], on a single thread. *)
Definition session (passes : list Overlay) : M unit :=
  prepare;; for_each passes OnUpdateUIOverlay.

Definition is_end (c : Call) : bool :=
  match c with CallEndCommandBuffer _ => true | _ => false end.

(** A call of the recording loop: it begins or ends a command buffer. *)
Definition is_recording (c : Call) : bool := is_begin c || is_end c.

(** A property of the world that a computation keeps, whether it completes
    or aborts. *)
Definition preserves {A} (P : World -> Prop) (m : M A) : Prop :=
  forall w : World, P w -> P (world_of (m w)).

(** What recording leaves alone between [w0] and [w]: the handle, the
    pipelines alive, the extent and the number of command buffers; the log
    grows by begin and end calls only. *)
Definition same_device (w0 w : World) : Prop :=
  pipeline w = pipeline w0 /\ prepared w = prepared w0
  /\ width w = width w0 /\ height w = height w0
  /\ livePipelines w = livePipelines w0 /\ replies w = replies w0
  /\ length (drawCmdBuffers w) = length (drawCmdBuffers w0)
  /\ exists cs : list Call, calls w = calls w0 ++ cs /\ forallb is_recording cs = true.

Definition recorded_from (w0 w : World) : Prop :=
  settings w = settings w0 /\ same_device w0 w.

(** What a pipeline rebuild leaves alone between [w0] and [w]: the command
    buffers and the extent; the log grows by calls that record nothing. *)
Definition rebuilt_from (w0 w : World) : Prop :=
  prepared w = prepared w0 /\ width w = width w0 /\ height w = height w0
  /\ drawCmdBuffers w = drawCmdBuffers w0 /\ replies w = replies w0
  /\ exists cs : list Call, calls w = calls w0 ++ cs /\ existsb is_recording cs = false.

(** A driver that never reports success with a null handle. *)
Definition well_behaved (drv : nat -> Reply) : Prop :=
  forall k : nat, result (drv k) = VK_SUCCESS -> created (drv k) <> VK_NULL_HANDLE.

(** No pipeline is alive besides the one the example holds. *)
Definition no_leak (w : World) : Prop :=
  forall p : handle, p ∈ livePipelines w -> p = pipeline w /\ p <> VK_NULL_HANDLE.

(** Every command buffer holds the frame of the current settings, handle and
    extent. *)
Definition frames_current (w : World) : Prop :=
  drawCmdBuffers w
  = map (frameCommands (settings w) (pipeline w) (width w) (height w))
      (seq 0 (length (drawCmdBuffers w))).

(** ** One pass of the overlay, widget by widget *)

(** The widget returned [true]. *)
Definition fired {A} (x : option A) : bool :=
  match x with Some _ => true | None => false end.

(** Some widget of the scene or viewport group fires in the pass, under an
    open header. *)
Definition fires_viewport (o : Overlay) : bool :=
  header_scene o && fired (combo_quadtype o)
  || header_viewport o
     && (fired (check_negative o) || fired (slider_offsetx o) || fired (slider_offsety o)).

(** Some widget of the pipeline group fires in the pass, under an open
    header. *)
Definition fires_pipeline (o : Overlay) : bool :=
  header_pipeline o && (fired (combo_windingorder o) || fired (combo_cullmode o)).

(** The write a widget makes through its pointer when it fires. *)
Definition opt_set {A} (x : option A) (set : A -> Settings -> Settings) (s : Settings)
    : Settings :=
  match x with Some v => set v s | None => s end.

(** The settings once the widgets of the scene and viewport groups have
    written their values, in the order of lines 301-318. *)
Definition viewport_settings (o : Overlay) (s : Settings) : Settings :=
  let s1 := if header_scene o then opt_set (combo_quadtype o) set_quadType s else s in
  if header_viewport o
  then opt_set (slider_offsety o) set_offsety
         (opt_set (slider_offsetx o) set_offsetx
            (opt_set (check_negative o) set_negativeViewport s1))
  else s1.

(** A computation that, on a driver answering with success, completes,
    writes the settings [f] gives and touches nothing but the recording;
    when [again] is set the frames are current afterwards, otherwise nothing
    has happened at all. *)
Definition rerecords_as (f : Settings -> Settings) (again : bool) (m : M unit) : Prop :=
  forall w : World, driver_ok w ->
    exists w' : World,
      m w = Done tt w' /\ settings w' = f (settings w) /\ same_device w w'
      /\ if again then frames_current w' else w' = w.

(** A driver that refuses every call with [VK_ERROR_OUT_OF_HOST_MEMORY]. *)
Definition refusing_driver (k : nat) : Reply :=
  {| result := -1; created := VK_NULL_HANDLE |}.

(** A world on a well-behaved driver in which nothing leaks. *)
Definition tidy (w : World) : Prop := well_behaved (replies w) /\ no_leak w.

(** A computation that, on a driver answering with success, completes from
    any world in which [I] holds, in a world in which [I] holds again. *)
Definition completes_keeping (I : World -> Prop) (m : M unit) : Prop :=
  forall w : World, driver_ok w -> I w ->
    exists w' : World, m w = Done tt w' /\ replies w' = replies w /\ I w'.

(** The example is prepared and the pipeline it holds is alive. *)
Definition ready (w : World) : Prop :=
  prepared w = true /\ pipeline w ∈ livePipelines w.

(** ** Orientation of the stored geometry *)

(** The other orientation. *)
Definition opposite (w : Winding) : Winding :=
  match w with
  | CounterClockwise => Clockwise
  | Clockwise => CounterClockwise
  | Degenerate => Degenerate
  end.

(** ** The viewport as numbers *)

(** The rows a viewport rectangle spans, from the smaller of [y] and
    [y + height] to the larger. *)
Definition rows_of (r : Z * Z * Z * Z) : Z * Z :=
  let '(_, y, _, h) := r in (Z.min y (y + h), Z.max y (y + h)).

(** Every member of a viewport is a finite number in canonical form. *)
Definition viewport_finite (vp : Viewport) : bool :=
  forallb (fun x => F32.is_finite x && valid_binary F32.prec F32.emax x)
    [vp_x vp; vp_y vp; vp_width vp; vp_height vp; vp_minDepth vp; vp_maxDepth vp].

(** ** What a draw reads *)

(** The contents of the buffers of [struct Quad], by the member a command
    binds (lines 181-192). *)
Definition index_data (q : Quad) (b : QuadBuffer) : option (list nat) :=
  match b with
  | BufIndicesCCW => Some (indicesCCW q)
  | BufIndicesCW => Some (indicesCW q)
  | _ => None
  end.

Definition vertex_data (q : Quad) (b : QuadBuffer) : option (list Vertex) :=
  match b with
  | BufVerticesYUp => Some (verticesYUp q)
  | BufVerticesYDown => Some (verticesYDown q)
  | _ => None
  end.

(** The orientations of the triangles a draw assembles: its first
    [indexCount] indices, from index 0 and with vertex offset 0 as lines 136
    and 140 have them, over the vertex buffer bound. *)
Definition draw_windings (q : Quad) (d : Draw) : option (list (option Winding)) :=
  ib ← bound_indices (draw_bound d) ≫= index_data q;
  vb ← bound_vertices (draw_bound d) ≫= vertex_data q;
  Some (windings vb (take (Z.to_nat (draw_indexCount d)) ib)).

(** An infinity of either sign. *)
Definition infinite (x : F32.float) : bool :=
  match x with S754_infinity _ => true | _ => false end.

(** A zero of either sign. *)
Definition is_zero (x : F32.float) : bool :=
  match x with S754_zero _ => true | _ => false end.

(** A call that creates a pipeline or belongs to the recording loop. *)
Definition is_create_or_recording (c : Call) : bool := is_create c || is_recording c.

(** The settings once the widgets of the pipeline group have written their
    values, in the order of lines 319-328, and the settings after a whole
    pass. *)
Definition pipeline_settings (o : Overlay) (s : Settings) : Settings :=
  if header_pipeline o
  then opt_set (combo_cullmode o) set_cullMode
         (opt_set (combo_windingorder o) set_windingOrder s)
  else s.

Definition pass_settings (o : Overlay) (s : Settings) : Settings :=
  pipeline_settings o (viewport_settings o s).

(** A computation that, on a driver answering with success, completes and
    leaves the settings [f] gives. *)
Definition writes (f : Settings -> Settings) (m : M unit) : Prop :=
  forall w : World, driver_ok w ->
    exists w' : World,
      m w = Done tt w' /\ settings w' = f (settings w) /\ replies w' = replies w.

(** The range of [int32_t]. *)
Definition int32 (z : Z) : Prop := - 2 ^ 31 <= z < 2 ^ 31.

(** ** Exact rounding *)

Lemma digits2_pos_log2 p : Zpos (digits2_pos p) = Z.log2 (Zpos p) + 1.
Proof.
  induction p as [p IH|p IH|]; cbn [digits2_pos]; try reflexivity.
  - rewrite Pos2Z.inj_succ, IH.
    change (Zpos p~1) with (2 * Zpos p + 1).
    rewrite Z.log2_succ_double by lia. lia.
  - rewrite Pos2Z.inj_succ, IH.
    change (Zpos p~0) with (2 * Zpos p).
    rewrite Z.log2_double by lia. lia.
Qed.

Lemma digits2_pos_shift (m m' : positive) (k : Z) :
  0 <= k -> Zpos m = Zpos m' * 2 ^ k ->
  Zpos (digits2_pos m) = Zpos (digits2_pos m') + k.
Proof.
  intros Hk E. rewrite !digits2_pos_log2, E, Z.log2_mul_pow2 by lia. lia.
Qed.

Lemma shr_1_even z :
  shr_1 (Build_shr_record (2 * z) false false) = Build_shr_record z false false.
Proof. destruct z as [|q|q]; reflexivity. Qed.

Lemma pow2_xI p : 2 ^ Zpos p~1 = 2 * (2 ^ Zpos p * 2 ^ Zpos p).
Proof.
  replace (Zpos p~1) with (1 + (Zpos p + Zpos p)) by lia.
  rewrite !Z.pow_add_r by lia. reflexivity.
Qed.

Lemma pow2_xO p : 2 ^ Zpos p~0 = 2 ^ Zpos p * 2 ^ Zpos p.
Proof.
  replace (Zpos p~0) with (Zpos p + Zpos p) by lia.
  now rewrite Z.pow_add_r by lia.
Qed.

(** Shifting out [p] zero bits loses nothing: no round bit, no sticky bit. *)
Lemma iter_pos_shr_1_exact p : forall z,
  SpecFloat.iter_pos shr_1 p (Build_shr_record (z * 2 ^ Zpos p) false false)
  = Build_shr_record z false false.
Proof.
  induction p as [p IH|p IH|]; intro z; cbn [SpecFloat.iter_pos].
  - replace (z * 2 ^ Zpos p~1) with (2 * ((z * 2 ^ Zpos p) * 2 ^ Zpos p))
      by (rewrite pow2_xI; ring).
    now rewrite shr_1_even, !IH.
  - replace (z * 2 ^ Zpos p~0) with ((z * 2 ^ Zpos p) * 2 ^ Zpos p)
      by (rewrite pow2_xO; ring).
    now rewrite !IH.
  - rewrite Z.pow_1_r, Z.mul_comm. apply shr_1_even.
Qed.

Lemma shr_exact z e k :
  0 <= k ->
  shr (Build_shr_record (z * 2 ^ k) false false) e k
  = (Build_shr_record z false false, e + k).
Proof.
  intros Hk. destruct k as [|p|p]; try lia; cbn [shr].
  - now rewrite Z.pow_0_r, Z.mul_1_r, Z.add_0_r.
  - now rewrite iter_pos_shr_1_exact.
Qed.

Import F32.

(** A mantissa that is a canonical one followed by zero bits rounds to the
    canonical one. *)
Lemma binary_round_aux_exact s (m m' : positive) (e e' : Z) :
  e <= e' ->
  Zpos m = Zpos m' * 2 ^ (e' - e) ->
  bounded prec emax m' e' = true ->
  binary_round_aux prec emax s (Zpos m) e loc_Exact = S754_finite s m' e'.
Proof.
  intros Hle Hm Hb.
  apply andb_prop in Hb. destruct Hb as [Hc Hmax].
  unfold canonical_mantissa in Hc. apply Z.eqb_eq in Hc.
  assert (Hd : Zpos (digits2_pos m) + e = Zpos (digits2_pos m') + e').
  { rewrite (digits2_pos_shift m m' (e' - e)) by (lia || assumption). lia. }
  unfold binary_round_aux, shr_fexp.
  cbn [Zdigits2 shr_record_of_loc].
  rewrite Hd, Hc, Hm, shr_exact by lia.
  cbn [shr_m loc_of_shr_record round_nearest_even Zdigits2 shr_record_of_loc].
  replace (e + (e' - e)) with e' by lia.
  rewrite Hc, Z.sub_diag. cbn [shr shr_m].
  now rewrite Hmax.
Qed.

Lemma Pos_iter_xO_val (m d : positive) :
  Zpos (Pos.iter xO m d) = Zpos m * 2 ^ Zpos d.
Proof.
  induction d as [|d IH] using Pos.peano_ind.
  - cbn [Pos.iter]. now rewrite Z.pow_1_r, Z.mul_comm.
  - rewrite Pos.iter_succ, Pos2Z.inj_xO, IH, Pos2Z.inj_succ, Z.pow_succ_r by lia.
    ring.
Qed.

(** [shl_align] towards a smaller exponent multiplies the mantissa by the
    matching power of two and keeps it otherwise. *)
Lemma shl_align_val (m : positive) (e e' : Z) :
  shl_align m e e' =
    (fst (shl_align m e e'), Z.min e e')
  /\ Zpos (fst (shl_align m e e')) = Zpos m * 2 ^ (e - Z.min e e').
Proof.
  unfold shl_align. destruct (e' - e) as [|d|d] eqn:E; cbn [fst].
  - replace (Z.min e e') with e by lia.
    now rewrite Z.sub_diag, Z.mul_1_r.
  - replace (Z.min e e') with e by lia.
    now rewrite Z.sub_diag, Z.mul_1_r.
  - replace (Z.min e e') with e' by lia.
    replace (e - e') with (Zpos d) by lia.
    split; [reflexivity | apply Pos_iter_xO_val].
Qed.

(** [to_Z] and [to_Q] read the same number. *)
Lemma to_Z_to_Q (x : float) (z : Z) :
  to_Z x = Some z -> is_finite x = true /\ (to_Q x == inject_Z z)%Q.
Proof.
  destruct x as [s|s| |s m e]; cbn [to_Z to_Q is_finite]; try discriminate.
  - intros [= <-]. split; reflexivity.
  - assert (H2 : ~ ((2 # 1) == 0)%Q) by discriminate.
    destruct (Z.leb_spec 0 e) as [He|He].
    + intros [= <-]. split; [reflexivity|].
      assert (E : (inject_Z (Zpos m * 2 ^ e) == inject_Z (Zpos m) * (2 # 1) ^ e)%Q).
      { rewrite inject_Z_mult, Zpower_Qpower by assumption. reflexivity. }
      destruct s; cbn [cond_Zopp]; [rewrite inject_Z_opp|]; now rewrite E.
    + destruct (Z.eqb_spec (Zpos m mod 2 ^ (- e)) 0) as [Hm|Hm]; [|discriminate].
      intros [= <-]. split; [reflexivity|].
      assert (Hp : 0 < 2 ^ (- e)) by (apply Z.pow_pos_nonneg; lia).
      assert (E : (inject_Z (Zpos m) * (2 # 1) ^ e
                   == inject_Z (Zpos m / 2 ^ (- e)))%Q).
      { set (n := - e) in *. set (k := Zpos m / 2 ^ n).
        assert (Hk : Zpos m = k * 2 ^ n).
        { subst k. rewrite Z.mul_comm. apply Z.div_exact; lia. }
        replace e with (- n) by (subst n; lia).
        rewrite Hk, inject_Z_mult, Zpower_Qpower, Qpower_opp by (subst n; lia).
        change (inject_Z 2) with (2 # 1).
        pose proof (Qpower_not_0 (2 # 1) n H2) as HP.
        generalize dependent ((2 # 1) ^ n)%Q. intros P HP.
        now field. }
      destruct s; cbn [cond_Zopp]; [rewrite inject_Z_opp|]; now rewrite E.
Qed.

(** The canonical binary32 form of a positive integer below [2^24]: the
    mantissa is the integer shifted up to 24 digits. *)
Lemma binary_round_int s (m : positive) (k n : Z) :
  0 <= k -> 0 < n < 2 ^ 24 -> Zpos m = n * 2 ^ k ->
  exists m' : positive,
    Zpos m' = n * 2 ^ (23 - Z.log2 n)
    /\ binary_round prec emax s m (- k) = S754_finite s m' (Z.log2 n - 23).
Proof.
  intros Hk Hn Hm.
  assert (Hl : 0 <= Z.log2 n < 24).
  { split; [apply Z.log2_nonneg | apply Z.log2_lt_pow2; lia]. }
  assert (Hp : 0 < 2 ^ (23 - Z.log2 n)) by (apply Z.pow_pos_nonneg; lia).
  exists (Z.to_pos (n * 2 ^ (23 - Z.log2 n))).
  assert (Hm' : Zpos (Z.to_pos (n * 2 ^ (23 - Z.log2 n))) = n * 2 ^ (23 - Z.log2 n))
    by (apply Z2Pos.id; nia).
  split; [exact Hm'|].
  set (m' := Z.to_pos (n * 2 ^ (23 - Z.log2 n))) in *.
  assert (Hdm' : Zpos (digits2_pos m') = 24).
  { rewrite digits2_pos_log2, Hm', Z.log2_mul_pow2 by lia. lia. }
  assert (Hdm : Zpos (digits2_pos m) = Z.log2 n + 1 + k).
  { rewrite digits2_pos_log2, Hm, Z.log2_mul_pow2 by lia. lia. }
  assert (Hb : bounded prec emax m' (Z.log2 n - 23) = true).
  { unfold bounded, canonical_mantissa, fexp, emin, prec, emax.
    rewrite Hdm'. apply andb_true_intro; split; [apply Z.eqb_eq | apply Z.leb_le]; lia. }
  unfold binary_round.
  replace (fexp prec emax (Zpos (digits2_pos m) + - k)) with (Z.log2 n - 23)
    by (unfold fexp, emin, prec, emax; lia).
  destruct (shl_align_val m (- k) (Z.log2 n - 23)) as [Hs Hv].
  rewrite Hs.
  apply binary_round_aux_exact; [lia | | exact Hb].
  rewrite Hv, Hm, Hm'.
  destruct (Z.le_ge_cases (- k) (Z.log2 n - 23)) as [H|H].
  - rewrite Z.min_l, Z.sub_diag, Z.mul_1_r by lia.
    replace k with ((23 - Z.log2 n) + (Z.log2 n - 23 - - k)) at 1 by lia.
    rewrite Z.pow_add_r by lia. ring.
  - rewrite Z.min_r, Z.sub_diag, Z.mul_1_r by lia.
    replace (23 - Z.log2 n) with (k + (- k - (Z.log2 n - 23))) by lia.
    rewrite Z.pow_add_r by lia. ring.
Qed.

(** Reading back a canonical integer. *)
Lemma to_Z_canonical_int s (m' : positive) (n : Z) :
  0 < n < 2 ^ 24 -> Zpos m' = n * 2 ^ (23 - Z.log2 n) ->
  to_Z (S754_finite s m' (Z.log2 n - 23)) = Some (cond_Zopp s n).
Proof.
  intros Hn Hm'.
  assert (Hl : 0 <= Z.log2 n < 24).
  { split; [apply Z.log2_nonneg | apply Z.log2_lt_pow2; lia]. }
  assert (Hp : 0 < 2 ^ (23 - Z.log2 n)) by (apply Z.pow_pos_nonneg; lia).
  unfold to_Z. destruct (0 <=? Z.log2 n - 23) eqn:E.
  - apply Z.leb_le in E.
    assert (E23 : Z.log2 n = 23) by lia.
    rewrite E23 in Hm' |- *.
    change (23 - 23) with 0 in Hm' |- *.
    now rewrite Z.pow_0_r, Z.mul_1_r in Hm' |- *; rewrite Hm'.
  - replace (- (Z.log2 n - 23)) with (23 - Z.log2 n) by lia.
    rewrite Hm', Z.mod_mul, Z.eqb_refl, Z.div_mul by lia. reflexivity.
Qed.

(** Integers of magnitude below [2^24] convert to [float] without rounding. *)
Lemma of_Z_exact (z : Z) : Z.abs z < 2 ^ 24 -> to_Z (of_Z z) = Some z.
Proof.
  intros Hz. unfold of_Z, binary_normalize.
  destruct z as [|p|p]; [reflexivity| |].
  - destruct (binary_round_int false p 0 (Zpos p)) as (m' & Hm' & Hr);
      [lia | lia | now rewrite Z.mul_1_r |].
    change (- 0) with 0 in Hr. rewrite Hr.
    now rewrite to_Z_canonical_int by (lia || assumption).
  - destruct (binary_round_int true p 0 (Zpos p)) as (m' & Hm' & Hr);
      [lia | lia | now rewrite Z.mul_1_r |].
    change (- 0) with 0 in Hr. rewrite Hr.
    now rewrite to_Z_canonical_int by (lia || assumption).
Qed.

Lemma of_Z_form (z : Z) :
  z <> 0 -> Z.abs z < 2 ^ 24 ->
  exists m : positive,
    Zpos m = Z.abs z * 2 ^ (23 - Z.log2 (Z.abs z))
    /\ of_Z z = S754_finite (z <? 0) m (Z.log2 (Z.abs z) - 23).
Proof.
  intros Hz Hlt. unfold of_Z, binary_normalize.
  destruct z as [|p|p]; [congruence| |].
  - destruct (binary_round_int false p 0 (Zpos p)) as (m' & Hm' & Hr);
      [lia | lia | now rewrite Z.mul_1_r |].
    exists m'. split; assumption.
  - destruct (binary_round_int true p 0 (Zpos p)) as (m' & Hm' & Hr);
      [lia | lia | now rewrite Z.mul_1_r |].
    exists m'. split; assumption.
Qed.

Lemma cond_Zopp_abs (z k : Z) : cond_Zopp (z <? 0) (Z.abs z * k) = z * k.
Proof. destruct (Z.ltb_spec z 0); cbn [cond_Zopp]; nia. Qed.

(** Rounding an integer multiple [n * 2^k] held at exponent [-k]. *)
Lemma binary_normalize_int (n k : Z) :
  0 <= k -> Z.abs n < 2 ^ 24 ->
  to_Z (binary_normalize prec emax (n * 2 ^ k) (- k) false) = Some n.
Proof.
  intros Hk Hn.
  assert (Hp : 0 < 2 ^ k) by (apply Z.pow_pos_nonneg; lia).
  unfold binary_normalize. destruct (n * 2 ^ k) as [|p|p] eqn:E.
  - cbn [to_Z]. f_equal. nia.
  - destruct (binary_round_int false p k n) as (m' & Hm' & ->);
      [lia | nia | now symmetry |].
    now rewrite to_Z_canonical_int by (nia || assumption).
  - destruct (binary_round_int true p k (- n)) as (m' & Hm' & ->);
      [lia | nia | lia |].
    rewrite to_Z_canonical_int by (nia || assumption).
    cbn [cond_Zopp]. f_equal. lia.
Qed.

(** The difference of two converted integers is exact whenever the integers
    and their difference are below [2^24] in magnitude. *)
Lemma sub_of_Z_exact (a b : Z) :
  Z.abs a < 2 ^ 24 -> Z.abs b < 2 ^ 24 -> Z.abs (a - b) < 2 ^ 24 ->
  to_Z (sub (of_Z a) (of_Z b)) = Some (a - b).
Proof.
  intros Ha Hb Hab.
  destruct (Z.eq_dec a 0) as [->|Ha0]; [|destruct (Z.eq_dec b 0) as [->|Hb0]].
  - destruct (Z.eq_dec b 0) as [->|Hb0]; [reflexivity|].
    destruct (of_Z_form b Hb0 Hb) as (mb & Hmb & Eb).
    rewrite Eb. change (of_Z 0) with (S754_zero false).
    cbn [sub SFsub]. rewrite to_Z_canonical_int by (lia || assumption).
    f_equal. destruct (Z.ltb_spec b 0); cbn [negb cond_Zopp]; lia.
  - destruct (of_Z_form a Ha0 Ha) as (ma & Hma & Ea).
    rewrite Ea. change (of_Z 0) with (S754_zero false).
    cbn [sub SFsub]. rewrite <- Ea, Z.sub_0_r. now apply of_Z_exact.
  - destruct (of_Z_form a Ha0 Ha) as (ma & Hma & Ea).
    destruct (of_Z_form b Hb0 Hb) as (mb & Hmb & Eb).
    rewrite Ea, Eb. unfold sub, SFsub.
    set (ea := Z.log2 (Z.abs a) - 23) in *.
    set (eb := Z.log2 (Z.abs b) - 23) in *.
    assert (Hla : 0 <= Z.log2 (Z.abs a) < 24).
    { split; [apply Z.log2_nonneg | apply Z.log2_lt_pow2; lia]. }
    assert (Hlb : 0 <= Z.log2 (Z.abs b) < 24).
    { split; [apply Z.log2_nonneg | apply Z.log2_lt_pow2; lia]. }
    cbv zeta.
    destruct (shl_align_val ma ea (Z.min ea eb)) as [_ Hva].
    destruct (shl_align_val mb eb (Z.min ea eb)) as [_ Hvb].
    rewrite Hva, Hvb, Hma, Hmb.
    replace (Z.min ea (Z.min ea eb)) with (Z.min ea eb) by lia.
    replace (Z.min eb (Z.min ea eb)) with (Z.min ea eb) by lia.
    rewrite <- !Z.mul_assoc, <- !Z.pow_add_r by (subst ea eb; lia).
    replace (23 - Z.log2 (Z.abs a) + (ea - Z.min ea eb)) with (- Z.min ea eb)
      by (subst ea eb; lia).
    replace (23 - Z.log2 (Z.abs b) + (eb - Z.min ea eb)) with (- Z.min ea eb)
      by (subst ea eb; lia).
    rewrite !cond_Zopp_abs, <- Z.mul_sub_distr_r.
    replace (Z.min ea eb) with (- - Z.min ea eb) at 2 by lia.
    apply binary_normalize_int; [subst ea eb; lia | assumption].
Qed.

(** ** The aspect ratio is a positive normal number *)

Lemma digits2_pos_bounds (p : positive) (d : Z) :
  0 < d -> 2 ^ (d - 1) <= Zpos p < 2 ^ d -> Zpos (digits2_pos p) = d.
Proof.
  intros Hd Hp. rewrite digits2_pos_log2.
  rewrite (Z.log2_unique (Zpos p) (d - 1)); [lia | lia |].
  now replace (Z.succ (d - 1)) with d by lia.
Qed.

Lemma shr_fexp_24 (m e : Z) (l : location) :
  2 ^ 23 <= m < 2 ^ 24 -> -149 <= e ->
  shr_fexp prec emax m e l = (shr_record_of_loc m l, e).
Proof.
  intros Hm He. destruct m as [|p|p]; try lia.
  unfold shr_fexp. cbn [Zdigits2]. rewrite (digits2_pos_bounds p 24) by lia.
  replace (fexp prec emax (24 + e) - e) with 0
    by (unfold fexp, emin, prec, emax; lia).
  reflexivity.
Qed.

Lemma shr_fexp_25 (m e : Z) (l : location) :
  2 ^ 24 <= m < 2 ^ 25 -> -150 <= e ->
  shr_fexp prec emax m e l = (shr_1 (shr_record_of_loc m l), e + 1).
Proof.
  intros Hm He. destruct m as [|p|p]; try lia.
  unfold shr_fexp. cbn [Zdigits2]. rewrite (digits2_pos_bounds p 25) by lia.
  replace (fexp prec emax (25 + e) - e) with 1
    by (unfold fexp, emin, prec, emax; lia).
  reflexivity.
Qed.

Lemma shr_m_shr_record_of_loc (m : Z) (l : location) :
  shr_m (shr_record_of_loc m l) = m.
Proof. now destruct l as [|[]]. Qed.

Lemma shr_1_halves (mrs : shr_record) :
  0 <= shr_m mrs ->
  2 * shr_m (shr_1 mrs) <= shr_m mrs < 2 * shr_m (shr_1 mrs) + 2.
Proof.
  destruct mrs as [m r s]. cbn [shr_m]. intros Hm.
  destruct m as [|[p|p|]|p]; cbn [shr_1 shr_m]; lia.
Qed.

Lemma round_nearest_even_bounds (m : Z) (l : location) :
  m <= round_nearest_even m l <= m + 1.
Proof. destruct l as [|[]]; cbn [round_nearest_even]; try destruct (Z.even m); lia. Qed.

(** The last step of [binary_round_aux]: a mantissa of 24 digits is kept, and
    [2^24], which rounding up can reach, is renormalised to [2^23]. *)
Lemma round_finish (s : bool) (m e : Z) :
  2 ^ 23 <= m <= 2 ^ 24 -> -149 <= e <= 102 ->
  exists (m' : positive) (e' : Z),
    (let '(mrs, e'') := shr_fexp prec emax m e loc_Exact in
     match shr_m mrs with
     | Z0 => S754_zero s
     | Zpos m0 => if e'' <=? emax - prec then S754_finite s m0 e'' else S754_infinity s
     | Zneg _ => S754_nan
     end) = S754_finite s m' e'
    /\ bounded prec emax m' e' = true.
Proof.
  intros Hm He. destruct (Z.eq_dec m (2 ^ 24)) as [->|Hne].
  - rewrite shr_fexp_25 by lia. cbn [shr_record_of_loc shr_1 shr_m Z.pow Z.pow_pos Pos.iter Z.mul Pos.mul].
    exists 8388608%positive, (e + 1).
    replace (e + 1 <=? emax - prec) with true
      by (symmetry; apply Z.leb_le; unfold emax, prec; lia).
    split; [reflexivity|].
    unfold bounded, canonical_mantissa, fexp, emin, prec, emax. cbn [digits2_pos Pos.succ].
    apply andb_true_intro; split; [apply Z.eqb_eq | apply Z.leb_le]; lia.
  - rewrite shr_fexp_24 by lia. cbn [shr_record_of_loc shr_m].
    destruct m as [|p|p]; try lia.
    exists p, e.
    replace (e <=? emax - prec) with true
      by (symmetry; apply Z.leb_le; unfold emax, prec; lia).
    split; [reflexivity|].
    unfold bounded, canonical_mantissa. rewrite (digits2_pos_bounds p 24) by lia.
    unfold fexp, emin, prec, emax.
    apply andb_true_intro; split; [apply Z.eqb_eq | apply Z.leb_le]; lia.
Qed.

(** Rounding a mantissa of 24 or 25 digits, whatever was cut off below it,
    yields a finite number in canonical form. *)
Lemma binary_round_aux_valid (s : bool) (q e : Z) (l : location) :
  2 ^ 23 <= q < 2 ^ 25 -> -149 <= e <= 100 ->
  exists (m' : positive) (e' : Z),
    binary_round_aux prec emax s q e l = S754_finite s m' e'
    /\ bounded prec emax m' e' = true.
Proof.
  intros Hq He. unfold binary_round_aux.
  destruct (Z.lt_ge_cases q (2 ^ 24)) as [H|H].
  - rewrite shr_fexp_24 by lia.
    rewrite shr_m_shr_record_of_loc.
    pose proof (round_nearest_even_bounds q
                  (loc_of_shr_record (shr_record_of_loc q l))) as Hr.
    apply round_finish; lia.
  - rewrite shr_fexp_25 by lia.
    pose proof (shr_1_halves (shr_record_of_loc q l)) as Hh.
    rewrite shr_m_shr_record_of_loc in Hh.
    pose proof (round_nearest_even_bounds (shr_m (shr_1 (shr_record_of_loc q l)))
                  (loc_of_shr_record (shr_1 (shr_record_of_loc q l)))) as Hr.
    apply round_finish; lia.
Qed.

Lemma of_Z_positive_form (z : Z) :
  0 < z < 2 ^ 24 ->
  exists (m : positive) (e : Z),
    of_Z z = S754_finite false m e /\ 2 ^ 23 <= Zpos m < 2 ^ 24 /\ -23 <= e <= 0.
Proof.
  intros Hz. destruct (of_Z_form z) as (m & Hm & E); [lia | lia |].
  rewrite Z.abs_eq in Hm, E by lia.
  replace (z <? 0) with false in E by (symmetry; apply Z.ltb_ge; lia).
  assert (Hl : 0 <= Z.log2 z < 24).
  { split; [apply Z.log2_nonneg | apply Z.log2_lt_pow2; lia]. }
  pose proof (Z.log2_spec z ltac:(lia)) as [Hlo Hhi].
  exists m, (Z.log2 z - 23). split; [exact E|]. split; [|lia].
  rewrite Hm. split.
  - replace 23 with (Z.log2 z + (23 - Z.log2 z)) at 1 by lia.
    rewrite Z.pow_add_r by lia. apply Z.mul_le_mono_nonneg_r; [apply Z.pow_nonneg|]; lia.
  - replace 24 with (Z.succ (Z.log2 z) + (23 - Z.log2 z)) by lia.
    rewrite Z.pow_add_r by lia. apply Z.mul_lt_mono_pos_r; [apply Z.pow_pos_nonneg|]; lia.
Qed.

(** On any swapchain whose sides are below [2^24], [ar] is a positive
    finite [float] in canonical form. *)
Lemma aspect_valid (width height : Z) :
  0 < width < 2 ^ 24 -> 0 < height < 2 ^ 24 ->
  valid_binary prec emax (aspect width height) = true
  /\ is_positive (aspect width height) = true.
Proof.
  intros Hw Hh. unfold aspect.
  destruct (of_Z_positive_form height Hh) as (m1 & e1 & -> & Hm1 & He1).
  destruct (of_Z_positive_form width Hw) as (m2 & e2 & -> & Hm2 & He2).
  unfold div, SFdiv, SFdiv_core_binary. cbn [Zdigits2 xorb].
  rewrite (digits2_pos_bounds m1 24), (digits2_pos_bounds m2 24) by lia.
  replace (Z.min (fexp prec emax (24 + e1 - (24 + e2))) (e1 - e2)) with (e1 - e2 - 24)
    by (unfold fexp, emin, prec, emax; lia).
  replace (e1 - e2 - (e1 - e2 - 24)) with 24 by lia.
  rewrite Z.shiftl_mul_pow2 by lia.
  pose proof (Z.div_eucl_eq (Zpos m1 * 2 ^ 24) (Zpos m2) ltac:(lia)) as Hdiv.
  pose proof (Z.mod_pos_bound (Zpos m1 * 2 ^ 24) (Zpos m2) ltac:(lia)) as Hmod.
  unfold Z.modulo in Hmod.
  destruct (Z.div_eucl (Zpos m1 * 2 ^ 24) (Zpos m2)) as [q r].
  destruct (binary_round_aux_valid false q (e1 - e2 - 24) (new_location (Zpos m2) r))
    as (m' & e' & -> & Hb); [|lia|now split].
  assert (H24 : 2 ^ 24 = 2 * 2 ^ 23) by reflexivity.
  assert (H25 : 2 ^ 25 = 4 * 2 ^ 23) by reflexivity.
  nia.
Qed.

(** ** The state monad at work *)

Lemma set_drawCmdBuffers_id w : set_drawCmdBuffers (drawCmdBuffers w) w = w.
Proof. now destruct w. Qed.

Lemma record_all (i : nat) (cs : list Cmd) : forall (w : World) (l : list Cmd),
  drawCmdBuffers w !! i = Some l ->
  for_each cs (record i) w
  = Done tt (set_drawCmdBuffers (<[i := l ++ cs]> (drawCmdBuffers w)) w).
Proof.
  induction cs as [|c cs IH]; intros w l Hl; cbn [for_each].
  - rewrite app_nil_r, list_insert_id, set_drawCmdBuffers_id by assumption.
    reflexivity.
  - unfold mbind, M_bind, record at 1, modify. rewrite Hl. cbn [default].
    rewrite (IH _ (l ++ [c])).
    + cbn. now rewrite list_insert_insert_eq, <- app_assoc.
    + cbn. apply list_lookup_insert_eq. now apply lookup_lt_Some in Hl.
Qed.

Lemma bind_Done {A B} (m : M A) (f : A -> M B) (w w' : World) (a : A) :
  m w = Done a w' -> (m ≫= f) w = f a w'.
Proof. intros H. unfold mbind, M_bind. now rewrite H. Qed.

Lemma bind_Fatal {A B} (m : M A) (f : A -> M B) (w w' : World) (r : VkResult) :
  m w = Fatal r w' -> (m ≫= f) w = Fatal r w'.
Proof. intros H. unfold mbind, M_bind. now rewrite H. Qed.

Lemma VK_CHECK_RESULT_ok (m : M VkResult) (w w' : World) :
  m w = Done VK_SUCCESS w' -> VK_CHECK_RESULT m w = Done tt w'.
Proof. intros H. unfold VK_CHECK_RESULT. now rewrite (bind_Done _ _ _ _ _ H). Qed.

Lemma VK_CHECK_RESULT_fail (m : M VkResult) (w w' : World) (r : VkResult) :
  m w = Done r w' -> r <> VK_SUCCESS -> VK_CHECK_RESULT m w = Fatal r w'.
Proof.
  intros H Hr. unfold VK_CHECK_RESULT. rewrite (bind_Done _ _ _ _ _ H).
  now rewrite decide_False by assumption.
Qed.

Lemma vkBeginCommandBuffer_ok (i : nat) (w : World) :
  result (replies w (length (calls w))) = VK_SUCCESS ->
  vkBeginCommandBuffer i w
  = Done VK_SUCCESS
      (set_drawCmdBuffers (<[i := []]> (drawCmdBuffers w))
         (set_calls (calls w ++ [CallBeginCommandBuffer i]) w)).
Proof.
  intros H. unfold vkBeginCommandBuffer, call, mbind, M_bind.
  rewrite decide_True by assumption. cbn. now rewrite H.
Qed.

Lemma vkEndCommandBuffer_spec (i : nat) (w : World) :
  vkEndCommandBuffer i w
  = Done (result (replies w (length (calls w))))
      (set_calls (calls w ++ [CallEndCommandBuffer i]) w).
Proof. reflexivity. Qed.

Lemma buildCommandBuffer_ok (i : nat) (w : World) :
  (i < length (drawCmdBuffers w))%nat ->
  result (replies w (length (calls w))) = VK_SUCCESS ->
  result (replies w (S (length (calls w)))) = VK_SUCCESS ->
  buildCommandBuffer i w
  = Done tt
      (set_calls (calls w ++ [CallBeginCommandBuffer i; CallEndCommandBuffer i])
         (set_drawCmdBuffers
            (<[i := frameCommands (settings w) (pipeline w) (width w) (height w) i]>
               (drawCmdBuffers w)) w)).
Proof.
  intros Hi H0 H1. unfold buildCommandBuffer.
  erewrite bind_Done by (apply VK_CHECK_RESULT_ok, vkBeginCommandBuffer_ok, H0).
  erewrite bind_Done by reflexivity.
  erewrite bind_Done.
  2: { apply (record_all _ _ _ []). cbn. apply list_lookup_insert_eq, Hi. }
  apply VK_CHECK_RESULT_ok. rewrite vkEndCommandBuffer_spec. cbn.
  rewrite length_app, Nat.add_1_r, H1, list_insert_insert_eq, <- app_assoc.
  reflexivity.
Qed.

(** A failing [vkBeginCommandBuffer] ends the process before anything is
    recorded. *)
Lemma buildCommandBuffer_begin_fails (i : nat) (w : World) :
  result (replies w (length (calls w))) <> VK_SUCCESS ->
  buildCommandBuffer i w
  = Fatal (result (replies w (length (calls w))))
      (set_calls (calls w ++ [CallBeginCommandBuffer i]) w).
Proof.
  intros H. unfold buildCommandBuffer. apply bind_Fatal.
  apply VK_CHECK_RESULT_fail; [|exact H].
  unfold vkBeginCommandBuffer, call, mbind, M_bind.
  now rewrite decide_False by assumption.
Qed.

Lemma for_each_buildCommandBuffer_ok (m : nat) : forall (a : nat) (w : World),
  (a + m)%nat = length (drawCmdBuffers w) ->
  driver_ok w ->
  for_each (seq a m) buildCommandBuffer w
  = Done tt
      (set_calls (calls w ++ flat_map begin_end (seq a m))
         (set_drawCmdBuffers
            (take a (drawCmdBuffers w)
             ++ map (frameCommands (settings w) (pipeline w) (width w) (height w))
                  (seq a m)) w)).
Proof.
  induction m as [|m IH]; intros a w Hlen Hok; cbn [seq for_each flat_map map].
  - rewrite !app_nil_r, take_ge, set_drawCmdBuffers_id by lia.
    now destruct w.
  - erewrite bind_Done by (apply buildCommandBuffer_ok; [lia | apply Hok | apply Hok]).
    rewrite IH; cbn; [| rewrite length_insert; lia | exact Hok].
    rewrite (take_S_r _ _ (frameCommands (settings w) (pipeline w) (width w) (height w) a))
      by (apply list_lookup_insert_eq; lia).
    rewrite take_insert_ge by lia.
    unfold set_calls, set_drawCmdBuffers; cbn.
    now rewrite <- !app_assoc.
Qed.

Lemma buildCommandBuffers_ok (w : World) :
  driver_ok w ->
  buildCommandBuffers w
  = Done tt
      (set_calls (calls w ++ flat_map begin_end (seq 0 (length (drawCmdBuffers w))))
         (set_drawCmdBuffers
            (map (frameCommands (settings w) (pipeline w) (width w) (height w))
               (seq 0 (length (drawCmdBuffers w)))) w)).
Proof.
  intros Hok. unfold buildCommandBuffers.
  erewrite bind_Done by reflexivity.
  now rewrite for_each_buildCommandBuffer_ok by (assumption || lia).
Qed.

Lemma release_spec (w : World) :
  when (bool_decide (pipeline w ≠ VK_NULL_HANDLE)) (vkDestroyPipeline (pipeline w)) w
  = Done tt (set_livePipelines (released (pipeline w) (livePipelines w))
               (set_calls (calls w ++ destroy_calls (pipeline w)) w)).
Proof.
  unfold released, destroy_calls.
  destruct (decide (pipeline w = VK_NULL_HANDLE)) as [E|E].
  - rewrite bool_decide_false by (intros H; now apply H).
    rewrite app_nil_r. now destruct w.
  - rewrite bool_decide_true by assumption. reflexivity.
Qed.

Lemma vkCreateGraphicsPipelines_spec (ci : PipelineCreateInfo) (w : World) :
  vkCreateGraphicsPipelines ci w
  = let r := replies w (length (calls w)) in
    let w' := set_calls (calls w ++ [CallCreateGraphicsPipelines ci]) w in
    Done (result r)
      (if decide (result r = VK_SUCCESS)
       then set_pipeline (created r)
              (set_livePipelines ({[created r]} ∪ livePipelines w) w')
       else set_pipeline VK_NULL_HANDLE w').
Proof.
  unfold vkCreateGraphicsPipelines, call, mbind, M_bind. cbv zeta.
  now destruct (decide (result (replies w (length (calls w))) = VK_SUCCESS)).
Qed.

(** One rebuild, call by call: release the old handle if there is one, load
    the two shaders, create; abort when the creation fails. *)
Lemma preparePipelines_spec (w : World) :
  preparePipelines w
  = let cs := calls w ++ rebuild_calls (pipeline w) (settings w) in
    let live := released (pipeline w) (livePipelines w) in
    let r := creation_reply w in
    if decide (result r = VK_SUCCESS)
    then Done tt (set_pipeline (created r)
                    (set_livePipelines ({[created r]} ∪ live) (set_calls cs w)))
    else Fatal (result r)
           (set_pipeline VK_NULL_HANDLE (set_livePipelines live (set_calls cs w))).
Proof.
  unfold preparePipelines, creation_reply, rebuild_calls.
  erewrite bind_Done by reflexivity.
  erewrite bind_Done by apply release_spec.
  erewrite bind_Done by reflexivity.
  erewrite bind_Done by reflexivity.
  erewrite bind_Done by reflexivity.
  cbv zeta. cbn [settings set_livePipelines set_calls].
  set (cs1 := calls w ++ destroy_calls (pipeline w)).
  destruct (decide (result (replies w (length cs1 + 2)%nat) = VK_SUCCESS)) as [E|E].
  - apply VK_CHECK_RESULT_ok. rewrite vkCreateGraphicsPipelines_spec. cbn.
    rewrite !length_app. cbn. rewrite <- Nat.add_assoc. cbn.
    rewrite E, decide_True by reflexivity.
    unfold set_pipeline, set_livePipelines, set_calls. cbn.
    subst cs1. now rewrite <- !app_assoc.
  - eapply eq_trans; [apply VK_CHECK_RESULT_fail; [apply vkCreateGraphicsPipelines_spec|]|].
    + cbn. rewrite !length_app. cbn. now rewrite <- Nat.add_assoc.
    + cbn. rewrite !length_app. cbn. rewrite <- Nat.add_assoc. cbn.
      rewrite decide_False by assumption.
      unfold set_pipeline, set_livePipelines, set_calls. cbn.
      subst cs1. now rewrite <- !app_assoc.
Qed.

(** ** The viewport policy *)

Lemma to_Z_neg (x : float) : to_Z (neg x) = Z.opp <$> to_Z x.
Proof.
  destruct x as [s|s| |s m e]; try reflexivity. cbn [neg SFopp to_Z].
  destruct (0 <=? e); [|destruct (_ =? 0)]; cbn [fmap option_fmap option_map];
    try reflexivity; destruct s; cbn [negb cond_Zopp]; f_equal; lia.
Qed.

Lemma frame_viewport_frameCommands (s : Settings) (p : handle) (w h : Z) (i : nat) :
  frame_viewport (frameCommands s p w h i)
  = Some (viewport_of (negativeViewport s) (offsetx s) (offsety s) w h).
Proof. reflexivity. Qed.

Lemma rect_of_viewport_of (flip : bool) (ox oy w h : Z) :
  Z.abs ox < 2 ^ 24 -> Z.abs oy < 2 ^ 24 ->
  0 <= w < 2 ^ 24 -> 0 <= h < 2 ^ 24 -> Z.abs (h - oy) < 2 ^ 24 ->
  rect_of (viewport_of flip ox oy w h) = Some (policy_rect flip ox oy w h).
Proof.
  intros Hox Hoy Hw Hh Hd. unfold rect_of, viewport_of, policy_rect.
  destruct flip; cbn [vp_x vp_y vp_width vp_height].
  - rewrite to_Z_neg, sub_of_Z_exact, !of_Z_exact by lia. reflexivity.
  - rewrite !of_Z_exact by lia. reflexivity.
Qed.

(** C1, as stated, fails: an offset of [2^24 + 1] is recorded as [2^24],
    the nearest [float]. *)
Lemma C1_counterexample :
  rect_of (viewport_of false 16777217 0 20000000 600)
  = Some (16777216, 0, 20000000, 600)
  /\ rect_of (viewport_of false 16777217 0 20000000 600)
     <> Some (policy_rect false 16777217 0 20000000 600).
Proof. split; [vm_compute; reflexivity | vm_compute; discriminate]. Qed.

(** C1 (amended): for every flip flag and all integer offsets and
    framebuffer sizes, the members of the viewport recorded into a frame are
    the code's [float] expressions: x is [offsetX] converted, width is
    [fbWidth] converted; with the flag off y is [offsetY] converted and height
    [fbHeight] converted; with the flag on y is the [float] difference of the
    converted [fbHeight] and the converted [offsetY], and height the negation
    of the converted [fbHeight]. When the offsets, the sizes and the
    difference [fbHeight - offsetY] are below [2^24] in magnitude, the range
    in which these [float] values are the integers themselves, the viewport is
    origin [(offsetX, offsetY)] with extent [(fbWidth, fbHeight)] when flip is
    false, and origin [(offsetX, fbHeight - offsetY)] with extent
    [(fbWidth, - fbHeight)] when flip is true. *)
Theorem C1_viewport_policy (s : Settings) (p : handle) (w h : Z) (i : nat) :
  exists vp : Viewport,
    frame_viewport (frameCommands s p w h i) = Some vp
    /\ vp_x vp = of_Z (offsetx s)
    /\ vp_width vp = of_Z w
    /\ vp_y vp = (if negativeViewport s
                 then sub (of_Z h) (of_Z (offsety s))
                 else of_Z (offsety s))
    /\ vp_height vp = (if negativeViewport s then neg (of_Z h) else of_Z h)
    /\ (Z.abs (offsetx s) < 2 ^ 24 -> Z.abs (offsety s) < 2 ^ 24 ->
        0 <= w < 2 ^ 24 -> 0 <= h < 2 ^ 24 -> Z.abs (h - offsety s) < 2 ^ 24 ->
        rect_of vp = Some (policy_rect (negativeViewport s) (offsetx s) (offsety s) w h)).
Proof.
  eexists. split; [apply frame_viewport_frameCommands|].
  unfold viewport_of.
  repeat split; try (destruct (negativeViewport s); reflexivity).
  intros Hox Hoy Hw Hh Hd.
  exact (rect_of_viewport_of (negativeViewport s) (offsetx s) (offsety s) w h
           Hox Hoy Hw Hh Hd).
Qed.

(** The second end-to-end scenario: flip on, no offsets, 800 x 600. *)
Lemma C1_witness :
  frame_viewport (frameCommands defaultSettings 1 800 600 0) ≫= rect_of
  = Some (0, 600, 800, -600).
Proof.
  destruct (C1_viewport_policy defaultSettings 1 800 600 0)
    as (vp & Hvp & _ & _ & _ & _ & Hrect).
  rewrite Hvp. cbn [mbind option_bind]. apply Hrect; cbn; lia.
Defined.

(** C8, as stated, fails for the Y origin: on a framebuffer of height
    [2^24 + 1] with [offsetY = 1], an offset within the slider bounds, the
    flipped viewport's Y origin is recorded as [2^24 - 1], not as
    [fbHeight - offsetY = 2^24], and its height as [- 2^24]. *)
Lemma C8_counterexample :
  (- 16777217 <= 1 <= 16777217)
  /\ to_Z (vp_y (viewport_of true 0 1 800 16777217)) = Some 16777215
  /\ to_Z (vp_y (viewport_of true 0 1 800 16777217)) <> Some (16777217 - 1)
  /\ to_Z (vp_height (viewport_of true 0 1 800 16777217)) = Some (-16777216)
  /\ to_Z (vp_height (viewport_of false 0 1 800 16777217)) = Some 16777216.
Proof.
  split; [lia|]. split; [vm_compute; reflexivity|].
  split; [vm_compute; discriminate|].
  split; vm_compute; reflexivity.
Qed.

(** C8 (amended): for all inputs the flipped viewport's height is the
    negation of the unflipped one, as [float] values. When [fbHeight] is below
    [2^24] in magnitude the two heights are the integers [fbHeight] and
    [- fbHeight]; when moreover [offsetY] and [fbHeight - offsetY] are below
    [2^24] in magnitude, the flipped Y origin is [fbHeight - offsetY]. *)
Theorem C8_flip_negates_height (ox oy w h : Z) :
  vp_height (viewport_of true ox oy w h) = neg (vp_height (viewport_of false ox oy w h))
  /\ (Z.abs h < 2 ^ 24 ->
      to_Z (vp_height (viewport_of false ox oy w h)) = Some h
      /\ to_Z (vp_height (viewport_of true ox oy w h)) = Some (- h))
  /\ (Z.abs h < 2 ^ 24 -> Z.abs oy < 2 ^ 24 -> Z.abs (h - oy) < 2 ^ 24 ->
      to_Z (vp_y (viewport_of true ox oy w h)) = Some (h - oy)).
Proof.
  cbn [viewport_of vp_height vp_y]. split; [reflexivity|]. split.
  - intros Hh. rewrite to_Z_neg, of_Z_exact by lia. now split.
  - intros Hh Hoy Hd. now apply sub_of_Z_exact.
Qed.

Lemma C8_witness :
  vp_height (viewport_of true 0 100 800 600) = neg (vp_height (viewport_of false 0 100 800 600))
  /\ to_Z (vp_height (viewport_of false 0 100 800 600)) = Some 600
  /\ to_Z (vp_height (viewport_of true 0 100 800 600)) = Some (-600)
  /\ to_Z (vp_y (viewport_of true 0 100 800 600)) = Some 500.
Proof.
  destruct (C8_flip_negates_height 0 100 800 600) as (Hneg & Hh & Hy).
  split; [exact Hneg|].
  destruct Hh as [H1 H2]; [cbn; lia|].
  split; [exact H1|]. split; [exact H2|].
  apply Hy; cbn; lia.
Defined.

(** C10, as stated, fails for the X origin: the offset [- (2^24 + 1)] is
    recorded as [- 2^24]. *)
Lemma C10_counterexample :
  let s := set_offsetx (-16777217) defaultSettings in
  (vp_x <$> frame_viewport (frameCommands s 1 20000000 600 0)) ≫= to_Z
  = Some (-16777216)
  /\ (vp_x <$> frame_viewport (frameCommands s 1 20000000 600 0)) ≫= to_Z
     <> Some (offsetx s).
Proof. split; [vm_compute; reflexivity | vm_compute; discriminate]. Qed.

(** C10 (amended): for every combination of the settings and every
    framebuffer size, the viewport recorded into a frame has [minDepth = 0.0]
    and [maxDepth = 1.0]; its X origin is [offsetX] converted to [float],
    which is [offsetX] itself when [|offsetX| < 2^24]; and the X origin, the
    width and the depth range are the same with the flip flag on or off, the
    two heights being each other's negation. *)
Theorem C10_viewport_invariants (s : Settings) (p : handle) (w h : Z) (i : nat) :
  exists vp vp' : Viewport,
    frame_viewport (frameCommands s p w h i) = Some vp
    /\ frame_viewport
         (frameCommands (set_negativeViewport (negb (negativeViewport s)) s) p w h i)
       = Some vp'
    /\ vp_minDepth vp = zero /\ vp_maxDepth vp = one
    /\ vp_x vp = of_Z (offsetx s)
    /\ (Z.abs (offsetx s) < 2 ^ 24 -> to_Z (vp_x vp) = Some (offsetx s))
    /\ vp_x vp' = vp_x vp /\ vp_width vp' = vp_width vp
    /\ vp_minDepth vp' = vp_minDepth vp /\ vp_maxDepth vp' = vp_maxDepth vp
    /\ vp_height vp' = neg (vp_height vp).
Proof.
  do 2 eexists.
  split; [apply frame_viewport_frameCommands|].
  split; [apply frame_viewport_frameCommands|].
  destruct s as [flip oy ox wo cm qt]; cbn.
  split; [now destruct flip|]. split; [now destruct flip|].
  split; [now destruct flip|].
  split; [intros Hox; destruct flip; now apply of_Z_exact|].
  unfold viewport_of.
  destruct flip; cbn; repeat split; now destruct (of_Z h) as [[]|[]| |[] m e].
Qed.

Lemma C10_witness :
  exists vp vp' : Viewport,
    frame_viewport (frameCommands defaultSettings 1 800 600 0) = Some vp
    /\ frame_viewport
         (frameCommands (set_negativeViewport false defaultSettings) 1 800 600 0)
       = Some vp'
    /\ vp_minDepth vp = zero /\ vp_maxDepth vp = one
    /\ vp_x vp = of_Z 0 /\ to_Z (vp_x vp) = Some 0
    /\ vp_x vp' = vp_x vp /\ vp_width vp' = vp_width vp
    /\ vp_minDepth vp' = vp_minDepth vp /\ vp_maxDepth vp' = vp_maxDepth vp
    /\ vp_height vp' = neg (vp_height vp).
Proof.
  destruct (C10_viewport_invariants defaultSettings 1 800 600 0)
    as (vp & vp' & H1 & H2 & H3 & H4 & H5 & H6 & H7).
  exists vp, vp'. do 5 (split; [assumption|]).
  split; [apply H6; cbn; lia | exact H7].
Defined.

(** ** Geometry *)

Lemma mul_one_l (x : float) : valid_binary prec emax x = true -> mul one x = x.
Proof.
  destruct x as [s|s| |s m e]; try reflexivity. cbn [valid_binary]. intros Hb.
  unfold mul, one, SFmul. cbn [xorb].
  apply binary_round_aux_exact; [lia | | exact Hb].
  replace (e - (-23 + e)) with 23 by lia. rewrite Pos2Z.inj_mul. lia.
Qed.

Lemma mul_neg_one_l (x : float) :
  valid_binary prec emax x = true -> mul (neg one) x = neg x.
Proof.
  destruct x as [s|s| |s m e]; try reflexivity. cbn [valid_binary]. intros Hb.
  unfold mul, one, neg, SFmul, SFopp. cbn [xorb].
  apply binary_round_aux_exact; [lia | | exact Hb].
  replace (e - (-23 + e)) with 23 by lia. rewrite Pos2Z.inj_mul. lia.
Qed.

Lemma to_Q_one : (to_Q one == 1)%Q.
Proof. reflexivity. Qed.

Lemma to_Q_positive (x : float) : is_positive x = true -> (0 < to_Q x)%Q.
Proof.
  destruct x as [s|s| |[] m e]; try discriminate. intros _. cbn [to_Q].
  apply Qmult_lt_0_compat; [reflexivity | now apply Qpower_0_lt].
Qed.

Lemma to_Q_neg_positive (x : float) :
  is_positive x = true -> to_Q (neg x) = (- to_Q x)%Q.
Proof. destruct x as [s|s| |[] m e]; try discriminate. reflexivity. Qed.

Lemma orientation_neg (p q r : point) :
  (signed_area2 p q r < 0)%Q -> orientation p q r = Clockwise.
Proof. intros H. unfold orientation. now apply Qlt_alt in H as ->. Qed.

Lemma orientation_pos (p q r : point) :
  (0 < signed_area2 p q r)%Q -> orientation p q r = CounterClockwise.
Proof. intros H. unfold orientation. now apply Qgt_alt in H as ->. Qed.

Lemma positions_YPos (ar : float) :
  valid_binary prec emax ar = true -> is_positive ar = true ->
  map position2 (verticesYPos ar)
  = [ ((- to_Q ar)%Q, to_Q one); ((- to_Q ar)%Q, to_Q (neg one));
      (to_Q ar, to_Q (neg one)); (to_Q ar, to_Q one) ].
Proof.
  intros Hv Hp. unfold verticesYPos.
  rewrite mul_neg_one_l, mul_one_l by assumption.
  unfold position2, mkVertex. cbn [map pos fst snd].
  now rewrite to_Q_neg_positive.
Qed.

Lemma positions_YNeg (ar : float) :
  valid_binary prec emax ar = true -> is_positive ar = true ->
  map position2 (verticesYNeg ar)
  = [ ((- to_Q ar)%Q, to_Q (neg one)); ((- to_Q ar)%Q, to_Q one);
      (to_Q ar, to_Q one); (to_Q ar, to_Q (neg one)) ].
Proof.
  intros Hv Hp. unfold verticesYNeg.
  rewrite mul_neg_one_l, mul_one_l by assumption.
  unfold position2, mkVertex. cbn [map pos fst snd].
  now rewrite to_Q_neg_positive.
Qed.

(** C4, as stated, fails: on a 800 x 600 swapchain both triangles of
    [2,1,0,0,3,2] over the corners [(-a,1),(-a,-1),(a,-1),(a,1)] have
    negative signed area, so they are clockwise in the right-handed test. *)
Lemma C4_counterexample :
  windings (verticesYUp (loadAssets 800 600)) (indicesCCW (loadAssets 800 600))
  = [Some Clockwise; Some Clockwise]
  /\ windings (verticesYUp (loadAssets 800 600)) (indicesCW (loadAssets 800 600))
     = [Some CounterClockwise; Some CounterClockwise].
Proof. split; vm_compute; reflexivity. Qed.

Lemma to_Q_neg_one : to_Q (neg one) = (- to_Q one)%Q.
Proof. reflexivity. Qed.

Ltac orient_sign :=
  first [ apply orientation_neg | apply orientation_pos ];
  unfold signed_area2; cbn [fst snd]; nra.

(** Orientations for any positive ratio in canonical form. *)
Lemma windings_of_ratio (ar : float) :
  valid_binary prec emax ar = true -> is_positive ar = true ->
  windings (verticesYPos ar) indices_ccw = [Some Clockwise; Some Clockwise]
  /\ windings (verticesYPos ar) indices_cw = [Some CounterClockwise; Some CounterClockwise]
  /\ windings (verticesYNeg ar) indices_ccw = [Some CounterClockwise; Some CounterClockwise]
  /\ windings (verticesYNeg ar) indices_cw = [Some Clockwise; Some Clockwise].
Proof.
  intros Hv Hp. unfold windings.
  rewrite positions_YPos, positions_YNeg by assumption.
  rewrite to_Q_neg_one.
  pose proof (to_Q_positive ar Hp) as Ha. pose proof to_Q_one as Hu.
  generalize dependent (to_Q one). generalize dependent (to_Q ar).
  intros a Ha u Hu.
  unfold indices_ccw, indices_cw, triangle_winding.
  cbn [triangles map lookup list_lookup fst snd mbind option_bind].
  repeat split; repeat f_equal; orient_sign.
Qed.

Lemma corners_of_ratio (ar : float) :
  valid_binary prec emax ar = true -> is_positive ar = true ->
  Forall2 same_point (map position2 (verticesYPos ar)) (corners_up (to_Q ar))
  /\ Forall2 same_point (map position2 (verticesYNeg ar)) (corners_down (to_Q ar)).
Proof.
  intros Hv Hp. rewrite positions_YPos, positions_YNeg by assumption.
  rewrite to_Q_neg_one. pose proof to_Q_one as Hu.
  unfold corners_up, corners_down, same_point.
  split; repeat constructor; cbn [fst snd]; (reflexivity || (rewrite Hu; reflexivity)).
Qed.

(** C4 (amended): for a positive aspect ratio [a], the Y-up vertex set
    sits at the corners [(-a,1),(-a,-1),(a,-1),(a,1)], and over these corners
    the index order [2,1,0,0,3,2] yields two triangles of negative signed
    area, clockwise in the right-handed test, and [0,1,2,2,3,0] two triangles
    of positive signed area, counter-clockwise. Over the Y-down corners
    [(-a,-1),(-a,1),(a,1),(a,-1)] it is the other way round: [2,1,0,0,3,2] is
    counter-clockwise and [0,1,2,2,3,0] clockwise. *)
Theorem C4_winding (ar : float) :
  valid_binary prec emax ar = true -> is_positive ar = true ->
  (0 < to_Q ar)%Q
  /\ Forall2 same_point (map position2 (verticesYPos ar)) (corners_up (to_Q ar))
  /\ Forall2 same_point (map position2 (verticesYNeg ar)) (corners_down (to_Q ar))
  /\ windings (verticesYPos ar) indices_ccw = [Some Clockwise; Some Clockwise]
  /\ windings (verticesYPos ar) indices_cw = [Some CounterClockwise; Some CounterClockwise]
  /\ windings (verticesYNeg ar) indices_ccw = [Some CounterClockwise; Some CounterClockwise]
  /\ windings (verticesYNeg ar) indices_cw = [Some Clockwise; Some Clockwise].
Proof.
  intros Hv Hp.
  split; [now apply to_Q_positive|].
  destruct (corners_of_ratio _ Hv Hp) as [Hup Hdown].
  split; [exact Hup|]. split; [exact Hdown|].
  now apply windings_of_ratio.
Qed.

Lemma C4_witness :
  windings (verticesYUp (loadAssets 800 600)) (indicesCCW (loadAssets 800 600))
  = [Some Clockwise; Some Clockwise]
  /\ windings (verticesYDown (loadAssets 800 600)) (indicesCCW (loadAssets 800 600))
     = [Some CounterClockwise; Some CounterClockwise].
Proof.
  destruct (C4_winding (aspect 800 600)) as (_ & _ & _ & Hup & _ & Hdown & _);
    [reflexivity | reflexivity |].
  split; [exact Hup | exact Hdown].
Defined.

(** What [loadAssets] stores on any swapchain with sides below [2^24]: the
    ratio it computes is positive and canonical, so the orientations above
    are those of the stored buffers. *)
Lemma loadAssets_windings (width height : Z) :
  0 < width < 2 ^ 24 -> 0 < height < 2 ^ 24 ->
  let q := loadAssets width height in
  windings (verticesYUp q) (indicesCCW q) = [Some Clockwise; Some Clockwise]
  /\ windings (verticesYUp q) (indicesCW q)
     = [Some CounterClockwise; Some CounterClockwise]
  /\ windings (verticesYDown q) (indicesCCW q)
     = [Some CounterClockwise; Some CounterClockwise]
  /\ windings (verticesYDown q) (indicesCW q) = [Some Clockwise; Some Clockwise].
Proof.
  intros Hw Hh. cbv zeta.
  destruct (aspect_valid width height Hw Hh) as [Hv Hp].
  cbn [loadAssets verticesYUp verticesYDown indicesCCW indicesCW].
  now apply windings_of_ratio.
Qed.

(** C5, as stated, fails: the two vertex sets differ in their positions (the
    y coordinates are opposite) and agree on every texture coordinate. *)
Lemma C5_counterexample :
  map pos (verticesYUp (loadAssets 800 600)) <> map pos (verticesYDown (loadAssets 800 600))
  /\ map uv (verticesYUp (loadAssets 800 600)) = map uv (verticesYDown (loadAssets 800 600)).
Proof. split; [vm_compute; discriminate | reflexivity]. Qed.

(** C5 (amended): the two stored vertex sets have four vertices each, read
    through the same two index lists, whose entries are all below four;
    vertex by vertex they have identical texture coordinates and identical x
    and z, and opposite y. *)
Theorem C5_vertex_sets (width height : Z) :
  Forall2 mirrored_in_y (verticesYUp (loadAssets width height))
                        (verticesYDown (loadAssets width height))
  /\ length (verticesYUp (loadAssets width height)) = 4%nat
  /\ length (verticesYDown (loadAssets width height)) = 4%nat
  /\ Forall (fun i => (i < 4)%nat)
       (indicesCCW (loadAssets width height) ++ indicesCW (loadAssets width height)).
Proof.
  cbn [loadAssets verticesYUp verticesYDown indicesCCW indicesCW].
  split; [|split; [reflexivity|split; [reflexivity|]]].
  - unfold verticesYPos, verticesYNeg, mirrored_in_y.
    repeat constructor.
  - unfold indices_ccw, indices_cw. cbn [app]. repeat constructor.
Qed.

(** ** The rasterization state *)

Lemma built_rasterization_spec (w : World) :
  built_rasterization w = Some (rasterization_of (settings w)).
Proof.
  unfold built_rasterization. rewrite preparePipelines_spec. cbv zeta.
  unfold rebuild_calls.
  destruct (decide (result (creation_reply w) = VK_SUCCESS));
    cbn [world_of calls set_pipeline set_livePipelines set_calls];
    rewrite !app_assoc;
    change [CallLoadShader vertexShader; CallLoadShader fragmentShader;
            CallCreateGraphicsPipelines (createInfo_of (settings w))]
      with ([CallLoadShader vertexShader; CallLoadShader fragmentShader]
            ++ [CallCreateGraphicsPipelines (createInfo_of (settings w))]);
    now rewrite !app_assoc, last_snoc.
Qed.

(** C7: the pipeline build maps [windingOrder == 0] to a clockwise front
    face and every other value to a counter-clockwise one, and the cull-mode
    selectors 0, 1, 2 to [VK_CULL_MODE_NONE], [VK_CULL_MODE_FRONT_BIT] and
    [VK_CULL_MODE_BACK_BIT], through the sum [VK_CULL_MODE_NONE + cullMode]. *)
Theorem C7_pipeline_mapping (w : World) :
  0 <= cullMode (settings w) <= 2 ->
  exists rs : RasterizationState,
    built_rasterization w = Some rs
    /\ (windingOrder (settings w) = 0 -> frontFace rs = VK_FRONT_FACE_CLOCKWISE)
    /\ (windingOrder (settings w) <> 0 -> frontFace rs = VK_FRONT_FACE_COUNTER_CLOCKWISE)
    /\ rs_cullMode rs = VK_CULL_MODE_NONE + cullMode (settings w)
    /\ (cullMode (settings w) = 0 -> rs_cullMode rs = VK_CULL_MODE_NONE)
    /\ (cullMode (settings w) = 1 -> rs_cullMode rs = VK_CULL_MODE_FRONT_BIT)
    /\ (cullMode (settings w) = 2 -> rs_cullMode rs = VK_CULL_MODE_BACK_BIT).
Proof.
  intros Hc. exists (rasterization_of (settings w)).
  split; [apply built_rasterization_spec|].
  unfold rasterization_of; cbn [frontFace rs_cullMode].
  assert (Hu : u32 (VK_CULL_MODE_NONE + cullMode (settings w))
               = VK_CULL_MODE_NONE + cullMode (settings w)).
  { unfold u32, VK_CULL_MODE_NONE. apply Z.mod_small. lia. }
  rewrite Hu. unfold VK_CULL_MODE_NONE, VK_CULL_MODE_FRONT_BIT, VK_CULL_MODE_BACK_BIT.
  repeat split; intros; try lia.
  - now rewrite decide_True.
  - now rewrite decide_False.
Qed.

Lemma C7_witness :
  exists rs : RasterizationState,
    built_rasterization (VulkanExample 800 600 2 (fun _ => {| result := VK_SUCCESS; created := 1 |}))
    = Some rs
    /\ frontFace rs = VK_FRONT_FACE_COUNTER_CLOCKWISE
    /\ rs_cullMode rs = VK_CULL_MODE_BACK_BIT.
Proof.
  destruct (C7_pipeline_mapping
              (VulkanExample 800 600 2 (fun _ => {| result := VK_SUCCESS; created := 1 |})))
    as (rs & Hrs & _ & Hccw & _ & _ & _ & Hback);
    [cbn; unfold VK_CULL_MODE_BACK_BIT; lia|].
  exists rs. split; [exact Hrs|]. split; [apply Hccw; discriminate | now apply Hback].
Defined.

(** ** Defaults *)

(** C9: at construction the flipped viewport is on, both offsets are 0,
    [windingOrder] is 1, which builds a counter-clockwise front face, the
    cull mode is back, and [quadType] is 0, which selects the Y-down vertex
    buffer; no pipeline exists yet and no call has been made. *)
Theorem C9_defaults (w h : Z) (n : nat) (drv : nat -> Reply) :
  let e := VulkanExample w h n drv in
  negativeViewport (settings e) = true
  /\ offsetx (settings e) = 0 /\ offsety (settings e) = 0
  /\ windingOrder (settings e) = 1
  /\ frontFace (rasterization_of (settings e)) = VK_FRONT_FACE_COUNTER_CLOCKWISE
  /\ cullMode (settings e) = VK_CULL_MODE_BACK_BIT
  /\ rs_cullMode (rasterization_of (settings e)) = VK_CULL_MODE_BACK_BIT
  /\ quadType (settings e) = 0
  /\ vertexBuffer_of (settings e) = BufVerticesYDown
  /\ pipeline e = VK_NULL_HANDLE /\ calls e = [].
Proof. cbv zeta. repeat split. Qed.

(** ** Recorded frames *)

Lemma draws_frameCommands (s : Settings) (p : handle) (w h : Z) (i : nat) :
  draws (frameCommands s p w h i)
  = [ quad_draw SetCW BufIndicesCW (vertexBuffer_of s);
      quad_draw SetCCW BufIndicesCCW (vertexBuffer_of s) ].
Proof. reflexivity. Qed.

(** C6: when recording succeeds, every recorded frame issues exactly two
    indexed draws of 6 indices and 1 instance: the first with the clockwise
    texture's descriptor set and the clockwise index buffer, the second with
    the counter-clockwise texture's descriptor set and the counter-clockwise
    index buffer, both reading the same vertex buffer, the Y-down one when
    [quadType] is 0 and the Y-up one otherwise. *)
Theorem C6_two_draws (w : World) :
  driver_ok w ->
  exists w' : World,
    buildCommandBuffers w = Done tt w'
    /\ length (drawCmdBuffers w') = length (drawCmdBuffers w)
    /\ Forall (fun frame =>
                 draws frame
                 = [ quad_draw SetCW BufIndicesCW (vertexBuffer_of (settings w));
                     quad_draw SetCCW BufIndicesCCW (vertexBuffer_of (settings w)) ])
         (drawCmdBuffers w')
    /\ Forall (fun frame => map draw_texture (draws frame) = [Some TextureCW; Some TextureCCW])
         (drawCmdBuffers w')
    /\ (quadType (settings w) = 0 -> vertexBuffer_of (settings w) = BufVerticesYDown)
    /\ (quadType (settings w) <> 0 -> vertexBuffer_of (settings w) = BufVerticesYUp).
Proof.
  intros Hok. eexists. split; [now apply buildCommandBuffers_ok|].
  cbn [drawCmdBuffers set_calls set_drawCmdBuffers].
  split; [now rewrite length_map, length_seq|].
  split; [|split].
  - apply List.Forall_map, Forall_forall. intros i _. apply draws_frameCommands.
  - apply List.Forall_map, Forall_forall. intros i _. now rewrite draws_frameCommands.
  - unfold vertexBuffer_of. split; intros H.
    + now rewrite decide_True.
    + now rewrite decide_False.
Qed.

Lemma C6_witness :
  exists w' : World,
    buildCommandBuffers
      (VulkanExample 800 600 2 (fun _ => {| result := VK_SUCCESS; created := 1 |}))
    = Done tt w'
    /\ drawCmdBuffers w'
       = [ frameCommands defaultSettings VK_NULL_HANDLE 800 600 0;
           frameCommands defaultSettings VK_NULL_HANDLE 800 600 1 ]
    /\ Forall (fun frame =>
                 draws frame = [ quad_draw SetCW BufIndicesCW BufVerticesYDown;
                                 quad_draw SetCCW BufIndicesCCW BufVerticesYDown ])
         (drawCmdBuffers w').
Proof.
  destruct (C6_two_draws
              (VulkanExample 800 600 2 (fun _ => {| result := VK_SUCCESS; created := 1 |})))
    as (w' & Hrun & _ & Hdraws & _ & _); [intros k; reflexivity|].
  exists w'. split; [exact Hrun|]. split; [|exact Hdraws].
  vm_compute in Hrun. now injection Hrun as <-.
Defined.

(** ** Rebuilding the pipeline *)

(** C2, as stated, fails. After [prepare] the example holds pipeline 3; the
    next rebuild releases it before anything is created, and when that
    creation fails the process ends with no pipeline alive. *)
Lemma C2_counterexample :
  let w := prepared_example failing_driver in
  let o := preparePipelines w in
  pipeline w = 3 /\ 3 ∈ livePipelines w
  /\ new_calls w (world_of o)
     = [ CallDestroyPipeline 3; CallLoadShader vertexShader; CallLoadShader fragmentShader;
         CallCreateGraphicsPipelines (createInfo_of defaultSettings) ]
  /\ kept_until_created 3 (new_calls w (world_of o)) = false
  /\ (exists w', o = Fatal (-1) w')
  /\ livePipelines (world_of o) = ∅.
Proof.
  cbv zeta. do 4 (split; [vm_compute; reflexivity|]).
  split; [eexists|]; vm_compute; reflexivity.
Qed.

Lemma new_calls_app (w w' : World) (cs : list Call) :
  calls w' = calls w ++ cs -> new_calls w w' = cs.
Proof. intros E. unfold new_calls. now rewrite E, drop_app_length. Qed.

(** C2 (amended): during a rebuild, a previous pipeline handle is destroyed
    first and the new pipeline is created after it, the two shader loads in
    between. When the creation succeeds the example holds the handle the
    driver returned, alive next to what was alive before minus the old handle;
    when it fails the process ends with [VK_NULL_HANDLE] in [pipeline] and the
    old handle no longer alive. *)
Theorem C2_destroy_then_create (w : World) :
  pipeline w <> VK_NULL_HANDLE ->
  let o := preparePipelines w in
  let r := creation_reply w in
  new_calls w (world_of o)
  = [ CallDestroyPipeline (pipeline w);
      CallLoadShader vertexShader; CallLoadShader fragmentShader;
      CallCreateGraphicsPipelines (createInfo_of (settings w)) ]
  /\ kept_until_created (pipeline w) (new_calls w (world_of o)) = false
  /\ (result r = VK_SUCCESS ->
        o = Done tt (world_of o)
        /\ pipeline (world_of o) = created r
        /\ livePipelines (world_of o)
           = {[created r]} ∪ (livePipelines w ∖ {[pipeline w]}))
  /\ (result r <> VK_SUCCESS ->
        o = Fatal (result r) (world_of o)
        /\ pipeline (world_of o) = VK_NULL_HANDLE
        /\ livePipelines (world_of o) = livePipelines w ∖ {[pipeline w]}
        /\ pipeline w ∉ livePipelines (world_of o)).
Proof.
  intros Hold. cbv zeta. rewrite preparePipelines_spec. cbv zeta.
  unfold rebuild_calls, released, destroy_calls.
  destruct (decide (pipeline w = VK_NULL_HANDLE)) as [|_]; [contradiction|].
  assert (Hcalls : forall o : Outcome unit,
             calls (world_of o)
             = calls w ++ [CallDestroyPipeline (pipeline w)] ++
                 [CallLoadShader vertexShader; CallLoadShader fragmentShader;
                  CallCreateGraphicsPipelines (createInfo_of (settings w))] ->
             new_calls w (world_of o)
             = [ CallDestroyPipeline (pipeline w);
                 CallLoadShader vertexShader; CallLoadShader fragmentShader;
                 CallCreateGraphicsPipelines (createInfo_of (settings w)) ]).
  { intros o E. now apply new_calls_app. }
  destruct (decide (result (creation_reply w) = VK_SUCCESS)) as [E|E].
  - rewrite Hcalls by reflexivity. cbn [kept_until_created].
    rewrite decide_True by reflexivity.
    repeat split; try reflexivity; contradiction.
  - rewrite Hcalls by reflexivity. cbn [kept_until_created].
    rewrite decide_True by reflexivity.
    repeat split; try reflexivity; try contradiction.
    cbn. intros [_ Hin]%elem_of_difference. apply Hin. now apply elem_of_singleton.
Qed.

Lemma C2_witness :
  new_calls (prepared_example fresh_driver)
    (world_of (preparePipelines (prepared_example fresh_driver)))
  = [ CallDestroyPipeline 3;
      CallLoadShader vertexShader; CallLoadShader fragmentShader;
      CallCreateGraphicsPipelines (createInfo_of defaultSettings) ]
  /\ pipeline (world_of (preparePipelines (prepared_example fresh_driver))) = 11.
Proof.
  destruct (C2_destroy_then_create (prepared_example fresh_driver))
    as (Hcalls & _ & Hok & _); [vm_compute; discriminate|].
  split; [exact Hcalls|].
  destruct Hok as (_ & Hp & _); [reflexivity | exact Hp].
Defined.

(** ** Parameter changes *)

(** One widget firing runs the rebuild its branch names, on the settings
    with the new value written. *)
Lemma OnUpdateUIOverlay_change (c : Change) (w : World) :
  OnUpdateUIOverlay (overlay_of c) w
  = (if affects_pipeline c then preparePipelines else buildCommandBuffers)
      (set_settings (apply_change c (settings w)) w).
Proof.
  destruct c; unfold OnUpdateUIOverlay, when, widget;
    cbn [overlay_of affects_pipeline apply_change header_scene header_viewport
         header_pipeline combo_quadtype check_negative slider_offsetx slider_offsety
         combo_windingorder combo_cullmode];
    unfold mbind, M_bind, modify, mret, M_ret;
    match goal with
    | |- context [buildCommandBuffers ?x] => destruct (buildCommandBuffers x) as [[] ?|]
    | |- context [preparePipelines ?x] => destruct (preparePipelines x) as [[] ?|]
    end; reflexivity.
Qed.

(** A pass in which no widget fires calls nothing and changes nothing. *)
Lemma OnUpdateUIOverlay_quiet (w : World) : OnUpdateUIOverlay quiet w = Done tt w.
Proof. reflexivity. Qed.

(** C3, as stated, fails. With a driver that never reuses a handle, choosing
    the other winding order after [prepare] rebuilds the pipeline (handle 11
    replaces handle 3) and begins no command buffer: both frames are left as
    they were, binding the destroyed handle 3. With a driver that hands the
    freed handle out again, the handle after the rebuild equals the one
    before. *)
Lemma C3_counterexample :
  let w := prepared_example fresh_driver in
  let w' := world_of (OnUpdateUIOverlay (overlay_of (ChangeWindingOrder 0)) w) in
  let v := prepared_example reusing_driver in
  let v' := world_of (OnUpdateUIOverlay (overlay_of (ChangeWindingOrder 0)) v) in
  (pipeline w = 3 /\ pipeline w' = 11
   /\ rerecords (new_calls w w') = false
   /\ drawCmdBuffers w' = drawCmdBuffers w
   /\ map bound_pipelines (drawCmdBuffers w') = [[3]; [3]]
   /\ bool_decide (3 ∈ livePipelines w') = false)
  /\ (pipeline v = 7 /\ pipeline v' = 7 /\ existsb is_create (new_calls v v') = true).
Proof.
  cbv zeta. split.
  - do 5 (split; [vm_compute; reflexivity|]). vm_compute; reflexivity.
  - do 2 (split; [vm_compute; reflexivity|]). vm_compute; reflexivity.
Qed.

(** C3 (amended): every parameter change, the driver answering with
    success, completes and writes the new value. A change of [windingOrder]
    or [cullMode] destroys the previous pipeline handle, if there is one, and
    creates exactly one pipeline, built from the new settings; the example
    then holds the handle the driver returned for it, which is alive. A
    change of the quad type, the flip flag or an offset creates and destroys
    no pipeline: handle and live pipelines are unchanged, and every command
    buffer is recorded anew from the new settings. *)
Theorem C3_rebuild_on_change (c : Change) (w : World) :
  driver_ok w ->
  exists w' : World,
    OnUpdateUIOverlay (overlay_of c) w = Done tt w'
    /\ settings w' = apply_change c (settings w)
    /\ if affects_pipeline c
       then List.filter is_create (new_calls w w')
            = [CallCreateGraphicsPipelines (createInfo_of (settings w'))]
            /\ List.filter is_destroy (new_calls w w') = destroy_calls (pipeline w)
            /\ pipeline w' = created (creation_reply w)
            /\ pipeline w' ∈ livePipelines w'
       else new_calls w w' = flat_map begin_end (seq 0 (length (drawCmdBuffers w)))
            /\ existsb is_create (new_calls w w') = false
            /\ existsb is_destroy (new_calls w w') = false
            /\ pipeline w' = pipeline w
            /\ livePipelines w' = livePipelines w
            /\ drawCmdBuffers w'
               = map (frameCommands (settings w') (pipeline w') (width w') (height w'))
                   (seq 0 (length (drawCmdBuffers w))).
Proof.
  intros Hok. rewrite OnUpdateUIOverlay_change.
  set (w0 := set_settings (apply_change c (settings w)) w).
  assert (Hok0 : driver_ok w0) by exact Hok.
  destruct (affects_pipeline c).
  - rewrite preparePipelines_spec. cbv zeta.
    rewrite decide_True by apply Hok0.
    eexists. split; [reflexivity|]. split; [reflexivity|].
    erewrite !new_calls_app by reflexivity.
    unfold rebuild_calls, destroy_calls. cbn [pipeline settings set_settings w0].
    split; [|split; [|split; [reflexivity|]]].
    + now destruct (decide (pipeline w = VK_NULL_HANDLE)).
    + now destruct (decide (pipeline w = VK_NULL_HANDLE)).
    + cbn. apply elem_of_union_l. now apply elem_of_singleton.
  - rewrite buildCommandBuffers_ok by exact Hok0.
    eexists. split; [reflexivity|]. split; [reflexivity|].
    split; [apply new_calls_app; reflexivity|].
    erewrite !new_calls_app by reflexivity.
    cbn [drawCmdBuffers calls pipeline livePipelines settings width height
         set_calls set_drawCmdBuffers set_settings w0].
    repeat split.
    + induction (seq 0 (length (drawCmdBuffers w))) as [|i l IH]; [reflexivity|exact IH].
    + induction (seq 0 (length (drawCmdBuffers w))) as [|i l IH]; [reflexivity|exact IH].
Qed.

Lemma C3_witness :
  exists w' : World,
    OnUpdateUIOverlay (overlay_of (ChangeOffsetY 100)) (prepared_example fresh_driver)
    = Done tt w'
    /\ settings w' = set_offsety 100 defaultSettings
    /\ existsb is_create (new_calls (prepared_example fresh_driver) w') = false.
Proof.
  destruct (C3_rebuild_on_change (ChangeOffsetY 100) (prepared_example fresh_driver))
    as (w' & Hrun & Hset & Hrest); [intros k; reflexivity|].
  exists w'. split; [exact Hrun|]. split; [exact Hset|].
  cbn [affects_pipeline] in Hrest. now destruct Hrest as (_ & Hcreate & _).
Defined.

(** ** What a computation keeps *)

Lemma preserves_ret {A} (P : World -> Prop) (a : A) : preserves P (mret a : M A).
Proof. intros w H. exact H. Qed.

Lemma preserves_bind {A B} (P : World -> Prop) (m : M A) (k : A -> M B) :
  preserves P m -> (forall a, preserves P (k a)) -> preserves P (m ≫= k).
Proof.
  intros Hm Hk w H. unfold mbind, M_bind. specialize (Hm w H).
  destruct (m w) as [a w'|r w']; cbn in *; [apply Hk, Hm | exact Hm].
Qed.

Lemma preserves_gets {A} (P : World -> Prop) (f : World -> A) : preserves P (gets f).
Proof. intros w H. exact H. Qed.

Lemma preserves_modify (P : World -> Prop) (f : World -> World) :
  (forall w, P w -> P (f w)) -> preserves P (modify f).
Proof. intros Hf w H. apply Hf, H. Qed.

Lemma preserves_when (P : World -> Prop) (b : bool) (m : M unit) :
  preserves P m -> preserves P (when b m).
Proof. intros Hm. destruct b; [exact Hm | apply preserves_ret]. Qed.

Lemma preserves_for_each {A} (P : World -> Prop) (l : list A) (body : A -> M unit) :
  (forall a, preserves P (body a)) -> preserves P (for_each l body).
Proof.
  intros Hb. induction l as [|a l IH]; cbn [for_each].
  - apply preserves_ret.
  - apply preserves_bind; [apply Hb | intros _; exact IH].
Qed.

Lemma preserves_VK_CHECK_RESULT (P : World -> Prop) (m : M VkResult) :
  preserves P m -> preserves P (VK_CHECK_RESULT m).
Proof.
  intros Hm. unfold VK_CHECK_RESULT. apply preserves_bind; [exact Hm|].
  intros r. destruct (decide (r = VK_SUCCESS)); [apply preserves_ret|].
  intros w H. exact H.
Qed.

Lemma preserves_call (P : World -> Prop) (c : Call) :
  (forall w, P w -> P (set_calls (calls w ++ [c]) w)) -> preserves P (call c).
Proof. intros Hc w H. apply Hc, H. Qed.

Lemma preserves_widget {A} (P : World -> Prop) (x : option A)
    (set : A -> Settings -> Settings) (rebuild : M unit) :
  (forall w s, P w -> P (set_settings s w)) -> preserves P rebuild ->
  preserves P (widget x set rebuild).
Proof.
  intros Hs Hr. destruct x as [v|]; cbn [widget]; [|apply preserves_ret].
  apply preserves_bind; [|intros _; exact Hr].
  apply preserves_modify. intros w H. apply Hs, H.
Qed.

(** Recording keeps whatever neither a begin or end call nor a change of the
    buffers' contents can break. *)
Lemma buildCommandBuffers_preserves (P : World -> Prop) :
  (forall w c, is_recording c = true -> P w -> P (set_calls (calls w ++ [c]) w)) ->
  (forall w l, length l = length (drawCmdBuffers w) -> P w -> P (set_drawCmdBuffers l w)) ->
  preserves P buildCommandBuffers.
Proof.
  intros Hc Hb. unfold buildCommandBuffers.
  apply preserves_bind; [apply preserves_gets|]. intros n.
  apply preserves_for_each. intros i. unfold buildCommandBuffer.
  apply preserves_bind.
  { apply preserves_VK_CHECK_RESULT. unfold vkBeginCommandBuffer.
    apply preserves_bind; [apply preserves_call; intros; now apply Hc|].
    intros r. apply preserves_bind; [|intros; apply preserves_ret].
    destruct (decide _); [apply preserves_modify | apply preserves_ret].
    intros w Hw. apply Hb; [apply length_insert|exact Hw]. }
  intros _. apply preserves_bind; [apply preserves_gets|]. intros w0.
  apply preserves_bind.
  { apply preserves_for_each. intros c. unfold record. apply preserves_modify.
    intros w Hw. apply Hb; [apply length_insert|exact Hw]. }
  intros _. apply preserves_VK_CHECK_RESULT. unfold vkEndCommandBuffer.
  apply preserves_bind; [apply preserves_call; intros; now apply Hc|].
  intros r. apply preserves_ret.
Qed.

Lemma same_device_refl (w : World) : same_device w w.
Proof.
  repeat split. exists []. now rewrite app_nil_r.
Qed.

Lemma same_device_trans (w0 w1 w2 : World) :
  same_device w0 w1 -> same_device w1 w2 -> same_device w0 w2.
Proof.
  intros (Hp & Hr & Hw & Hh & Hl & Hd & Hn & cs & Hc & Hf)
         (Hp' & Hr' & Hw' & Hh' & Hl' & Hd' & Hn' & cs' & Hc' & Hf').
  unfold same_device. rewrite Hp', Hr', Hw', Hh', Hl', Hd', Hn'.
  do 7 (split; [assumption|]).
  exists (cs ++ cs'). split; [now rewrite Hc', Hc, app_assoc|].
  rewrite forallb_app, Hf, Hf'. reflexivity.
Qed.

Lemma buildCommandBuffers_recorded_from (w0 : World) :
  preserves (recorded_from w0) buildCommandBuffers.
Proof.
  apply buildCommandBuffers_preserves.
  - intros w c Hc (Hs & Hd). split; [exact Hs|].
    apply (same_device_trans _ w); [exact Hd|].
    repeat split. exists [c]. split; [reflexivity|]. cbn. now rewrite Hc.
  - intros w l Hl (Hs & Hd). split; [exact Hs|].
    destruct Hd as (Hp & Hr & Hw & Hh & Hv & Hd & Hn & Hc).
    repeat split; try assumption. cbn. now rewrite Hl.
Qed.

(** X1: whatever the driver answers, and whether it completes or aborts,
    [buildCommandBuffers] touches nothing but the contents of the command
    buffers: settings, pipeline handle, pipelines alive, extent and the number
    of command buffers are as before, and every call it makes begins or ends
    a command buffer; it neither creates nor destroys a pipeline. *)
Theorem X1_recording_only (w : World) :
  let w' := world_of (buildCommandBuffers w) in
  recorded_from w w'
  /\ existsb is_create (new_calls w w') = false
  /\ existsb is_destroy (new_calls w w') = false.
Proof.
  cbv zeta.
  pose proof (buildCommandBuffers_recorded_from w w
                (conj eq_refl (same_device_refl w))) as H.
  split; [exact H|].
  destruct H as (_ & _ & _ & _ & _ & _ & _ & _ & cs & Hc & Hf).
  rewrite (new_calls_app _ _ _ Hc).
  clear Hc. induction cs as [|c cs IH]; [now split|].
  cbn in Hf. apply andb_prop in Hf as [Hc Hf]. specialize (IH Hf).
  destruct c; cbn in *; try discriminate; exact IH.
Qed.

(** ** Aborted recordings *)

Lemma for_each_app {A} (l1 l2 : list A) (body : A -> M unit) (w : World) :
  for_each (l1 ++ l2) body w = (for_each l1 body;; for_each l2 body) w.
Proof.
  revert w. induction l1 as [|a l1 IH]; intros w; [reflexivity|].
  cbn [app for_each]. unfold mbind, M_bind in *.
  destruct (body a w) as [[] w'|r w']; [apply IH | reflexivity].
Qed.

Lemma length_begin_end (l : list nat) : length (flat_map begin_end l) = (2 * length l)%nat.
Proof. induction l as [|i l IH]; cbn; lia. Qed.

(** The first [m] passes of the loop from buffer [a] on, when the driver
    answers their calls with success. *)
Lemma for_each_buildCommandBuffer_prefix (m : nat) : forall (a : nat) (w : World),
  (a + m <= length (drawCmdBuffers w))%nat ->
  (forall k, (k < 2 * m)%nat ->
     result (replies w (length (calls w) + k)%nat) = VK_SUCCESS) ->
  for_each (seq a m) buildCommandBuffer w
  = Done tt
      (set_calls (calls w ++ flat_map begin_end (seq a m))
         (set_drawCmdBuffers
            (take a (drawCmdBuffers w)
             ++ map (frameCommands (settings w) (pipeline w) (width w) (height w))
                  (seq a m)
             ++ drop (a + m) (drawCmdBuffers w)) w)).
Proof.
  induction m as [|m IH]; intros a w Hlen Hok; cbn [seq for_each flat_map map].
  - rewrite Nat.add_0_r, !app_nil_r. cbn [app].
    rewrite take_drop, set_drawCmdBuffers_id. now destruct w.
  - erewrite bind_Done.
    2: { apply buildCommandBuffer_ok; [lia | |].
         - rewrite <- (Nat.add_0_r (length (calls w))). apply Hok. lia.
         - rewrite <- Nat.add_1_r. apply Hok. lia. }
    rewrite IH; cbn.
    + rewrite (take_S_r _ _ (frameCommands (settings w) (pipeline w) (width w) (height w) a))
        by (apply list_lookup_insert_eq; lia).
      rewrite take_insert_ge by lia.
      rewrite drop_insert_lt by lia.
      replace (S (a + m)) with (a + S m)%nat by lia.
      unfold set_calls, set_drawCmdBuffers; cbn.
      now rewrite <- !app_assoc.
    + rewrite length_insert. lia.
    + intros k Hk. rewrite length_app. cbn [length].
      replace (length (calls w) + 2 + k)%nat with (length (calls w) + (2 + k))%nat by lia.
      apply Hok. lia.
Qed.

(** A failing [vkEndCommandBuffer] ends the process with the frame recorded
    but the buffer not closed. *)
Lemma buildCommandBuffer_end_fails (i : nat) (w : World) :
  (i < length (drawCmdBuffers w))%nat ->
  result (replies w (length (calls w))) = VK_SUCCESS ->
  result (replies w (S (length (calls w)))) <> VK_SUCCESS ->
  buildCommandBuffer i w
  = Fatal (result (replies w (S (length (calls w)))))
      (set_calls (calls w ++ [CallBeginCommandBuffer i; CallEndCommandBuffer i])
         (set_drawCmdBuffers
            (<[i := frameCommands (settings w) (pipeline w) (width w) (height w) i]>
               (drawCmdBuffers w)) w)).
Proof.
  intros Hi H0 H1. unfold buildCommandBuffer.
  erewrite bind_Done by (apply VK_CHECK_RESULT_ok, vkBeginCommandBuffer_ok, H0).
  erewrite bind_Done by reflexivity.
  erewrite bind_Done.
  2: { apply (record_all _ _ _ []). cbn. apply list_lookup_insert_eq, Hi. }
  eapply eq_trans; [apply VK_CHECK_RESULT_fail; [apply vkEndCommandBuffer_spec|]|].
  - cbn. now rewrite length_app, Nat.add_1_r.
  - cbn. rewrite length_app, Nat.add_1_r, list_insert_insert_eq, <- app_assoc.
    reflexivity.
Qed.

(** The loop up to buffer [j], whose pass ends in [o]. *)
Lemma buildCommandBuffers_upto (w : World) (j : nat) (o : Outcome unit) :
  (j < length (drawCmdBuffers w))%nat ->
  (forall k, (k < 2 * j)%nat ->
     result (replies w (length (calls w) + k)%nat) = VK_SUCCESS) ->
  (forall w1, for_each (seq 0 j) buildCommandBuffer w = Done tt w1 ->
     exists r w2, buildCommandBuffer j w1 = Fatal r w2 /\ o = Fatal r w2) ->
  buildCommandBuffers w = o.
Proof.
  intros Hj Hok Hstep. unfold buildCommandBuffers.
  erewrite bind_Done by reflexivity.
  replace (length (drawCmdBuffers w))
    with (j + S (length (drawCmdBuffers w) - S j))%nat by lia.
  rewrite seq_app, for_each_app. cbn [seq for_each Nat.add].
  pose proof (for_each_buildCommandBuffer_prefix j 0 w ltac:(lia) Hok) as Hpre.
  erewrite bind_Done by exact Hpre.
  destruct (Hstep _ Hpre) as (r & w2 & Hf & ->).
  now apply bind_Fatal.
Qed.

(** X2: when the driver refuses to begin command buffer [j], having
    answered every earlier call of the loop with success, the process ends
    with that result: the buffers before [j] hold their new frames, buffer
    [j] and the ones after it are as they were, and nothing is called after
    the refused begin. *)
Theorem X2_begin_failure (w : World) (j : nat) :
  (j < length (drawCmdBuffers w))%nat ->
  (forall k, (k < 2 * j)%nat ->
     result (replies w (length (calls w) + k)%nat) = VK_SUCCESS) ->
  result (replies w (length (calls w) + 2 * j)%nat) <> VK_SUCCESS ->
  buildCommandBuffers w
  = Fatal (result (replies w (length (calls w) + 2 * j)%nat))
      (set_calls (calls w ++ flat_map begin_end (seq 0 j) ++ [CallBeginCommandBuffer j])
         (set_drawCmdBuffers
            (map (frameCommands (settings w) (pipeline w) (width w) (height w)) (seq 0 j)
             ++ drop j (drawCmdBuffers w)) w)).
Proof.
  intros Hj Hok Hfail. apply (buildCommandBuffers_upto w j); [exact Hj | exact Hok |].
  intros w1 Hpre.
  rewrite for_each_buildCommandBuffer_prefix in Hpre by (assumption || lia).
  injection Hpre as <-.
  do 2 eexists. split.
  - apply buildCommandBuffer_begin_fails. cbn.
    rewrite length_app, length_begin_end, length_seq. exact Hfail.
  - cbn. rewrite length_app, length_begin_end, length_seq.
    unfold set_calls, set_drawCmdBuffers. cbn. now rewrite <- app_assoc.
Qed.

Lemma X2_witness :
  buildCommandBuffers (VulkanExample 800 600 6 failing_driver)
  = Fatal (-1)
      (set_calls (flat_map begin_end (seq 0 5) ++ [CallBeginCommandBuffer 5%nat])
         (set_drawCmdBuffers
            (map (frameCommands defaultSettings VK_NULL_HANDLE 800 600) (seq 0 5) ++ [[]])
            (VulkanExample 800 600 6 failing_driver))).
Proof.
  apply (X2_begin_failure (VulkanExample 800 600 6 failing_driver) 5).
  - cbn. lia.
  - intros k Hk. cbn. now rewrite decide_True by lia.
  - cbn. discriminate.
Defined.

(** X3: when the driver refuses to end command buffer [j], having answered
    every earlier call of the loop with success, the process ends with that
    result: the buffers up to and including [j] hold their new frames, the
    ones after [j] are as they were. *)
Theorem X3_end_failure (w : World) (j : nat) :
  (j < length (drawCmdBuffers w))%nat ->
  (forall k, (k < 2 * j + 1)%nat ->
     result (replies w (length (calls w) + k)%nat) = VK_SUCCESS) ->
  result (replies w (length (calls w) + (2 * j + 1))%nat) <> VK_SUCCESS ->
  buildCommandBuffers w
  = Fatal (result (replies w (length (calls w) + (2 * j + 1))%nat))
      (set_calls (calls w ++ flat_map begin_end (seq 0 (S j)))
         (set_drawCmdBuffers
            (map (frameCommands (settings w) (pipeline w) (width w) (height w))
               (seq 0 (S j))
             ++ drop (S j) (drawCmdBuffers w)) w)).
Proof.
  intros Hj Hok Hfail.
  assert (Hok' : forall k, (k < 2 * j)%nat ->
            result (replies w (length (calls w) + k)%nat) = VK_SUCCESS).
  { intros k Hk. apply Hok. lia. }
  apply (buildCommandBuffers_upto w j); [exact Hj | exact Hok' |].
  intros w1 Hpre.
  rewrite for_each_buildCommandBuffer_prefix in Hpre by (assumption || lia).
  injection Hpre as <-.
  rewrite seq_S, flat_map_app, map_app. cbn [flat_map map Nat.add app].
  do 2 eexists. split.
  - apply buildCommandBuffer_end_fails; cbn.
    + rewrite !length_app, length_map, length_seq, length_drop. lia.
    + rewrite length_app, length_begin_end, length_seq. apply Hok. lia.
    + rewrite length_app, length_begin_end, length_seq.
      replace (S (length (calls w) + 2 * j)) with (length (calls w) + (2 * j + 1))%nat
        by lia.
      exact Hfail.
  - cbn. rewrite length_app, length_begin_end, length_seq.
    replace (S (length (calls w) + 2 * j)) with (length (calls w) + (2 * j + 1))%nat
      by lia.
    f_equal. unfold set_calls, set_drawCmdBuffers. cbn.
    rewrite <- !app_assoc. cbn [app].
    f_equal.
    rewrite insert_app_r_alt by (rewrite length_map, length_seq; lia).
    rewrite length_map, length_seq, Nat.sub_diag.
    destruct (drop j (drawCmdBuffers w)) as [|b bs] eqn:E.
    { apply (f_equal length) in E. rewrite length_drop in E. cbn in E. lia. }
    rewrite <- (Nat.add_1_r j), <- drop_drop, E. reflexivity.
Qed.

Lemma X3_witness :
  exists w' : World,
    buildCommandBuffers (prepared_example failing_driver) = Fatal (-1) w'
    /\ new_calls (prepared_example failing_driver) w' = flat_map begin_end [0; 1]%nat.
Proof.
  eexists. split.
  - etransitivity.
    + apply (X3_end_failure (prepared_example failing_driver) 1).
      * vm_compute. lia.
      * intros k Hk.
        assert (Hk' : k = 0%nat \/ k = 1%nat \/ k = 2%nat) by lia.
        destruct Hk' as [->|[->| ->]]; vm_compute; reflexivity.
      * vm_compute. discriminate.
    + vm_compute. reflexivity.
  - vm_compute. reflexivity.
Defined.

(** ** Recording, rebuilding and [prepare] *)

Lemma buildCommandBuffers_current (w : World) :
  driver_ok w ->
  exists w' : World,
    buildCommandBuffers w = Done tt w' /\ recorded_from w w' /\ frames_current w'
    /\ new_calls w w' = flat_map begin_end (seq 0 (length (drawCmdBuffers w))).
Proof.
  intros Hok. eexists. split; [apply buildCommandBuffers_ok, Hok|].
  split; [|split].
  - pose proof (buildCommandBuffers_recorded_from w w
                  (conj eq_refl (same_device_refl w))) as H.
    now rewrite buildCommandBuffers_ok in H by exact Hok.
  - unfold frames_current. cbn. now rewrite length_map, length_seq.
  - now apply new_calls_app.
Qed.

(** X4: recording is idempotent. On a driver answering with success,
    [buildCommandBuffers] leaves in every command buffer the frame of the
    current settings, handle and extent, whatever the buffers held before;
    running it again changes no buffer. *)
Theorem X4_rerecord_idempotent (w : World) :
  driver_ok w ->
  exists w1 w2 : World,
    buildCommandBuffers w = Done tt w1
    /\ frames_current w1
    /\ buildCommandBuffers w1 = Done tt w2
    /\ drawCmdBuffers w2 = drawCmdBuffers w1.
Proof.
  intros Hok.
  destruct (buildCommandBuffers_current w Hok) as (w1 & H1 & R1 & F1 & _).
  assert (Hok1 : driver_ok w1).
  { intros k. destruct R1 as (_ & _ & _ & _ & _ & _ & -> & _). apply Hok. }
  destruct (buildCommandBuffers_current w1 Hok1) as (w2 & H2 & R2 & F2 & _).
  exists w1, w2. do 3 (split; [assumption|]).
  unfold frames_current in F1, F2.
  destruct R2 as (Hs & Hp & _ & Hw & Hh & _ & _ & Hn & _).
  rewrite F2, Hs, Hp, Hw, Hh, Hn. symmetry. exact F1.
Qed.

Lemma X4_witness :
  exists w1 w2 : World,
    buildCommandBuffers (VulkanExample 800 600 2 fresh_driver) = Done tt w1
    /\ frames_current w1
    /\ buildCommandBuffers w1 = Done tt w2
    /\ drawCmdBuffers w2 = drawCmdBuffers w1.
Proof.
  apply (X4_rerecord_idempotent (VulkanExample 800 600 2 fresh_driver)).
  intros k. reflexivity.
Defined.

(** X5: the first build. With no pipeline held, [preparePipelines] destroys
    nothing: it loads the two shaders and creates. On success the new handle
    is held and alive next to whatever was alive; on failure the process ends
    with [VK_NULL_HANDLE] held and the pipelines alive as before. *)
Theorem X5_first_build (w : World) :
  pipeline w = VK_NULL_HANDLE ->
  let o := preparePipelines w in
  let r := replies w (length (calls w) + 2)%nat in
  new_calls w (world_of o)
  = [ CallLoadShader vertexShader; CallLoadShader fragmentShader;
      CallCreateGraphicsPipelines (createInfo_of (settings w)) ]
  /\ (result r = VK_SUCCESS ->
        o = Done tt (world_of o)
        /\ pipeline (world_of o) = created r
        /\ livePipelines (world_of o) = {[created r]} ∪ livePipelines w)
  /\ (result r <> VK_SUCCESS ->
        o = Fatal (result r) (world_of o)
        /\ pipeline (world_of o) = VK_NULL_HANDLE
        /\ livePipelines (world_of o) = livePipelines w).
Proof.
  intros Hnull. cbv zeta. rewrite preparePipelines_spec. cbv zeta.
  unfold creation_reply, rebuild_calls, released, destroy_calls.
  destruct (decide (pipeline w = VK_NULL_HANDLE)) as [_|]; [|contradiction].
  rewrite app_nil_r. cbn [app].
  destruct (decide (result (replies w (length (calls w) + 2)%nat) = VK_SUCCESS)) as [E|E].
  - split; [now apply new_calls_app|].
    split; [intros _; now repeat split | intros H; contradiction].
  - split; [now apply new_calls_app|].
    split; [intros H; contradiction | intros _; now repeat split].
Qed.

Lemma X5_witness :
  new_calls (VulkanExample 800 600 2 fresh_driver)
    (world_of (preparePipelines (VulkanExample 800 600 2 fresh_driver)))
  = [ CallLoadShader vertexShader; CallLoadShader fragmentShader;
      CallCreateGraphicsPipelines (createInfo_of defaultSettings) ]
  /\ pipeline (world_of (preparePipelines (VulkanExample 800 600 2 fresh_driver))) = 3.
Proof.
  destruct (X5_first_build (VulkanExample 800 600 2 fresh_driver) eq_refl)
    as (Hcalls & Hok & _).
  split; [exact Hcalls|].
  destruct (Hok eq_refl) as (_ & Hp & _). exact Hp.
Defined.

Lemma frames_current_bound (w : World) :
  frames_current w ->
  Forall (fun f => bound_pipelines f = [pipeline w]) (drawCmdBuffers w).
Proof.
  intros H. rewrite H. apply List.Forall_map, Forall_forall. intros i _. reflexivity.
Qed.

Lemma prepare_ok (w : World) :
  driver_ok w ->
  exists w' : World,
    prepare w = Done tt w'
    /\ prepared w' = true
    /\ pipeline w' = created (creation_reply w)
    /\ pipeline w' ∈ livePipelines w'
    /\ new_calls w w'
       = rebuild_calls (pipeline w) (settings w)
         ++ flat_map begin_end (seq 0 (length (drawCmdBuffers w)))
    /\ frames_current w'
    /\ replies w' = replies w.
Proof.
  intros Hok. unfold prepare.
  pose proof (preparePipelines_spec w) as H1. cbv zeta in H1.
  rewrite decide_True in H1 by apply Hok.
  erewrite bind_Done by exact H1.
  set (w1 := set_pipeline _ _) in *.
  assert (Hok1 : driver_ok w1) by exact Hok.
  erewrite bind_Done by (apply buildCommandBuffers_ok, Hok1).
  eexists. split; [reflexivity|]. cbn.
  split; [reflexivity|]. split; [reflexivity|].
  split; [apply elem_of_union_l; now apply elem_of_singleton|].
  split; [apply new_calls_app; cbn; now rewrite <- app_assoc|].
  split; [|reflexivity].
  unfold frames_current. cbn. now rewrite length_map, length_seq.
Qed.

Lemma filter_begin_end (l : list nat) :
  List.filter is_create_or_recording (flat_map begin_end l) = flat_map begin_end l.
Proof. induction l as [|i l IH]; cbn; [reflexivity | now rewrite IH]. Qed.

(** X8: [prepare] builds the pipeline before it records. Once the base
    class's [prepare] and [setupDescriptors] have returned, on a driver
    answering with success it completes with [prepared] set, holding the
    handle the driver returned, which is alive; of the calls it makes from
    there on, the one pipeline creation comes before every begin and end of a
    command buffer, which follow as one begin and one end per command buffer,
    in order; and every command buffer holds the current frame, binding
    exactly that handle. *)
Theorem X8_prepare (w : World) :
  driver_ok w ->
  exists w' : World,
    prepare w = Done tt w'
    /\ prepared w' = true
    /\ pipeline w' = created (creation_reply w)
    /\ pipeline w' ∈ livePipelines w'
    /\ List.filter is_create_or_recording (new_calls w w')
       = CallCreateGraphicsPipelines (createInfo_of (settings w))
         :: flat_map begin_end (seq 0 (length (drawCmdBuffers w)))
    /\ frames_current w'
    /\ Forall (fun f => bound_pipelines f = [pipeline w']) (drawCmdBuffers w').
Proof.
  intros Hok.
  destruct (prepare_ok w Hok) as (w' & Hrun & Hp & Hh & Hl & Hc & Hf & _).
  exists w'. do 4 (split; [assumption|]).
  split; [|split; [exact Hf | now apply frames_current_bound]].
  rewrite Hc, List.filter_app, filter_begin_end.
  unfold rebuild_calls, destroy_calls.
  now destruct (decide (pipeline w = VK_NULL_HANDLE)).
Qed.

Lemma X8_witness :
  exists w' : World,
    prepare (VulkanExample 800 600 2 fresh_driver) = Done tt w'
    /\ prepared w' = true /\ pipeline w' = 3
    /\ Forall (fun f => bound_pipelines f = [pipeline w']) (drawCmdBuffers w').
Proof.
  destruct (X8_prepare (VulkanExample 800 600 2 fresh_driver))
    as (w' & Hrun & Hp & Hh & _ & _ & _ & Hf); [intros k; reflexivity|].
  exists w'. split; [exact Hrun|]. split; [exact Hp|]. split; [exact Hh | exact Hf].
Defined.

(** X9: when the creation of the pipeline fails, [prepare] ends the process
    before anything is recorded: [prepared] keeps its value, no command buffer
    is begun or changed, and [VK_NULL_HANDLE] is held. *)
Theorem X9_prepare_creation_fails (w : World) :
  result (creation_reply w) <> VK_SUCCESS ->
  exists w' : World,
    prepare w = Fatal (result (creation_reply w)) w'
    /\ prepared w' = prepared w
    /\ drawCmdBuffers w' = drawCmdBuffers w
    /\ existsb is_recording (new_calls w w') = false
    /\ pipeline w' = VK_NULL_HANDLE.
Proof.
  intros Hfail. unfold prepare.
  pose proof (preparePipelines_spec w) as H1. cbv zeta in H1.
  rewrite decide_False in H1 by exact Hfail.
  erewrite bind_Fatal by exact H1.
  eexists. split; [reflexivity|]. cbn.
  split; [reflexivity|]. split; [reflexivity|]. split; [|reflexivity].
  erewrite new_calls_app by reflexivity.
  unfold rebuild_calls, destroy_calls.
  now destruct (decide (pipeline w = VK_NULL_HANDLE)).
Qed.

Lemma X9_witness :
  exists w' : World,
    prepare (VulkanExample 800 600 2 refusing_driver) = Fatal (-1) w'
    /\ prepared w' = false
    /\ drawCmdBuffers w' = [[]; []].
Proof.
  destruct (X9_prepare_creation_fails (VulkanExample 800 600 2 refusing_driver))
    as (w' & Hrun & Hp & Hb & _); [vm_compute; discriminate|].
  exists w'. split; [exact Hrun|]. split; [exact Hp | exact Hb].
Defined.

(** ** At most one pipeline *)

Lemma released_empty (w : World) (p : handle) :
  no_leak w -> p ∉ released (pipeline w) (livePipelines w).
Proof.
  intros Hnl Hp. unfold released in Hp.
  destruct (decide (pipeline w = VK_NULL_HANDLE)) as [E|E].
  - destruct (Hnl p Hp) as [Heq Hne]. congruence.
  - apply elem_of_difference in Hp as [Hin Hout].
    destruct (Hnl p Hin) as [Heq _]. apply Hout. now apply elem_of_singleton.
Qed.

Lemma preparePipelines_tidy : preserves tidy preparePipelines.
Proof.
  intros w [Hwb Hnl]. rewrite preparePipelines_spec. cbv zeta.
  destruct (decide (result (creation_reply w) = VK_SUCCESS)) as [E|E];
    (split; [exact Hwb|]); intros p Hp; cbn in *.
  - apply elem_of_union in Hp as [Hp|Hp].
    + apply elem_of_singleton in Hp as ->. split; [reflexivity|]. now apply Hwb.
    + now apply released_empty in Hp.
  - now apply released_empty in Hp.
Qed.

Lemma buildCommandBuffers_tidy : preserves tidy buildCommandBuffers.
Proof. apply buildCommandBuffers_preserves; intros; assumption. Qed.

Lemma OnUpdateUIOverlay_tidy (o : Overlay) : preserves tidy (OnUpdateUIOverlay o).
Proof.
  assert (Hs : forall w s, tidy w -> tidy (set_settings s w)) by (intros; assumption).
  unfold OnUpdateUIOverlay.
  repeat first
    [ apply buildCommandBuffers_tidy
    | apply preparePipelines_tidy
    | apply preserves_when
    | apply preserves_widget; [exact Hs|]
    | apply preserves_bind; [|intros _] ].
Qed.

Lemma prepare_tidy : preserves tidy prepare.
Proof.
  unfold prepare.
  apply preserves_bind; [apply preparePipelines_tidy | intros _].
  apply preserves_bind; [apply buildCommandBuffers_tidy | intros _].
  apply preserves_modify. intros w H. exact H.
Qed.

Lemma VulkanExample_tidy (width height : Z) (n : nat) (drv : nat -> Reply) :
  well_behaved drv -> tidy (VulkanExample width height n drv).
Proof. intros H. split; [exact H|]. intros p Hp. now apply elem_of_empty in Hp. Qed.

Lemma fresh_driver_well_behaved : well_behaved fresh_driver.
Proof. intros k _. unfold fresh_driver, VK_NULL_HANDLE. cbn. lia. Qed.

(** X6: no overlay pass leaks a pipeline. On a driver that never reports
    success with a null handle, if the only pipeline alive is the one held,
    then after any pass of the overlay, whichever widgets fired and whether
    the pass completed or ended the process, the only pipeline alive is again
    the one held. *)
Theorem X6_pass_keeps_one_pipeline (o : Overlay) (w : World) :
  well_behaved (replies w) -> no_leak w ->
  no_leak (world_of (OnUpdateUIOverlay o w)).
Proof. intros Hwb Hnl. now apply (OnUpdateUIOverlay_tidy o w (conj Hwb Hnl)). Qed.

Lemma X6_witness :
  no_leak (world_of (OnUpdateUIOverlay (overlay_of (ChangeCullMode 1))
                       (prepared_example fresh_driver))).
Proof.
  apply X6_pass_keeps_one_pipeline.
  - exact fresh_driver_well_behaved.
  - apply prepare_tidy, VulkanExample_tidy, fresh_driver_well_behaved.
Defined.

Lemma session_tidy (passes : list Overlay) : preserves tidy (session passes).
Proof.
  unfold session. apply preserves_bind; [apply prepare_tidy | intros _].
  apply preserves_for_each, OnUpdateUIOverlay_tidy.
Qed.

Lemma VulkanExample_destroy_spec (w : World) :
  VulkanExample_destroy w
  = Done tt (set_livePipelines (livePipelines w ∖ {[pipeline w]})
               (set_calls (calls w ++ [CallDestroyPipeline (pipeline w)]) w)).
Proof. reflexivity. Qed.

(** X7: no pipeline outlives the example. On a driver that never reports
    success with a null handle, whatever the overlay passes of a run, the only
    pipeline alive at its end is the one the example holds, and once the
    destructor has made its [vkDestroyPipeline] call no pipeline is alive. *)
Theorem X7_run_leaves_no_pipeline (width height : Z) (n : nat) (drv : nat -> Reply)
    (passes : list Overlay) :
  well_behaved drv ->
  let w := world_of (session passes (VulkanExample width height n drv)) in
  no_leak w
  /\ livePipelines (world_of (VulkanExample_destroy w)) = ∅
  /\ last (calls (world_of (VulkanExample_destroy w))) = Some (CallDestroyPipeline (pipeline w)).
Proof.
  intros Hwb. cbv zeta.
  destruct (session_tidy passes _ (VulkanExample_tidy width height n drv Hwb))
    as [_ Hnl].
  split; [exact Hnl|]. rewrite VulkanExample_destroy_spec. cbn.
  split; [|apply last_snoc].
  apply set_eq. intros p. split; [|intros Hp; now apply elem_of_empty in Hp].
  intros [Hin Hout]%elem_of_difference. destruct (Hnl p Hin) as [Heq _].
  exfalso. apply Hout. now apply elem_of_singleton.
Qed.

Lemma X7_witness :
  let w := world_of (session [overlay_of (ChangeWindingOrder 0); overlay_of (ChangeOffsetX 5)]
                       (VulkanExample 800 600 2 fresh_driver)) in
  no_leak w
  /\ livePipelines (world_of (VulkanExample_destroy w)) = ∅
  /\ last (calls (world_of (VulkanExample_destroy w))) = Some (CallDestroyPipeline (pipeline w)).
Proof.
  apply (X7_run_leaves_no_pipeline 800 600 2 fresh_driver).
  exact fresh_driver_well_behaved.
Defined.

(** ** Which widgets fire decides what a pass touches *)

Lemma rerecords_as_ret : rerecords_as (fun s => s) false (mret tt).
Proof. intros w _. exists w. repeat split. apply same_device_refl. Qed.

Lemma rerecords_as_ext (f g : Settings -> Settings) (a b : bool) (m : M unit) :
  (forall s, f s = g s) -> a = b -> rerecords_as f a m -> rerecords_as g b m.
Proof.
  intros Hfg <- H w Hok. destruct (H w Hok) as (w' & Hrun & Hs & Hrest).
  exists w'. split; [exact Hrun|]. split; [now rewrite <- Hfg | exact Hrest].
Qed.

Lemma rerecords_as_bind (f1 f2 : Settings -> Settings) (b1 b2 : bool) (m1 m2 : M unit) :
  rerecords_as f1 b1 m1 -> rerecords_as f2 b2 m2 ->
  rerecords_as (fun s => f2 (f1 s)) (b1 || b2) (m1;; m2).
Proof.
  intros H1 H2 w Hok.
  destruct (H1 w Hok) as (w1 & Hrun1 & Hs1 & Hd1 & Hc1).
  assert (Hok1 : driver_ok w1).
  { intros k. destruct Hd1 as (_ & _ & _ & _ & _ & -> & _). apply Hok. }
  destruct (H2 w1 Hok1) as (w2 & Hrun2 & Hs2 & Hd2 & Hc2).
  exists w2. split; [now rewrite (bind_Done _ _ _ _ _ Hrun1)|].
  split; [now rewrite Hs2, Hs1|].
  split; [exact (same_device_trans _ _ _ Hd1 Hd2)|].
  destruct b2; [now rewrite orb_true_r|].
  rewrite orb_false_r. subst w2. exact Hc1.
Qed.

Lemma rerecords_as_when (f : Settings -> Settings) (b again : bool) (m : M unit) :
  rerecords_as f again m ->
  rerecords_as (fun s => if b then f s else s) (b && again) (when b m).
Proof. intros H. destruct b; [exact H | exact rerecords_as_ret]. Qed.

Lemma rerecords_as_widget {A} (x : option A) (set : A -> Settings -> Settings) :
  rerecords_as (opt_set x set) (fired x) (widget x set buildCommandBuffers).
Proof.
  destruct x as [v|]; [|exact rerecords_as_ret].
  intros w Hok. cbn [widget opt_set fired].
  set (w0 := set_settings (set v (settings w)) w).
  destruct (buildCommandBuffers_current w0 Hok) as (w' & Hrun & [Hs Hd] & Hc & _).
  exists w'. split; [|split; [exact Hs | split; [exact Hd | exact Hc]]].
  erewrite bind_Done by reflexivity. exact Hrun.
Qed.

(** A pass in which no widget of the pipeline group fires re-records, or
    does nothing. *)
Lemma viewport_pass_rerecords (o : Overlay) :
  fires_pipeline o = false ->
  rerecords_as (viewport_settings o) (fires_viewport o) (OnUpdateUIOverlay o).
Proof.
  intros Hp. unfold OnUpdateUIOverlay.
  assert (H3 : rerecords_as (fun s => s) false
                 (when (header_pipeline o)
                    (widget (combo_windingorder o) set_windingOrder preparePipelines;;
                     widget (combo_cullmode o) set_cullMode preparePipelines))).
  { unfold fires_pipeline in Hp.
    destruct (header_pipeline o); [|exact rerecords_as_ret].
    destruct (combo_windingorder o), (combo_cullmode o); try discriminate Hp.
    cbn [when widget].
    exact (rerecords_as_bind _ _ _ _ _ _ rerecords_as_ret rerecords_as_ret). }
  eapply rerecords_as_ext;
    [| | eapply rerecords_as_bind;
         [apply rerecords_as_when, rerecords_as_widget
         |eapply rerecords_as_bind;
            [apply rerecords_as_when;
             eapply rerecords_as_bind;
               [apply rerecords_as_widget
               |eapply rerecords_as_bind; apply rerecords_as_widget]
            |exact H3]]].
  - intros s. unfold viewport_settings.
    now destruct (header_scene o), (header_viewport o).
  - unfold fires_viewport.
    destruct (header_scene o), (header_viewport o), (fired (combo_quadtype o)),
      (fired (check_negative o)), (fired (slider_offsetx o)), (fired (slider_offsety o));
      reflexivity.
Qed.

(** X10: a pass in which no widget of the pipeline group fires. On a driver
    answering with success the pass completes; the settings are the old ones
    with the values of the scene and viewport widgets that fired written in
    source order; handle, pipelines alive and the number of command buffers
    are unchanged and only begin and end calls are made. If one of those
    widgets fired, every command buffer holds the frame of the new settings;
    if none did, nothing has changed at all. *)
Theorem X10_viewport_pass (o : Overlay) (w : World) :
  fires_pipeline o = false -> driver_ok w ->
  exists w' : World,
    OnUpdateUIOverlay o w = Done tt w'
    /\ settings w' = viewport_settings o (settings w)
    /\ same_device w w'
    /\ if fires_viewport o then frames_current w' else w' = w.
Proof. intros Hp. exact (viewport_pass_rerecords o Hp w). Qed.

Lemma X10_witness :
  exists w' : World,
    OnUpdateUIOverlay
      {| header_scene := true; combo_quadtype := Some 1;
         header_viewport := true; check_negative := Some false;
         slider_offsetx := None; slider_offsety := Some 40;
         header_pipeline := false; combo_windingorder := Some 0; combo_cullmode := None |}
      (prepared_example fresh_driver) = Done tt w'
    /\ settings w'
       = set_offsety 40 (set_negativeViewport false (set_quadType 1 defaultSettings))
    /\ frames_current w'.
Proof.
  destruct (X10_viewport_pass
              {| header_scene := true; combo_quadtype := Some 1;
                 header_viewport := true; check_negative := Some false;
                 slider_offsetx := None; slider_offsety := Some 40;
                 header_pipeline := false; combo_windingorder := Some 0;
                 combo_cullmode := None |}
              (prepared_example fresh_driver))
    as (w' & Hrun & Hs & _ & Hc); [reflexivity | intros k; reflexivity |].
  exists w'. split; [exact Hrun|]. split; [exact Hs | exact Hc].
Defined.

Lemma rebuilt_from_refl (w : World) : rebuilt_from w w.
Proof. repeat split. exists []. now rewrite app_nil_r. Qed.

Lemma preparePipelines_rebuilt_from (w0 : World) :
  preserves (rebuilt_from w0) preparePipelines.
Proof.
  intros w (Hp & Hw & Hh & Hb & Hd & cs & Hc & Hf).
  rewrite preparePipelines_spec. cbv zeta.
  assert (Hn : existsb is_recording (cs ++ rebuild_calls (pipeline w) (settings w)) = false).
  { rewrite existsb_app, Hf. unfold rebuild_calls, destroy_calls.
    now destruct (decide (pipeline w = VK_NULL_HANDLE)). }
  destruct (decide (result (creation_reply w) = VK_SUCCESS));
    (do 5 (split; [assumption|]));
    exists (cs ++ rebuild_calls (pipeline w) (settings w));
    (split; [cbn; now rewrite Hc, app_assoc | exact Hn]).
Qed.

(** X12: a pass in which no widget of the scene or viewport group fires
    never records. Whatever the driver answers, and whether the pass completes
    or ends the process, the command buffers hold what they held and no
    command buffer is begun or ended: the rebuilds of the pipeline group do
    not re-record. *)
Theorem X12_pipeline_pass_keeps_frames (o : Overlay) (w : World) :
  fires_viewport o = false ->
  let w' := world_of (OnUpdateUIOverlay o w) in
  drawCmdBuffers w' = drawCmdBuffers w
  /\ existsb is_recording (new_calls w w') = false
  /\ rerecords (new_calls w w') = false.
Proof.
  intros Hv. cbv zeta.
  assert (H : rebuilt_from w (world_of (OnUpdateUIOverlay o w))).
  { assert (Hs : forall w1 s, rebuilt_from w w1 -> rebuilt_from w (set_settings s w1))
      by (intros; assumption).
    assert (H3 : preserves (rebuilt_from w)
                   (when (header_pipeline o)
                      (widget (combo_windingorder o) set_windingOrder preparePipelines;;
                       widget (combo_cullmode o) set_cullMode preparePipelines))).
    { apply preserves_when. apply preserves_bind; [|intros _];
        (apply preserves_widget; [exact Hs | apply preparePipelines_rebuilt_from]). }
    enough (Hpres : preserves (rebuilt_from w) (OnUpdateUIOverlay o))
      by exact (Hpres w (rebuilt_from_refl w)).
    unfold OnUpdateUIOverlay, fires_viewport in *.
    destruct (header_scene o), (header_viewport o), (combo_quadtype o),
      (check_negative o), (slider_offsetx o), (slider_offsety o);
      try discriminate Hv; cbn [when widget];
      repeat (apply preserves_bind; [try apply preserves_ret | intros _]);
      exact H3. }
  destruct H as (_ & _ & _ & Hb & _ & cs & Hc & Hf).
  split; [exact Hb|]. rewrite (new_calls_app _ _ _ Hc). split; [exact Hf|].
  clear Hc. unfold rerecords. induction cs as [|c cs IH]; [reflexivity|].
  cbn in Hf. apply orb_false_elim in Hf as [Hc Hf]. cbn.
  unfold is_recording in Hc. apply orb_false_elim in Hc as [-> _]. now apply IH.
Qed.

Lemma X12_witness :
  let w := prepared_example fresh_driver in
  let w' := world_of (OnUpdateUIOverlay (overlay_of (ChangeCullMode 0)) w) in
  drawCmdBuffers w' = drawCmdBuffers w
  /\ existsb is_recording (new_calls w w') = false
  /\ rerecords (new_calls w w') = false.
Proof.
  apply (X12_pipeline_pass_keeps_frames (overlay_of (ChangeCullMode 0))
           (prepared_example fresh_driver)).
  reflexivity.
Defined.

(** X13: a rebuild leaves the recorded frames behind. After a change of
    the winding order or of the cull mode on a driver that answers with
    success and returns a handle other than the one held, the example holds
    the new handle while every command buffer still binds the old one, which
    is no longer alive; with at least one command buffer the frames are no
    longer the current ones. *)
Theorem X13_stale_frames (c : Change) (w : World) :
  affects_pipeline c = true -> driver_ok w -> frames_current w ->
  pipeline w <> VK_NULL_HANDLE -> created (creation_reply w) <> pipeline w ->
  exists w' : World,
    OnUpdateUIOverlay (overlay_of c) w = Done tt w'
    /\ pipeline w' <> pipeline w
    /\ (pipeline w ∉ livePipelines w')
    /\ Forall (fun f => bound_pipelines f = [pipeline w]) (drawCmdBuffers w')
    /\ (drawCmdBuffers w <> [] -> ~ frames_current w').
Proof.
  intros Hc Hok Hcur Hold Hnew. rewrite OnUpdateUIOverlay_change, Hc.
  rewrite preparePipelines_spec. cbv zeta.
  rewrite decide_True by apply Hok.
  eexists. split; [reflexivity|]. cbn.
  change (creation_reply (set_settings (apply_change c (settings w)) w))
    with (creation_reply w).
  assert (Hb : Forall (fun f => bound_pipelines f = [pipeline w]) (drawCmdBuffers w)).
  { rewrite Hcur. apply List.Forall_map, Forall_forall. intros i _. reflexivity. }
  split; [exact Hnew|]. split; [|split; [exact Hb|]].
  - intros [Hin|Hin]%elem_of_union.
    + apply elem_of_singleton in Hin. apply Hnew. symmetry. exact Hin.
    + unfold released in Hin. rewrite decide_False in Hin by exact Hold.
      apply elem_of_difference in Hin as [_ Hout]. apply Hout. now apply elem_of_singleton.
  - intros Hne Hcur'. unfold frames_current in Hcur'. cbn in Hcur'.
    destruct (drawCmdBuffers w) as [|f fs]; [contradiction|].
    apply Forall_inv in Hb. cbn in Hcur'. injection Hcur' as Hf _.
    rewrite Hf in Hb. cbn in Hb. injection Hb as Hb. exact (Hnew Hb).
Qed.

Lemma X13_witness :
  exists w' : World,
    OnUpdateUIOverlay (overlay_of (ChangeWindingOrder 0)) (prepared_example fresh_driver)
    = Done tt w'
    /\ pipeline w' <> 3
    /\ Forall (fun f => bound_pipelines f = [3]) (drawCmdBuffers w').
Proof.
  destruct (X13_stale_frames (ChangeWindingOrder 0) (prepared_example fresh_driver))
    as (w' & Hrun & Hp & _ & Hf & _).
  - reflexivity.
  - intros k. reflexivity.
  - vm_compute. reflexivity.
  - vm_compute. discriminate.
  - vm_compute. discriminate.
  - exists w'. split; [exact Hrun|]. split; [exact Hp | exact Hf].
Defined.



(** ** Runs on a driver that answers with success *)

Lemma completes_keeping_ret (I : World -> Prop) : completes_keeping I (mret tt).
Proof. intros w _ H. now exists w. Qed.

Lemma completes_keeping_bind (I : World -> Prop) (m1 m2 : M unit) :
  completes_keeping I m1 -> completes_keeping I m2 -> completes_keeping I (m1;; m2).
Proof.
  intros H1 H2 w Hok HI.
  destruct (H1 w Hok HI) as (w1 & Hrun1 & Hr1 & HI1).
  assert (Hok1 : driver_ok w1) by (intros k; rewrite Hr1; apply Hok).
  destruct (H2 w1 Hok1 HI1) as (w2 & Hrun2 & Hr2 & HI2).
  exists w2. split; [now rewrite (bind_Done _ _ _ _ _ Hrun1)|].
  split; [congruence | exact HI2].
Qed.

Lemma completes_keeping_when (I : World -> Prop) (b : bool) (m : M unit) :
  completes_keeping I m -> completes_keeping I (when b m).
Proof. intros H. destruct b; [exact H | apply completes_keeping_ret]. Qed.

Lemma completes_keeping_widget {A} (I : World -> Prop) (x : option A)
    (set : A -> Settings -> Settings) (rebuild : M unit) :
  (forall w s, I w -> I (set_settings s w)) -> completes_keeping I rebuild ->
  completes_keeping I (widget x set rebuild).
Proof.
  intros Hs Hr. destruct x as [v|]; [|apply completes_keeping_ret].
  intros w Hok HI. cbn [widget].
  destruct (Hr (set_settings (set v (settings w)) w) Hok (Hs _ _ HI))
    as (w' & Hrun & Hrep & HI').
  exists w'. split; [|split; assumption].
  erewrite bind_Done by reflexivity. exact Hrun.
Qed.

Lemma completes_keeping_for_each {A} (I : World -> Prop) (l : list A) (body : A -> M unit) :
  (forall a, completes_keeping I (body a)) -> completes_keeping I (for_each l body).
Proof.
  intros Hb. induction l as [|a l IH]; cbn [for_each].
  - apply completes_keeping_ret.
  - apply completes_keeping_bind; [apply Hb | exact IH].
Qed.

Lemma buildCommandBuffers_ready : completes_keeping ready buildCommandBuffers.
Proof.
  intros w Hok [Hp Hl].
  destruct (buildCommandBuffers_current w Hok) as (w' & Hrun & R & _).
  destruct R as (_ & Hpipe & Hprep & _ & _ & Hlive & Hrep & _).
  exists w'. split; [exact Hrun|]. split; [exact Hrep|].
  split; [congruence | now rewrite Hpipe, Hlive].
Qed.

Lemma preparePipelines_ready : completes_keeping ready preparePipelines.
Proof.
  intros w Hok [Hp Hl]. rewrite preparePipelines_spec. cbv zeta.
  rewrite decide_True by apply Hok.
  eexists. split; [reflexivity|]. split; [reflexivity|].
  split; [exact Hp|]. cbn. apply elem_of_union_l. now apply elem_of_singleton.
Qed.

Lemma OnUpdateUIOverlay_ready (o : Overlay) : completes_keeping ready (OnUpdateUIOverlay o).
Proof.
  assert (Hs : forall w s, ready w -> ready (set_settings s w)) by (intros; assumption).
  unfold OnUpdateUIOverlay.
  repeat first
    [ apply buildCommandBuffers_ready
    | apply preparePipelines_ready
    | apply completes_keeping_when
    | apply completes_keeping_widget; [exact Hs|]
    | apply completes_keeping_bind ].
Qed.

(** X22: a run on a driver that answers every call with success, and never
    with a null handle, runs to its end whatever the overlay passes are; the
    example is then prepared and exactly one pipeline is alive, the one it
    holds. *)
Theorem X22_run_completes (width height : Z) (n : nat) (drv : nat -> Reply)
    (passes : list Overlay) :
  (forall k, result (drv k) = VK_SUCCESS) -> well_behaved drv ->
  exists w' : World,
    session passes (VulkanExample width height n drv) = Done tt w'
    /\ prepared w' = true
    /\ pipeline w' <> VK_NULL_HANDLE
    /\ livePipelines w' = {[pipeline w']}.
Proof.
  intros Hok Hwb. set (w0 := VulkanExample width height n drv).
  assert (Hok0 : driver_ok w0) by exact Hok.
  destruct (prepare_ok w0 Hok0) as (w1 & Hrun1 & Hp1 & _ & Hl1 & _ & _ & Hr1).
  assert (Hok1 : driver_ok w1) by (intros k; rewrite Hr1; apply Hok).
  destruct (completes_keeping_for_each ready passes OnUpdateUIOverlay
              OnUpdateUIOverlay_ready w1 Hok1 (conj Hp1 Hl1))
    as (w' & Hrun & _ & Hp & Hl).
  assert (Hs : session passes w0 = Done tt w').
  { unfold session. now rewrite (bind_Done _ _ _ _ _ Hrun1). }
  exists w'. split; [exact Hs|]. split; [exact Hp|].
  pose proof (session_tidy passes w0 (VulkanExample_tidy width height n drv Hwb)) as Ht.
  rewrite Hs in Ht. destruct Ht as [_ Hnl]. cbn in Hnl.
  split; [now destruct (Hnl _ Hl)|].
  apply set_eq. intros p. rewrite elem_of_singleton. split.
  - intros Hin. now destruct (Hnl p Hin).
  - now intros ->.
Qed.

Lemma X22_witness :
  exists w' : World,
    session [overlay_of (ChangeCullMode 1); overlay_of (ChangeOffsetY 20)]
      (VulkanExample 800 600 2 fresh_driver) = Done tt w'
    /\ prepared w' = true
    /\ pipeline w' <> VK_NULL_HANDLE
    /\ livePipelines w' = {[pipeline w']}.
Proof.
  apply (X22_run_completes 800 600 2 fresh_driver).
  - intros k. reflexivity.
  - exact fresh_driver_well_behaved.
Defined.

(** X21: the next re-record repairs the frames. After a change of the
    winding order or of the cull mode, any later pass in which a widget of the
    scene or viewport group fires, and none of the pipeline group, leaves
    every command buffer with the current frame, binding the handle the
    example holds, which is alive. *)
Theorem X21_rerecord_repairs (c : Change) (o : Overlay) (w : World) :
  affects_pipeline c = true -> fires_pipeline o = false -> fires_viewport o = true ->
  driver_ok w ->
  exists w1 w2 : World,
    OnUpdateUIOverlay (overlay_of c) w = Done tt w1
    /\ OnUpdateUIOverlay o w1 = Done tt w2
    /\ pipeline w2 = pipeline w1
    /\ pipeline w2 ∈ livePipelines w2
    /\ frames_current w2
    /\ Forall (fun f => bound_pipelines f = [pipeline w2]) (drawCmdBuffers w2).
Proof.
  intros Hc Hp Hv Hok. rewrite OnUpdateUIOverlay_change, Hc.
  rewrite preparePipelines_spec. cbv zeta. rewrite decide_True by apply Hok.
  set (w1 := set_pipeline _ _).
  assert (Hok1 : driver_ok w1) by exact Hok.
  destruct (viewport_pass_rerecords o Hp w1 Hok1) as (w2 & Hrun & _ & Hd & Hcur).
  rewrite Hv in Hcur.
  destruct Hd as (Hpipe & _ & _ & _ & Hlive & _).
  exists w1, w2. split; [reflexivity|]. split; [exact Hrun|]. split; [exact Hpipe|].
  split; [|split; [exact Hcur | now apply frames_current_bound]].
  rewrite Hpipe, Hlive. cbn. apply elem_of_union_l. now apply elem_of_singleton.
Qed.

Lemma X21_witness :
  exists w1 w2 : World,
    OnUpdateUIOverlay (overlay_of (ChangeWindingOrder 0)) (prepared_example fresh_driver)
    = Done tt w1
    /\ OnUpdateUIOverlay (overlay_of (ChangeOffsetX 10)) w1 = Done tt w2
    /\ pipeline w2 = pipeline w1
    /\ frames_current w2.
Proof.
  destruct (X21_rerecord_repairs (ChangeWindingOrder 0) (overlay_of (ChangeOffsetX 10))
              (prepared_example fresh_driver))
    as (w1 & w2 & H1 & H2 & H3 & _ & H4 & _); try reflexivity.
  { intros k. reflexivity. }
  exists w1, w2. repeat split; assumption.
Defined.

(** ** What a pass writes *)

Lemma writes_ret : writes (fun s => s) (mret tt).
Proof. intros w _. now exists w. Qed.

Lemma writes_ext (f g : Settings -> Settings) (m : M unit) :
  (forall s, f s = g s) -> writes f m -> writes g m.
Proof.
  intros Hfg H w Hok. destruct (H w Hok) as (w' & Hrun & Hs & Hr).
  exists w'. split; [exact Hrun|]. split; [now rewrite <- Hfg | exact Hr].
Qed.

Lemma writes_bind (f1 f2 : Settings -> Settings) (m1 m2 : M unit) :
  writes f1 m1 -> writes f2 m2 -> writes (fun s => f2 (f1 s)) (m1;; m2).
Proof.
  intros H1 H2 w Hok.
  destruct (H1 w Hok) as (w1 & Hrun1 & Hs1 & Hr1).
  assert (Hok1 : driver_ok w1) by (intros k; rewrite Hr1; apply Hok).
  destruct (H2 w1 Hok1) as (w2 & Hrun2 & Hs2 & Hr2).
  exists w2. split; [now rewrite (bind_Done _ _ _ _ _ Hrun1)|].
  split; [now rewrite Hs2, Hs1 | congruence].
Qed.

Lemma writes_when (f : Settings -> Settings) (b : bool) (m : M unit) :
  writes f m -> writes (fun s => if b then f s else s) (when b m).
Proof. intros H. destruct b; [exact H | exact writes_ret]. Qed.

Lemma writes_widget {A} (x : option A) (set : A -> Settings -> Settings)
    (rebuild : M unit) :
  writes (fun s => s) rebuild -> writes (opt_set x set) (widget x set rebuild).
Proof.
  intros Hr. destruct x as [v|]; [|exact writes_ret].
  intros w Hok. cbn [widget opt_set].
  destruct (Hr (set_settings (set v (settings w)) w) Hok) as (w' & Hrun & Hs & Hrep).
  exists w'. split; [|split; assumption].
  erewrite bind_Done by reflexivity. exact Hrun.
Qed.

Lemma buildCommandBuffers_writes : writes (fun s => s) buildCommandBuffers.
Proof.
  intros w Hok.
  destruct (buildCommandBuffers_current w Hok) as (w' & Hrun & R & _).
  destruct R as (Hs & _ & _ & _ & _ & _ & Hrep & _).
  now exists w'.
Qed.

Lemma preparePipelines_writes : writes (fun s => s) preparePipelines.
Proof.
  intros w Hok. rewrite preparePipelines_spec. cbv zeta.
  rewrite decide_True by apply Hok. eexists. now split.
Qed.

(** X23: what a pass writes. On a driver answering with success every
    pass of the overlay completes, and the settings it leaves are the old
    ones with the value of each widget that fired under an open header
    written, in source order; a widget under a closed header writes nothing,
    and a setting whose widget did not fire keeps its value. *)
Theorem X23_pass_settings (o : Overlay) (w : World) :
  driver_ok w ->
  exists w' : World,
    OnUpdateUIOverlay o w = Done tt w'
    /\ settings w' = pass_settings o (settings w).
Proof.
  intros Hok.
  assert (H : writes (pass_settings o) (OnUpdateUIOverlay o)).
  { unfold OnUpdateUIOverlay.
    eapply writes_ext;
      [| eapply writes_bind;
           [apply writes_when, writes_widget, buildCommandBuffers_writes
           |eapply writes_bind;
              [apply writes_when;
               eapply writes_bind;
                 [apply writes_widget, buildCommandBuffers_writes
                 |eapply writes_bind; apply writes_widget, buildCommandBuffers_writes]
              |apply writes_when;
               eapply writes_bind; apply writes_widget, preparePipelines_writes]]].
    intros s. unfold pass_settings, pipeline_settings, viewport_settings.
    now destruct (header_scene o), (header_viewport o), (header_pipeline o). }
  destruct (H w Hok) as (w' & Hrun & Hs & _). now exists w'.
Qed.

Lemma X23_witness :
  exists w' : World,
    OnUpdateUIOverlay
      {| header_scene := false; combo_quadtype := Some 1;
         header_viewport := true; check_negative := None;
         slider_offsetx := Some (-30); slider_offsety := None;
         header_pipeline := true; combo_windingorder := None; combo_cullmode := Some 1 |}
      (prepared_example fresh_driver) = Done tt w'
    /\ settings w' = set_cullMode 1 (set_offsetx (-30) defaultSettings).
Proof.
  apply (X23_pass_settings
           {| header_scene := false; combo_quadtype := Some 1;
              header_viewport := true; check_negative := None;
              slider_offsetx := Some (-30); slider_offsety := None;
              header_pipeline := true; combo_windingorder := None;
              combo_cullmode := Some 1 |} (prepared_example fresh_driver)).
  intros k. reflexivity.
Defined.

(** ** Which settings a pipeline depends on *)

(** X24: two settings configure the same pipeline exactly when their cull
    modes are equal and their winding orders are both zero or both non-zero;
    quad type, flip flag and offsets never enter the pipeline. Conversely the
    recorded frame does not depend on the winding order or the cull mode. *)
Theorem X24_pipeline_dependencies (s s' : Settings) (p : handle) (w h : Z) (i : nat) :
  int32 (cullMode s) -> int32 (cullMode s') ->
  (createInfo_of s = createInfo_of s'
   <-> cullMode s = cullMode s' /\ (windingOrder s = 0 <-> windingOrder s' = 0))
  /\ frameCommands (set_cullMode (cullMode s') (set_windingOrder (windingOrder s') s))
       p w h i
     = frameCommands s p w h i.
Proof.
  unfold int32. intros Hc Hc'. split; [|reflexivity].
  unfold createInfo_of, rasterization_of, u32, VK_CULL_MODE_NONE.
  rewrite !Z.add_0_l. split.
  - intros E. injection E as Ecull Eface. split.
    + assert (H32 : 2 ^ 32 = 2 * 2 ^ 31) by reflexivity.
      pose proof (Z.mod_pos_bound (cullMode s) (2 ^ 32) ltac:(lia)) as B1.
      pose proof (Z.mod_pos_bound (cullMode s') (2 ^ 32) ltac:(lia)) as B2.
      pose proof (Z.div_mod (cullMode s) (2 ^ 32) ltac:(lia)) as D1.
      pose proof (Z.div_mod (cullMode s') (2 ^ 32) ltac:(lia)) as D2.
      rewrite Ecull in D1. nia.
    + destruct (decide (windingOrder s = 0)), (decide (windingOrder s' = 0));
        try discriminate; tauto.
  - intros [-> Hw].
    destruct (decide (windingOrder s = 0)), (decide (windingOrder s' = 0));
      try reflexivity; tauto.
Qed.

Lemma X24_witness :
  (createInfo_of (set_offsety 40 (set_windingOrder 7 defaultSettings))
   = createInfo_of defaultSettings
   <-> cullMode (set_offsety 40 (set_windingOrder 7 defaultSettings))
       = cullMode defaultSettings
       /\ (windingOrder (set_offsety 40 (set_windingOrder 7 defaultSettings)) = 0
           <-> windingOrder defaultSettings = 0))
  /\ frameCommands
       (set_cullMode (cullMode defaultSettings)
          (set_windingOrder (windingOrder defaultSettings)
             (set_offsety 40 (set_windingOrder 7 defaultSettings)))) 3 800 600 0
     = frameCommands (set_offsety 40 (set_windingOrder 7 defaultSettings)) 3 800 600 0.
Proof.
  apply (X24_pipeline_dependencies (set_offsety 40 (set_windingOrder 7 defaultSettings))
           defaultSettings 3 800 600 0);
    unfold int32; cbn; unfold VK_CULL_MODE_BACK_BIT; lia.
Defined.

(** ** Orientation under reversal and mirroring *)

Lemma Qcompare_opp_0 (x y : Q) : (y == - x)%Q -> (y ?= 0)%Q = CompOpp (x ?= 0)%Q.
Proof.
  intros E.
  destruct (Qcompare_spec x 0) as [H|H|H]; cbn [CompOpp].
  - apply Qeq_alt. lra.
  - apply Qgt_alt. lra.
  - change (y < 0)%Q. lra.
Qed.

Lemma orientation_opp (p q r p' q' r' : point) :
  (signed_area2 p' q' r' == - signed_area2 p q r)%Q ->
  orientation p' q' r' = opposite (orientation p q r).
Proof.
  intros E. unfold orientation. rewrite (Qcompare_opp_0 _ _ E).
  now destruct (signed_area2 p q r ?= 0)%Q.
Qed.

(** Reading a triangle backwards turns it over. *)
Lemma triangle_winding_rev (pts : list point) (a b c : nat) :
  triangle_winding pts (c, b, a) = opposite <$> triangle_winding pts (a, b, c).
Proof.
  unfold triangle_winding. cbn [fst snd].
  destruct (pts !! a) as [p|], (pts !! b) as [q|], (pts !! c) as [r|]; try reflexivity.
  cbn. f_equal. apply orientation_opp. unfold signed_area2. ring.
Qed.

(** X14: the two index lists name the same two triangles, each read in the
    opposite order. Over any four vertices, whatever their coordinates, each
    triangle of [2,1,0,0,3,2] has the orientation opposite to the one the
    triangle at the same place of [0,1,2,2,3,0] has: the two draws of a frame
    never face the same way, unless the triangle is degenerate. *)
Theorem X14_index_lists_opposite (vs : list Vertex) :
  windings vs indices_ccw = map (fmap opposite) (windings vs indices_cw).
Proof.
  unfold windings, indices_ccw, indices_cw. cbn [triangles map].
  now rewrite (triangle_winding_rev _ 0 1 2), (triangle_winding_rev _ 2 3 0).
Qed.

Lemma position2_mirrored (v v' : Vertex) :
  (pos v').1.1 = (pos v).1.1 -> (pos v').1.2 = neg ((pos v).1.2) ->
  (position2 v').1 = (position2 v).1 /\ ((position2 v').2 == - (position2 v).2)%Q.
Proof.
  intros Hx Hy. unfold position2. cbn [fst snd]. rewrite Hx, Hy. split; [reflexivity|].
  destruct ((pos v).1.2) as [s|s| |[] m e]; cbn [neg SFopp to_Q negb]; lra.
Qed.

Lemma triangle_winding_mirrored (pts pts' : list point) (t : nat * nat * nat) :
  Forall2 (fun p p' => p'.1 = p.1 /\ (p'.2 == - p.2)%Q) pts pts' ->
  triangle_winding pts' t = opposite <$> triangle_winding pts t.
Proof.
  intros H. unfold triangle_winding. unfold point in *.
  assert (L : forall i, match pts !! i, pts' !! i with
                        | Some p, Some p' => p'.1 = p.1 /\ (p'.2 == - p.2)%Q
                        | None, None => True
                        | _, _ => False
                        end).
  { intros i. destruct (pts !! i) as [p|] eqn:E.
    - destruct (Forall2_lookup_l _ _ _ _ _ H E) as (p' & -> & Hp). exact Hp.
    - apply lookup_ge_None in E. rewrite (Forall2_length _ _ _ H) in E.
      apply lookup_ge_None in E. now rewrite E. }
  pose proof (L t.1.1) as La. pose proof (L t.1.2) as Lb. pose proof (L t.2) as Lc.
  destruct (pts !! t.1.1) as [p|], (pts' !! t.1.1) as [p'|]; try contradiction;
    [|reflexivity].
  destruct (pts !! t.1.2) as [q|], (pts' !! t.1.2) as [q'|]; try contradiction;
    [|reflexivity].
  destruct (pts !! t.2) as [r|], (pts' !! t.2) as [r'|]; try contradiction;
    [|reflexivity].
  cbn. f_equal. apply orientation_opp. unfold signed_area2.
  destruct La as [-> La], Lb as [-> Lb], Lc as [-> Lc]. rewrite La, Lb, Lc. ring.
Qed.

(** X15: mirroring the quad in y turns every triangle over. For any ratio
    [ar] and any index list, each triangle over the Y-down vertex set has the
    orientation opposite to the one it has over the Y-up vertex set; read
    with the index list of the other name, the two vertex sets give the same
    orientations. *)
Theorem X15_vertex_sets_opposite (ar : float) (idx : list nat) :
  windings (verticesYNeg ar) idx = map (fmap opposite) (windings (verticesYPos ar) idx)
  /\ windings (verticesYNeg ar) indices_ccw = windings (verticesYPos ar) indices_cw
  /\ windings (verticesYNeg ar) indices_cw = windings (verticesYPos ar) indices_ccw.
Proof.
  assert (Hm : Forall2 (fun p p' => p'.1 = p.1 /\ (p'.2 == - p.2)%Q)
                 (map position2 (verticesYPos ar)) (map position2 (verticesYNeg ar))).
  { unfold verticesYPos, verticesYNeg. cbn [map].
    repeat (constructor; [apply position2_mirrored; reflexivity|]). constructor. }
  assert (Hall : forall idx', windings (verticesYNeg ar) idx'
                              = map (fmap opposite) (windings (verticesYPos ar) idx')).
  { intros idx'. unfold windings. rewrite map_map. apply map_ext. intros t.
    now apply triangle_winding_mirrored. }
  assert (Hinv : forall l : list (option Winding),
             map (fmap opposite) (map (fmap opposite) l) = l).
  { intros l. rewrite map_map. rewrite <- (map_id l) at 2. apply map_ext.
    intros [[]|]; reflexivity. }
  split; [apply Hall|]. split.
  - rewrite Hall. unfold windings, indices_ccw, indices_cw. cbn [triangles map].
    rewrite (triangle_winding_rev _ 0 1 2), (triangle_winding_rev _ 2 3 0).
    now destruct (triangle_winding _ (0, 1, 2)%nat) as [[]|],
      (triangle_winding _ (2, 3, 0)%nat) as [[]|].
  - rewrite Hall. unfold windings, indices_ccw, indices_cw. cbn [triangles map].
    now rewrite (triangle_winding_rev _ 0 1 2), (triangle_winding_rev _ 2 3 0).
Qed.

(** ** Rounding in general *)

Lemma digits2_pos_spec (p : positive) :
  2 ^ (Zpos (digits2_pos p) - 1) <= Zpos p < 2 ^ Zpos (digits2_pos p).
Proof.
  rewrite digits2_pos_log2.
  pose proof (Z.log2_spec (Zpos p) ltac:(lia)) as H.
  replace (Z.log2 (Zpos p) + 1 - 1) with (Z.log2 (Zpos p)) by lia.
  replace (Z.log2 (Zpos p) + 1) with (Z.succ (Z.log2 (Zpos p))) by lia.
  exact H.
Qed.

(** Shifting [p] bits out divides the mantissa by [2^p], rounding down. *)
Lemma iter_pos_shr_1_bounds (p : positive) : forall mrs : shr_record,
  0 <= shr_m mrs ->
  0 <= shr_m (SpecFloat.iter_pos shr_1 p mrs)
  /\ 2 ^ Zpos p * shr_m (SpecFloat.iter_pos shr_1 p mrs) <= shr_m mrs
     < 2 ^ Zpos p * (shr_m (SpecFloat.iter_pos shr_1 p mrs) + 1).
Proof.
  induction p as [p IH|p IH|]; intros mrs Hm; cbn [SpecFloat.iter_pos].
  - pose proof (shr_1_halves mrs Hm) as H1.
    assert (H1' : 0 <= shr_m (shr_1 mrs)) by lia.
    destruct (IH _ H1') as [H2' H2]. destruct (IH _ H2') as [H3' H3].
    split; [exact H3'|]. rewrite pow2_xI.
    assert (Hp : 0 < 2 ^ Zpos p) by (apply Z.pow_pos_nonneg; lia).
    nia.
  - destruct (IH _ Hm) as [H2' H2]. destruct (IH _ H2') as [H3' H3].
    split; [exact H3'|]. rewrite pow2_xO.
    assert (Hp : 0 < 2 ^ Zpos p) by (apply Z.pow_pos_nonneg; lia).
    nia.
  - pose proof (shr_1_halves mrs Hm) as H1. rewrite Z.pow_1_r. lia.
Qed.

(** The first shift of [binary_round_aux] leaves a mantissa of 24 digits. *)
Lemma shr_fexp_digits (m e : Z) (l : location) (d : Z) :
  24 <= d -> 2 ^ (d - 1) <= m < 2 ^ d -> -149 <= e ->
  exists mrs : shr_record,
    shr_fexp prec emax m e l = (mrs, e + d - 24) /\ 2 ^ 23 <= shr_m mrs < 2 ^ 24.
Proof.
  intros Hd Hm He.
  assert (H0 : 0 < 2 ^ (d - 1)) by (apply Z.pow_pos_nonneg; lia).
  destruct m as [|p|p]; try lia.
  unfold shr_fexp. cbn [Zdigits2]. rewrite (digits2_pos_bounds p d) by lia.
  replace (fexp prec emax (d + e) - e) with (d - 24)
    by (unfold fexp, emin, prec, emax; lia).
  destruct (d - 24) as [|n|n] eqn:En; try lia; cbn [shr].
  - eexists. split; [f_equal; lia|]. rewrite shr_m_shr_record_of_loc.
    replace d with 24 in Hm by lia. exact Hm.
  - eexists. split; [f_equal; lia|].
    destruct (iter_pos_shr_1_bounds n (shr_record_of_loc (Zpos p) l)) as [Hn Hb].
    { rewrite shr_m_shr_record_of_loc. lia. }
    rewrite shr_m_shr_record_of_loc in Hb.
    assert (Hp : 0 < 2 ^ Zpos n) by (apply Z.pow_pos_nonneg; lia).
    assert (E1 : 2 ^ (d - 1) = 2 ^ 23 * 2 ^ Zpos n).
    { rewrite <- Z.pow_add_r by lia. f_equal. lia. }
    assert (E2 : 2 ^ d = 2 ^ 24 * 2 ^ Zpos n).
    { rewrite <- Z.pow_add_r by lia. f_equal. lia. }
    rewrite E1, E2 in Hm. nia.
Qed.

Lemma round_finish_range (s : bool) (m e : Z) :
  2 ^ 23 <= m <= 2 ^ 24 -> -149 <= e <= 102 ->
  exists (m' : positive) (e' : Z),
    (let '(mrs, e'') := shr_fexp prec emax m e loc_Exact in
     match shr_m mrs with
     | Z0 => S754_zero s
     | Zpos m0 => if e'' <=? emax - prec then S754_finite s m0 e'' else S754_infinity s
     | Zneg _ => S754_nan
     end) = S754_finite s m' e'
    /\ bounded prec emax m' e' = true
    /\ 2 ^ 23 <= Zpos m' < 2 ^ 24 /\ e <= e' <= e + 1.
Proof.
  intros Hm He. destruct (Z.eq_dec m (2 ^ 24)) as [->|Hne].
  - rewrite shr_fexp_25 by lia.
    cbn [shr_record_of_loc shr_1 shr_m Z.pow Z.pow_pos Pos.iter Z.mul Pos.mul].
    exists 8388608%positive, (e + 1).
    replace (e + 1 <=? emax - prec) with true
      by (symmetry; apply Z.leb_le; unfold emax, prec; lia).
    split; [reflexivity|]. split; [|split; [split; [reflexivity|reflexivity] | lia]].
    unfold bounded, canonical_mantissa, fexp, emin, prec, emax. cbn [digits2_pos Pos.succ].
    apply andb_true_intro; split; [apply Z.eqb_eq | apply Z.leb_le]; lia.
  - rewrite shr_fexp_24 by lia. cbn [shr_record_of_loc shr_m].
    destruct m as [|p|p]; try lia.
    exists p, e.
    replace (e <=? emax - prec) with true
      by (symmetry; apply Z.leb_le; unfold emax, prec; lia).
    split; [reflexivity|]. split; [|split; lia].
    unfold bounded, canonical_mantissa. rewrite (digits2_pos_bounds p 24) by lia.
    unfold fexp, emin, prec, emax.
    apply andb_true_intro; split; [apply Z.eqb_eq | apply Z.leb_le]; lia.
Qed.

(** Rounding a mantissa of [d >= 24] digits at exponent [e] yields a normal
    number whose exponent is [e + d - 24], or one more when the rounding
    carries. *)
Lemma binary_round_aux_digits (s : bool) (q e : Z) (l : location) (d : Z) :
  24 <= d -> 2 ^ (d - 1) <= q < 2 ^ d -> -149 <= e -> e + d <= 126 ->
  exists (m' : positive) (e' : Z),
    binary_round_aux prec emax s q e l = S754_finite s m' e'
    /\ bounded prec emax m' e' = true
    /\ 2 ^ 23 <= Zpos m' < 2 ^ 24 /\ e + d - 24 <= e' <= e + d - 23.
Proof.
  intros Hd Hq He Hed. unfold binary_round_aux.
  destruct (shr_fexp_digits q e l d Hd Hq He) as (mrs & -> & Hm).
  pose proof (round_nearest_even_bounds (shr_m mrs) (loc_of_shr_record mrs)) as Hr.
  destruct (round_finish_range s
              (round_nearest_even (shr_m mrs) (loc_of_shr_record mrs)) (e + d - 24))
    as (m' & e' & E & Hb & Hm' & He'); [lia | lia |].
  exists m', e'. split; [exact E|]. split; [exact Hb|]. split; [exact Hm' | lia].
Qed.

(** Rounding any mantissa at a moderate exponent yields a normal number. *)
Lemma binary_round_digits (s : bool) (p : positive) (e : Z) :
  -125 <= e -> Zpos (digits2_pos p) + e <= 126 ->
  exists (m' : positive) (e' : Z),
    binary_round prec emax s p e = S754_finite s m' e'
    /\ bounded prec emax m' e' = true
    /\ 2 ^ 23 <= Zpos m' < 2 ^ 24
    /\ Zpos (digits2_pos p) + e - 24 <= e' <= Zpos (digits2_pos p) + e - 23.
Proof.
  intros He Hd. unfold binary_round.
  pose proof (digits2_pos_spec p) as Hp.
  set (D := Zpos (digits2_pos p)) in *.
  assert (HD : 0 < D) by (unfold D; lia).
  replace (fexp prec emax (D + e)) with (D + e - 24)
    by (unfold fexp, emin, prec, emax; lia).
  destruct (shl_align_val p e (D + e - 24)) as [Hs Hv]. rewrite Hs.
  set (ez := Z.min e (D + e - 24)) in *.
  assert (Hk : 0 <= e - ez) by (unfold ez; lia).
  assert (Hpow : 0 < 2 ^ (e - ez)) by (apply Z.pow_pos_nonneg; lia).
  destruct (binary_round_aux_digits s (Zpos (shl_align p e (D + e - 24)).1) ez loc_Exact
              (D + (e - ez))) as (m' & e' & E & Hb & Hm' & He').
  - unfold ez. lia.
  - rewrite Hv. fold ez.
    replace (D + (e - ez) - 1) with (D - 1 + (e - ez)) by lia.
    rewrite !Z.pow_add_r by lia. nia.
  - unfold ez. lia.
  - lia.
  - exists m', e'. split; [exact E|]. split; [exact Hb|]. split; [exact Hm' | lia].
Qed.

(** An integer of at most 32 bits converts to a normal [float]. *)
Lemma of_Z_range (z : Z) :
  z <> 0 -> Z.abs z < 2 ^ 32 ->
  exists (m : positive) (e : Z),
    of_Z z = S754_finite (z <? 0) m e
    /\ bounded prec emax m e = true
    /\ 2 ^ 23 <= Zpos m < 2 ^ 24 /\ -23 <= e <= 9.
Proof.
  intros Hz Hb. unfold of_Z, binary_normalize.
  assert (Hd : forall p, Zpos p < 2 ^ 32 -> 1 <= Zpos (digits2_pos p) <= 32).
  { intros p Hp. rewrite digits2_pos_log2.
    pose proof (Z.log2_nonneg (Zpos p)).
    assert (Z.log2 (Zpos p) < 32) by (apply Z.log2_lt_pow2; lia). lia. }
  destruct z as [|p|p]; [contradiction| |];
    (destruct (binary_round_digits (Zpos p <? 0) p 0) as (m & e & E & Hbd & Hm & He);
     [lia | specialize (Hd p ltac:(lia)); lia |]);
    specialize (Hd p ltac:(lia)).
  - exists m, e. repeat split; try assumption; lia.
  - destruct (binary_round_digits true p 0) as (m1 & e1 & E1 & Hbd1 & Hm1 & He1);
      [lia | lia |].
    exists m1, e1. repeat split; try assumption; lia.
Qed.

Lemma of_Z_finite (z : Z) :
  Z.abs z < 2 ^ 32 -> is_finite (of_Z z) && valid_binary prec emax (of_Z z) = true.
Proof.
  intros Hb. destruct (Z.eq_dec z 0) as [->|Hz]; [reflexivity|].
  destruct (of_Z_range z Hz Hb) as (m & e & -> & Hbd & _). cbn. exact Hbd.
Qed.

(** The difference of two converted integers of at most 32 bits is finite. *)
Lemma sub_of_Z_finite (a b : Z) :
  Z.abs a < 2 ^ 32 -> Z.abs b < 2 ^ 32 ->
  is_finite (sub (of_Z a) (of_Z b)) && valid_binary prec emax (sub (of_Z a) (of_Z b))
  = true.
Proof.
  intros Ha Hb.
  destruct (Z.eq_dec a 0) as [->|Hza], (Z.eq_dec b 0) as [->|Hzb].
  - reflexivity.
  - destruct (of_Z_range b Hzb Hb) as (m & e & -> & Hbd & _). cbn. exact Hbd.
  - destruct (of_Z_range a Hza Ha) as (m & e & -> & Hbd & _). cbn. exact Hbd.
  - destruct (of_Z_range a Hza Ha) as (mx & ex & -> & _ & Hmx & Hex).
    destruct (of_Z_range b Hzb Hb) as (my & ey & -> & _ & Hmy & Hey).
    unfold sub, SFsub. cbv zeta.
    set (ez := Z.min ex ey).
    destruct (shl_align_val mx ex ez) as [_ Hvx].
    destruct (shl_align_val my ey ez) as [_ Hvy].
    replace (Z.min ex ez) with ez in Hvx by (unfold ez; lia).
    replace (Z.min ey ez) with ez in Hvy by (unfold ez; lia).
    set (X := Zpos (shl_align mx ex ez).1) in *.
    set (Y := Zpos (shl_align my ey ez).1) in *.
    assert (HX : 0 < X < 2 ^ 56).
    { rewrite Hvx. assert (0 < 2 ^ (ex - ez)) by (apply Z.pow_pos_nonneg; unfold ez; lia).
      assert (2 ^ (ex - ez) <= 2 ^ 32) by (apply Z.pow_le_mono_r; unfold ez; lia).
      change (2 ^ 56) with (2 ^ 24 * 2 ^ 32). nia. }
    assert (HY : 0 < Y < 2 ^ 56).
    { rewrite Hvy. assert (0 < 2 ^ (ey - ez)) by (apply Z.pow_pos_nonneg; unfold ez; lia).
      assert (2 ^ (ey - ez) <= 2 ^ 32) by (apply Z.pow_le_mono_r; unfold ez; lia).
      change (2 ^ 56) with (2 ^ 24 * 2 ^ 32). nia. }
    assert (HD : Z.abs (cond_Zopp (a <? 0) X - cond_Zopp (b <? 0) Y) < 2 ^ 57).
    { change (2 ^ 57) with (2 * 2 ^ 56).
      destruct (a <? 0), (b <? 0); cbn [cond_Zopp]; lia. }
    unfold binary_normalize.
    destruct (cond_Zopp (a <? 0) X - cond_Zopp (b <? 0) Y) as [|p|p]; [reflexivity| |];
      (assert (Hdp : 1 <= Zpos (digits2_pos p) <= 57);
       [ rewrite digits2_pos_log2; pose proof (Z.log2_nonneg (Zpos p));
         assert (Z.log2 (Zpos p) < 57) by (apply Z.log2_lt_pow2; lia); lia |]).
    + destruct (binary_round_digits false p ez) as (m & e & -> & Hbd & _);
        [unfold ez; lia | unfold ez; lia |]. cbn. exact Hbd.
    + destruct (binary_round_digits true p ez) as (m & e & -> & Hbd & _);
        [unfold ez; lia | unfold ez; lia |]. cbn. exact Hbd.
Qed.

(** ** The viewport as numbers *)

Lemma neg_finite (x : float) :
  is_finite (neg x) && valid_binary prec emax (neg x)
  = is_finite x && valid_binary prec emax x.
Proof. now destruct x. Qed.

(** X17: the viewport of a frame never holds an infinity or a NaN. For
    every flip flag, every [int32_t] offset and every [uint32_t] extent, all
    six members of the recorded viewport are finite numbers in canonical
    form, also where the conversions and the subtraction round. *)
Theorem X17_viewport_finite (s : Settings) (p : handle) (w h : Z) (i : nat) :
  - 2 ^ 31 <= offsetx s < 2 ^ 31 -> - 2 ^ 31 <= offsety s < 2 ^ 31 ->
  0 <= w < 2 ^ 32 -> 0 <= h < 2 ^ 32 ->
  exists vp : Viewport,
    frame_viewport (frameCommands s p w h i) = Some vp /\ viewport_finite vp = true.
Proof.
  intros Hx Hy Hw Hh. eexists. split; [apply frame_viewport_frameCommands|].
  unfold viewport_finite, viewport_of.
  destruct (negativeViewport s);
    cbn [forallb vp_x vp_y vp_width vp_height vp_minDepth vp_maxDepth];
    rewrite ?neg_finite, ?sub_of_Z_finite, ?of_Z_finite by lia; reflexivity.
Qed.

Lemma X17_witness :
  exists vp : Viewport,
    frame_viewport (frameCommands (set_offsetx 16777217 defaultSettings) 3 4294967295 600 0)
    = Some vp
    /\ viewport_finite vp = true.
Proof.
  apply (X17_viewport_finite (set_offsetx 16777217 defaultSettings) 3 4294967295 600 0);
    cbn; lia.
Defined.

(** X16: the rows the viewport covers. For inputs the overlay can produce,
    the viewport with the flag off spans the rows from [offsety] to
    [height + offsety], and with the flag on the rows from [- offsety] to
    [height - offsety]: the same offset moves the two viewports in opposite
    directions, and they cover the same rows exactly when [offsety] is 0. *)
Theorem X16_viewport_rows (ox oy w h : Z) :
  valid_inputs ox oy w h ->
  exists r r' : Z * Z * Z * Z,
    rect_of (viewport_of false ox oy w h) = Some r
    /\ rect_of (viewport_of true ox oy w h) = Some r'
    /\ rows_of r = (oy, h + oy)
    /\ rows_of r' = (- oy, h - oy)
    /\ (rows_of r = rows_of r' <-> oy = 0).
Proof.
  intros (Hw & Hh & Hox & Hoy).
  assert (H24 : 2 ^ 24 = 2 * 2 ^ 23) by reflexivity.
  exists (policy_rect false ox oy w h), (policy_rect true ox oy w h).
  split; [apply rect_of_viewport_of; lia|].
  split; [apply rect_of_viewport_of; lia|].
  unfold policy_rect, rows_of.
  replace (Z.min oy (oy + h)) with oy by lia.
  replace (Z.max oy (oy + h)) with (h + oy) by lia.
  replace (Z.min (h - oy) (h - oy + - h)) with (- oy) by lia.
  replace (Z.max (h - oy) (h - oy + - h)) with (h - oy) by lia.
  split; [reflexivity|]. split; [reflexivity|]. split.
  - intros E. injection E. lia.
  - intros ->. f_equal; lia.
Qed.

Lemma X16_witness :
  exists r r' : Z * Z * Z * Z,
    rect_of (viewport_of false 0 100 800 600) = Some r
    /\ rect_of (viewport_of true 0 100 800 600) = Some r'
    /\ rows_of r = (100, 700)
    /\ rows_of r' = (-100, 500).
Proof.
  destruct (X16_viewport_rows 0 100 800 600) as (r & r' & H1 & H2 & H3 & H4 & _).
  - unfold valid_inputs. lia.
  - exists r, r'. repeat split; assumption.
Defined.

(** ** The ratio at the edges *)

Lemma div_eucl_mul (a b : Z) : 0 < b -> Z.div_eucl (a * b) b = (a, 0).
Proof.
  intros Hb.
  assert (E : Z.div_eucl (a * b) b = ((a * b) / b, (a * b) mod b)).
  { unfold Z.div, Z.modulo. now destruct (Z.div_eucl (a * b) b). }
  rewrite E, Z.div_mul, Z.mod_mul by lia. reflexivity.
Qed.

Lemma new_location_0 (n : Z) : 0 < n -> new_location n 0 = loc_Exact.
Proof.
  intros Hn. unfold new_location, new_location_even, new_location_odd.
  destruct (Z.even n); reflexivity.
Qed.

(** X19: on a square swapchain the ratio is exactly [1.0f], so the corners
    of both vertex sets are exactly (-1, 1), (-1, -1), (1, -1), (1, 1) up to
    the order. *)
Theorem X19_square_ratio (width : Z) :
  0 < width < 2 ^ 24 ->
  aspect width width = one
  /\ map (fun v => (pos v).1) (verticesYUp (loadAssets width width))
     = [(neg one, one); (neg one, neg one); (one, neg one); (one, one)]
  /\ map (fun v => (pos v).1) (verticesYDown (loadAssets width width))
     = [(neg one, neg one); (neg one, one); (one, one); (one, neg one)].
Proof.
  intros Hw.
  assert (E : aspect width width = one).
  { unfold aspect. destruct (of_Z_positive_form width Hw) as (m & e & -> & Hm & He).
    unfold div, SFdiv, SFdiv_core_binary. cbn [Zdigits2 xorb].
    rewrite (digits2_pos_bounds m 24) by lia.
    replace (Z.min (fexp prec emax (24 + e - (24 + e))) (e - e)) with (-24)
      by (unfold fexp, emin, prec, emax; lia).
    replace (e - e - -24) with 24 by lia.
    rewrite Z.shiftl_mul_pow2 by lia.
    rewrite (Z.mul_comm (Zpos m)), div_eucl_mul by lia.
    rewrite new_location_0 by lia.
    apply (binary_round_aux_exact false 16777216 8388608 (-24) (-23));
      [lia | reflexivity | reflexivity]. }
  split; [exact E|].
  unfold loadAssets. rewrite E. split; reflexivity.
Qed.

Lemma X19_witness : aspect 1080 1080 = one.
Proof. apply (X19_square_ratio 1080). lia. Defined.

(** X18: [loadAssets] divides by the width unguarded. On an extent of
    width 0 and positive height the ratio is +infinity and the x coordinate
    of every vertex of both sets is an infinity; on an extent of positive
    width and height 0 the ratio is [+0.0] and the x coordinate of every
    vertex is a zero, [+0.0] or [-0.0], so the quad collapses to a line. *)
Theorem X18_empty_extent (n : Z) :
  0 < n < 2 ^ 32 ->
  (aspect 0 n = S754_infinity false
   /\ Forall (fun v => infinite (pos v).1.1 = true)
        (verticesYUp (loadAssets 0 n) ++ verticesYDown (loadAssets 0 n)))
  /\ (aspect n 0 = zero
      /\ Forall (fun v => is_zero (pos v).1.1 = true)
           (verticesYUp (loadAssets n 0) ++ verticesYDown (loadAssets n 0))).
Proof.
  intros Hn.
  destruct (of_Z_range n ltac:(lia) ltac:(lia)) as (m & e & E & _).
  replace (n <? 0) with false in E by (symmetry; apply Z.ltb_ge; lia).
  assert (E1 : aspect 0 n = S754_infinity false).
  { unfold aspect. now rewrite E. }
  assert (E2 : aspect n 0 = zero).
  { unfold aspect. now rewrite E. }
  split; (split; [assumption|]); unfold loadAssets;
    cbn [verticesYUp verticesYDown]; rewrite ?E1, ?E2;
    repeat constructor.
Qed.

Lemma X18_witness :
  aspect 0 600 = S754_infinity false /\ aspect 800 0 = zero.
Proof.
  destruct (X18_empty_extent 600) as ((H1 & _) & _); [lia|].
  destruct (X18_empty_extent 800) as (_ & (H2 & _)); [lia|].
  split; assumption.
Defined.

(** ** The label of a draw and the way it faces *)

(** X20: which way each draw of a frame faces. On a swapchain with sides
    below [2^24], every recorded frame draws twice from buffers that hold
    what the draw reads; with [quadType] 0 the draw sampling the texture
    written into the CW descriptor set assembles two clockwise triangles and
    the one sampling the CCW texture two counter-clockwise triangles, in the
    right-handed test on the stored coordinates; with any other [quadType] it
    is the other way round. *)
Theorem X20_draw_faces (s : Settings) (p : handle) (w h : Z) (i : nat) :
  0 < w < 2 ^ 24 -> 0 < h < 2 ^ 24 ->
  map (fun d => (draw_texture d, draw_windings (loadAssets w h) d))
    (draws (frameCommands s p w h i))
  = if decide (quadType s = 0)
    then [ (Some TextureCW, Some [Some Clockwise; Some Clockwise]);
           (Some TextureCCW, Some [Some CounterClockwise; Some CounterClockwise]) ]
    else [ (Some TextureCW, Some [Some CounterClockwise; Some CounterClockwise]);
           (Some TextureCCW, Some [Some Clockwise; Some Clockwise]) ].
Proof.
  intros Hw Hh. rewrite draws_frameCommands.
  destruct (aspect_valid w h Hw Hh) as [Hv Hp].
  destruct (windings_of_ratio (aspect w h) Hv Hp) as (H1 & H2 & H3 & H4).
  unfold vertexBuffer_of, draw_windings, draw_texture, quad_draw, loadAssets.
  destruct (decide (quadType s = 0));
    cbn [map draw_bound bound_set bound_indices bound_vertices draw_indexCount
         index_data vertex_data indicesCCW indicesCW verticesYUp verticesYDown
         mbind option_bind fmap option_fmap option_map writeDescriptorSets];
    change (take (Z.to_nat 6) indices_cw) with indices_cw;
    change (take (Z.to_nat 6) indices_ccw) with indices_ccw;
    now rewrite ?H1, ?H2, ?H3, ?H4.
Qed.

Lemma X20_witness :
  map (fun d => (draw_texture d, draw_windings (loadAssets 800 600) d))
    (draws (frameCommands defaultSettings 3 800 600 0))
  = [ (Some TextureCW, Some [Some Clockwise; Some Clockwise]);
      (Some TextureCCW, Some [Some CounterClockwise; Some CounterClockwise]) ].
Proof. apply (X20_draw_faces defaultSettings 3 800 600 0); lia. Defined.
